(** * ENC28J60 SPI Ethernet driver (stm32-enc28j60): model and properties

    A shallow embedding of [enc28j60.c] / [enc28j60.h].  The driver talks to
    the chip through the STM32 HAL (one-byte SPI exchanges, two GPIO lines,
    the millisecond tick) and two helpers of the author's [utils] library
    ([sleep_ms], the periodic timer).  None of these is part of the
    repository, so they are the fields of the class [Platform]; the driver is
    written once, against that interface, in a state monad whose state is
    the device handle, the platform state and the log of every call the
    driver made to the platform.

    The model is the build without [ENC28J60_DEBUG]: [ENC28J60_DEBUG_OUT]
    expands to nothing and its arguments are never evaluated. *)

From Stdlib Require Import ZArith List Bool Lia.
Import ListNotations.
Local Open Scope Z_scope.

(** ** Machine integers *)

(** [uint8_t], [uint16_t] and [uint32_t] values are numbers in [Z] reduced
    modulo the width; [int] is 32 bits wide on the target (two's complement
    wrap-around written out). *)
Definition u8 (z : Z) : Z := z mod 256.
Definition u16 (z : Z) : Z := z mod 65536.
Definition u32 (z : Z) : Z := z mod 4294967296.
Definition INT_MAX : Z := 2147483647.
Definition INT_MIN : Z := -2147483648.
Definition s32 (z : Z) : Z := (z + 2147483648) mod 4294967296 - 2147483648.

(** ** Register map and constants ([enc28j60.c], lines 17-99) *)

Definition EIE : Z := 0x1b.
Definition EIR : Z := 0x1c.
Definition ESTAT : Z := 0x1d.
Definition ECON2 : Z := 0x1e.
Definition ECON1 : Z := 0x1f.

Definition ESTAT_CLKRDY : Z := 0x01.
Definition ESTAT_TXABRT : Z := 0x02.

Definition ECON1_RXEN : Z := 0x04.
Definition ECON1_TXRTS : Z := 0x08.

Definition ECON2_AUTOINC : Z := 0x80.
Definition ECON2_PKTDEC : Z := 0x40.

Definition EIR_TXIF : Z := 0x08.

Definition ERXTX_BANK : Z := 0x00.

Definition ERDPTL : Z := 0x00.
Definition ERDPTH : Z := 0x01.
Definition EWRPTL : Z := 0x02.
Definition EWRPTH : Z := 0x03.
Definition ETXSTL : Z := 0x04.
Definition ETXSTH : Z := 0x05.
Definition ETXNDL : Z := 0x06.
Definition ETXNDH : Z := 0x07.
Definition ERXSTL : Z := 0x08.
Definition ERXSTH : Z := 0x09.
Definition ERXNDL : Z := 0x0a.
Definition ERXNDH : Z := 0x0b.
Definition ERXRDPTL : Z := 0x0c.
Definition ERXRDPTH : Z := 0x0d.

Definition RX_BUF_START : Z := 0x0000.
Definition RX_BUF_END : Z := 0x0fff.

Definition TX_BUF_START : Z := 0x1200.

Definition MACONX_BANK : Z := 0x02.

Definition MACON1 : Z := 0x00.
Definition MACON3 : Z := 0x02.
Definition MACON4 : Z := 0x03.
Definition MABBIPG : Z := 0x04.
Definition MAIPGL : Z := 0x06.
Definition MAIPGH : Z := 0x07.
Definition MAMXFLL : Z := 0x0a.
Definition MAMXFLH : Z := 0x0b.

Definition MACON1_TXPAUS : Z := 0x08.
Definition MACON1_RXPAUS : Z := 0x04.
Definition MACON1_MARXEN : Z := 0x01.

Definition MACON3_PADCFG_FULL : Z := 0xe0.
Definition MACON3_TXCRCEN : Z := 0x10.
Definition MACON3_FRMLNEN : Z := 0x02.
Definition MACON3_FULDPX : Z := 0x01.

Definition MAX_MAC_LENGTH : Z := 1518.

Definition MAADRX_BANK : Z := 0x03.
Definition MAADR1 : Z := 0x04.
Definition MAADR2 : Z := 0x05.
Definition MAADR3 : Z := 0x02.
Definition MAADR4 : Z := 0x03.
Definition MAADR5 : Z := 0x00.
Definition MAADR6 : Z := 0x01.
Definition MISTAT : Z := 0x0a.
Definition EREVID : Z := 0x12.

Definition EPKTCNT_BANK : Z := 0x01.
Definition ERXFCON : Z := 0x18.
Definition EPKTCNT : Z := 0x19.

Definition ERXFCON_UCEN : Z := 0x80.
Definition ERXFCON_ANDOR : Z := 0x40.
Definition ERXFCON_CRCEN : Z := 0x20.
Definition ERXFCON_PMEM : Z := 0x10.
Definition ERXFCON_HTEN : Z := 0x04.
Definition ERXFCON_MCEN : Z := 0x02.
Definition ERXFCON_BCEN : Z := 0x01.

Definition HAL_OK : Z := 0.

(** ** The platform the driver is linked against *)

Inductive GPIO_PinState := GPIO_PIN_RESET | GPIO_PIN_SET.

(** What the driver needs from outside the repository.  [HW] is the state
    of everything behind the HAL (the chip, the bus, the clock); every call
    takes it and hands it back, so a platform is a deterministic machine the
    driver steps.  [HAL_SPI_TransmitReceive] is the one-byte exchange the
    driver performs (its status result is ignored by the driver; the byte
    is whatever ends up in [rx[0]]). *)
Class Platform := {
  HW : Type;
  PeriodicTimer : Type;
  HAL_SPI_TransmitReceive : Z -> Z -> HW -> Z * HW;
  HAL_GPIO_WritePin : Z -> Z -> GPIO_PinState -> HW -> HW;
  HAL_GetTick : HW -> Z * HW;
  sleep_ms : Z -> HW -> HW;
  periodicTimer_setup : PeriodicTimer -> Z -> HW -> PeriodicTimer * HW;
  periodicTimer_hasElapsed : PeriodicTimer -> HW -> bool * PeriodicTimer * HW
}.

(** One entry per call of a leaf routine of the driver, in program order. *)
Inductive Event :=
| EvSpiAssert
| EvSpiDeassert
| EvSpiTx (tx rx : Z)
| EvResetAssert
| EvResetDeassert
| EvSleep (ms : Z)
| EvGetTick (t : Z).

Section Driver.
Context {P : Platform}.

(** ** The device handle ([enc28j60.h]) *)

Record ENC28J60 := {
  spi : Z;
  macAddress : list Z;
  csPort : Z;
  csPin : Z;
  resetPort : Z;
  resetPin : Z;
  bank : Z;
  receivedPackets : Z;
  sentPackets : Z;
  watchDogTimer : PeriodicTimer
}.

Definition set_bank (b : Z) (e : ENC28J60) : ENC28J60 :=
  {| spi := spi e; macAddress := macAddress e; csPort := csPort e;
     csPin := csPin e; resetPort := resetPort e; resetPin := resetPin e;
     bank := b; receivedPackets := receivedPackets e;
     sentPackets := sentPackets e; watchDogTimer := watchDogTimer e |}.

Definition set_receivedPackets (n : Z) (e : ENC28J60) : ENC28J60 :=
  {| spi := spi e; macAddress := macAddress e; csPort := csPort e;
     csPin := csPin e; resetPort := resetPort e; resetPin := resetPin e;
     bank := bank e; receivedPackets := n;
     sentPackets := sentPackets e; watchDogTimer := watchDogTimer e |}.

Definition set_sentPackets (n : Z) (e : ENC28J60) : ENC28J60 :=
  {| spi := spi e; macAddress := macAddress e; csPort := csPort e;
     csPin := csPin e; resetPort := resetPort e; resetPin := resetPin e;
     bank := bank e; receivedPackets := receivedPackets e;
     sentPackets := n; watchDogTimer := watchDogTimer e |}.

Definition set_watchDogTimer (t : PeriodicTimer) (e : ENC28J60) : ENC28J60 :=
  {| spi := spi e; macAddress := macAddress e; csPort := csPort e;
     csPin := csPin e; resetPort := resetPort e; resetPin := resetPin e;
     bank := bank e; receivedPackets := receivedPackets e;
     sentPackets := sentPackets e; watchDogTimer := t |}.

(** ** Program state and the monad of driver routines *)

Record World := {
  dev : ENC28J60;
  hw : HW;
  log : list Event
}.

(** A routine either returns a value and a new state, or runs out of the
    iteration budget of one of its polling loops ([None]). *)
Definition M (A : Type) : Type := World -> option (A * World).

Definition ret {A} (a : A) : M A := fun w => Some (a, w).

Definition bind {A B} (m : M A) (f : A -> M B) : M B :=
  fun w => match m w with
           | Some (a, w') => f a w'
           | None => None
           end.

Notation "x <- m ;; k" := (bind m (fun x => k))
  (at level 61, m at next level, right associativity).
Notation "m ;; k" := (bind m (fun _ => k))
  (at level 61, right associativity).

Definition gets {A} (f : ENC28J60 -> A) : M A := fun w => Some (f (dev w), w).

Definition modify (f : ENC28J60 -> ENC28J60) : M unit :=
  fun w => Some (tt, {| dev := f (dev w); hw := hw w; log := log w |}).

(** [while (cond) { body }], where the body may leave the function with
    [return v] (it then yields [Some v]).  The result is [Some v] when the
    body returned [v], and [None] when the condition became false. *)
Fixpoint while_ {R} (fuel : nat) (cond : M bool) (body : M (option R))
  : M (option R) :=
  match fuel with
  | O => fun _ => None
  | S fuel' =>
      c <- cond ;;
      if c then
        r <- body ;;
        match r with
        | Some v => ret (Some v)
        | None => while_ fuel' cond body
        end
      else ret None
  end.

(** ** Leaf routines: pins, bus, clock ([enc28j60.c], lines 642-664) *)

Definition _ENC28J60_spiAssert : M unit := fun w =>
  Some (tt, {| dev := dev w;
               hw := HAL_GPIO_WritePin (csPort (dev w)) (csPin (dev w))
                       GPIO_PIN_RESET (hw w);
               log := log w ++ [EvSpiAssert] |}).

Definition _ENC28J60_spiDeassert : M unit := fun w =>
  Some (tt, {| dev := dev w;
               hw := HAL_GPIO_WritePin (csPort (dev w)) (csPin (dev w))
                       GPIO_PIN_SET (hw w);
               log := log w ++ [EvSpiDeassert] |}).

Definition _ENC28J60_spiTx (value : Z) : M Z := fun w =>
  let '(rx, hw') := HAL_SPI_TransmitReceive (spi (dev w)) (u8 value) (hw w) in
  Some (u8 rx, {| dev := dev w; hw := hw';
                  log := log w ++ [EvSpiTx (u8 value) (u8 rx)] |}).

Definition _ENC28J60_resetAssert : M unit := fun w =>
  Some (tt, {| dev := dev w;
               hw := HAL_GPIO_WritePin (resetPort (dev w)) (resetPin (dev w))
                       GPIO_PIN_RESET (hw w);
               log := log w ++ [EvResetAssert] |}).

Definition _ENC28J60_resetDeassert : M unit := fun w =>
  Some (tt, {| dev := dev w;
               hw := HAL_GPIO_WritePin (resetPort (dev w)) (resetPin (dev w))
                       GPIO_PIN_SET (hw w);
               log := log w ++ [EvResetDeassert] |}).

(** [sleep_ms(ms)] and [HAL_GetTick()] as the driver calls them. *)
Definition do_sleep_ms (ms : Z) : M unit := fun w =>
  Some (tt, {| dev := dev w; hw := sleep_ms ms (hw w);
               log := log w ++ [EvSleep ms] |}).

Definition do_HAL_GetTick : M Z := fun w =>
  let '(t, hw') := HAL_GetTick (hw w) in
  Some (u32 t, {| dev := dev w; hw := hw'; log := log w ++ [EvGetTick (u32 t)] |}).

(** ** Bus protocol layer ([enc28j60.c], lines 131-238) *)

Definition b2z (b : bool) : Z := if b then 1 else 0.

(** [switch (enc28j60->bank)]: the cases in the order of the source; every
    bank other than [MACONX_BANK] and [MAADRX_BANK] takes [return 0]. *)
Definition _ENC28J60_isMacMiiReg (e : ENC28J60) (reg : Z) : Z :=
  if bank e =? MACONX_BANK then b2z (reg <? EIE)
  else if bank e =? MAADRX_BANK then b2z ((reg <=? MAADR2) || (reg =? MISTAT))
  else 0.

Definition _ENC28J60_readReg (reg : Z) : M Z :=
  _ENC28J60_spiAssert ;;
  _ENC28J60_spiTx (Z.lor 0x00 (Z.land reg 0x1f)) ;;
  mm <- gets (fun e => _ENC28J60_isMacMiiReg e reg) ;;
  (if negb (mm =? 0) then _ENC28J60_spiTx 0x00 else ret 0) ;;
  r <- _ENC28J60_spiTx 0x00 ;;
  _ENC28J60_spiDeassert ;;
  ret r.

Definition _ENC28J60_writeReg (reg data : Z) : M unit :=
  _ENC28J60_spiAssert ;;
  _ENC28J60_spiTx (Z.lor 0x40 (Z.land reg 0x1f)) ;;
  _ENC28J60_spiTx data ;;
  _ENC28J60_spiDeassert.

(** [data] is a [uint16_t] parameter, [reg + 1] a [uint8_t] argument. *)
Definition _ENC28J60_writeReg16 (reg data : Z) : M unit :=
  let data := u16 data in
  _ENC28J60_writeReg reg (Z.land data 0xff) ;;
  _ENC28J60_writeReg (u8 (reg + 1)) (Z.land (Z.shiftr data 8) 0xff).

Definition _ENC28J60_setRegBitField (reg mask : Z) : M unit :=
  mm <- gets (fun e => _ENC28J60_isMacMiiReg e reg) ;;
  if negb (mm =? 0) then
    v <- _ENC28J60_readReg reg ;;
    _ENC28J60_writeReg reg (Z.lor v mask)
  else
    _ENC28J60_spiAssert ;;
    _ENC28J60_spiTx (Z.lor 0x80 (Z.land reg 0x1f)) ;;
    _ENC28J60_spiTx mask ;;
    _ENC28J60_spiDeassert.

Definition _ENC28J60_clearRegBitField (reg mask : Z) : M unit :=
  mm <- gets (fun e => _ENC28J60_isMacMiiReg e reg) ;;
  if negb (mm =? 0) then
    v <- _ENC28J60_readReg reg ;;
    _ENC28J60_writeReg reg (Z.land v (Z.lnot mask))
  else
    _ENC28J60_spiAssert ;;
    _ENC28J60_spiTx (Z.lor 0xa0 (Z.land reg 0x1f)) ;;
    _ENC28J60_spiTx mask ;;
    _ENC28J60_spiDeassert.

Definition _ENC28J60_setRegBank (new_bank : Z) : M unit :=
  v <- _ENC28J60_readReg ECON1 ;;
  _ENC28J60_writeReg ECON1 (Z.lor (Z.land v 0xfc) (Z.land new_bank 0x03)) ;;
  modify (set_bank new_bank).

(** [for (i = 0; i < datalen; i++) spiTx(data[i]);] with [i] the index
    reached so far and [n] the iterations left. *)
Fixpoint writeData_loop (n : nat) (i : nat) (data : list Z) : M unit :=
  match n with
  | O => ret tt
  | S n' =>
      _ENC28J60_spiTx (nth i data 0) ;;
      writeData_loop n' (S i) data
  end.

Definition _ENC28J60_writeData (data : list Z) (datalen : Z) : M unit :=
  _ENC28J60_spiAssert ;;
  _ENC28J60_spiTx 0x7a ;;
  writeData_loop (Z.to_nat datalen) 0 data ;;
  _ENC28J60_spiDeassert.

Definition _ENC28J60_writeDataByte (byte : Z) : M unit :=
  _ENC28J60_writeData [u8 byte] 1.

(** [buf[i] = v]: a store inside the buffer.  A store past its end is
    undefined in C; here it leaves the buffer alone, and the theorems below
    only use stores that are in range. *)
Fixpoint store (i : nat) (v : Z) (buf : list Z) : list Z :=
  match buf, i with
  | [], _ => []
  | _ :: tl, O => v :: tl
  | b :: tl, S i' => b :: store i' v tl
  end.

(** [for (i = 0; i < len; i++) buf[i] = spiTx(0x00);] *)
Fixpoint readData_loop (n : nat) (i : nat) (buf : list Z) : M (list Z) :=
  match n with
  | O => ret buf
  | S n' =>
      v <- _ENC28J60_spiTx 0x00 ;;
      readData_loop n' (S i) (store i v buf)
  end.

(** Returns the buffer as written and the count [i] the source returns. *)
Definition _ENC28J60_readData (buf : list Z) (len : Z) : M (list Z * Z) :=
  _ENC28J60_spiAssert ;;
  _ENC28J60_spiTx 0x3a ;;
  buf' <- readData_loop (Z.to_nat len) 0 buf ;;
  _ENC28J60_spiDeassert ;;
  ret (buf', Z.max 0 len).

(** [uint8_t r; readData(&r, 1); return r;] *)
Definition _ENC28J60_readDataByte : M Z :=
  br <- _ENC28J60_readData [0] 1 ;;
  ret (nth 0 (fst br) 0).

Definition _ENC28J60_softReset : M unit :=
  _ENC28J60_spiAssert ;;
  _ENC28J60_spiTx 0xff ;;
  _ENC28J60_spiDeassert ;;
  modify (set_bank ERXTX_BANK).

(** ** Chip control layer ([enc28j60.c], lines 240-461) *)

Definition _ENC28J60_readRev : M Z :=
  _ENC28J60_setRegBank MAADRX_BANK ;;
  rev <- _ENC28J60_readReg EREVID ;;
  ret (if rev =? 2 then 1 else if rev =? 6 then 7 else rev).

(** [_ENC28J60_reset], lines 315-327: the reset pulse, the erratum delay and
    the deadline [timeoutTime = HAL_GetTick() + 5000] (a [uint32_t]). *)
Definition reset_pulse : M Z :=
  _ENC28J60_resetAssert ;;
  do_sleep_ms 2 ;;
  _ENC28J60_resetDeassert ;;
  do_sleep_ms 2 ;;
  do_sleep_ms 2 ;;
  t0 <- do_HAL_GetTick ;;
  ret (u32 (t0 + 5000)).

(** Lines 328-332:
    [while ((readReg(ESTAT) & ESTAT_CLKRDY) == 0) if (HAL_GetTick() > timeoutTime) return 1;] *)
Definition wait_ost (fuel : nat) (timeoutTime : Z) : M (option Z) :=
  while_ fuel
    (v <- _ENC28J60_readReg ESTAT ;; ret (Z.land v ESTAT_CLKRDY =? 0))
    (t <- do_HAL_GetTick ;;
     if t >? timeoutTime then ret (Some 1) else ret None).

(** Lines 335-460: buffer pointers, filters, MAC registers, station
    address, auto-increment, receive enable; [return 0]. *)
Definition reset_configure : M Z :=
  _ENC28J60_setRegBank ERXTX_BANK ;;
  _ENC28J60_writeReg16 ERXSTL RX_BUF_START ;;
  _ENC28J60_writeReg16 ERXNDL RX_BUF_END ;;
  _ENC28J60_writeReg16 ERDPTL RX_BUF_START ;;
  _ENC28J60_writeReg16 ERXRDPTL RX_BUF_END ;;
  _ENC28J60_setRegBank EPKTCNT_BANK ;;
  _ENC28J60_writeReg ERXFCON
    (Z.lor (Z.lor ERXFCON_UCEN ERXFCON_CRCEN) ERXFCON_BCEN) ;;
  _ENC28J60_setRegBank MACONX_BANK ;;
  _ENC28J60_setRegBitField MACON1
    (Z.lor (Z.lor MACON1_MARXEN MACON1_TXPAUS) MACON1_RXPAUS) ;;
  _ENC28J60_setRegBitField MACON3
    (Z.lor (Z.lor (Z.lor MACON3_PADCFG_FULL MACON3_TXCRCEN) MACON3_FULDPX)
       MACON3_FRMLNEN) ;;
  _ENC28J60_writeReg16 MAMXFLL MAX_MAC_LENGTH ;;
  _ENC28J60_writeReg MABBIPG 0x15 ;;
  _ENC28J60_writeReg MAIPGL 0x12 ;;
  _ENC28J60_setRegBank MAADRX_BANK ;;
  mac <- gets macAddress ;;
  _ENC28J60_writeReg MAADR6 (nth 5 mac 0) ;;
  _ENC28J60_writeReg MAADR5 (nth 4 mac 0) ;;
  _ENC28J60_writeReg MAADR4 (nth 3 mac 0) ;;
  _ENC28J60_writeReg MAADR3 (nth 2 mac 0) ;;
  _ENC28J60_writeReg MAADR2 (nth 1 mac 0) ;;
  _ENC28J60_writeReg MAADR1 (nth 0 mac 0) ;;
  _ENC28J60_setRegBitField ECON2 ECON2_AUTOINC ;;
  _ENC28J60_writeReg ECON1 ECON1_RXEN ;;
  ret 0.

Definition _ENC28J60_reset (fuel : nat) : M Z :=
  timeoutTime <- reset_pulse ;;
  out <- wait_ost fuel timeoutTime ;;
  match out with
  | Some code => ret code
  | None => reset_configure
  end.

Definition do_periodicTimer_setup (ms : Z) : M unit := fun w =>
  let '(t, hw') := periodicTimer_setup (watchDogTimer (dev w)) ms (hw w) in
  Some (tt, {| dev := set_watchDogTimer t (dev w); hw := hw'; log := log w |}).

Definition do_periodicTimer_hasElapsed : M bool := fun w =>
  let '(b, t, hw') := periodicTimer_hasElapsed (watchDogTimer (dev w)) (hw w) in
  Some (b, {| dev := set_watchDogTimer t (dev w); hw := hw'; log := log w |}).

(** [ENC28J60_setup], lines 122-125: the fields and the watchdog timer. *)
Definition setup_fields : M unit :=
  modify (set_bank ERXTX_BANK) ;;
  modify (set_receivedPackets 0) ;;
  modify (set_sentPackets 0) ;;
  do_periodicTimer_setup (30 * 1000).

(** Lines 126-128.  [while (_ENC28J60_reset(enc28j60) != 0);] has an empty
    body. *)
Definition ENC28J60_setup (fuel : nat) : M Z :=
  setup_fields ;;
  @while_ unit fuel
    (r <- _ENC28J60_reset fuel ;; ret (negb (r =? 0)))
    (ret None) ;;
  ret HAL_OK.

(** ** Packet I/O layer ([enc28j60.c], lines 463-624) *)

(** [ENC28J60_send], lines 487-510: load the frame, start the transmission,
    compute the deadline.  [datalen] is a [uint16_t], [dataend] too. *)
Definition send_load (data : list Z) (datalen : Z) : M Z :=
  _ENC28J60_setRegBank ERXTX_BANK ;;
  _ENC28J60_writeReg16 ETXSTL TX_BUF_START ;;
  _ENC28J60_writeReg16 EWRPTL TX_BUF_START ;;
  _ENC28J60_writeDataByte 0x00 ;;
  _ENC28J60_writeData data datalen ;;
  let dataend := u16 (TX_BUF_START + datalen) in
  _ENC28J60_writeReg16 ETXNDL dataend ;;
  _ENC28J60_clearRegBitField EIR EIR_TXIF ;;
  _ENC28J60_setRegBitField ECON1 ECON1_TXRTS ;;
  t0 <- do_HAL_GetTick ;;
  ret (u32 (t0 + 5000)).

(** Lines 511-516:
    [while ((readReg(ECON1) & ECON1_TXRTS) > 0) if (HAL_GetTick() > timeoutTime) return 0;] *)
Definition wait_txrts (fuel : nat) (timeoutTime : Z) : M (option Z) :=
  while_ fuel
    (v <- _ENC28J60_readReg ECON1 ;; ret (Z.land v ECON1_TXRTS >? 0))
    (t <- do_HAL_GetTick ;;
     if t >? timeoutTime then ret (Some 0) else ret None).

Definition ENC28J60_send (fuel : nat) (data : list Z) (datalen : Z) : M Z :=
  timeoutTime <- send_load data datalen ;;
  out <- wait_txrts fuel timeoutTime ;;
  match out with
  | Some r => ret r
  | None =>
      modify (fun e => set_sentPackets (s32 (sentPackets e + 1)) e) ;;
      ret datalen
  end.

(** [for (i = 0; i < len; i++) readDataByte();] (the "flush rx fifo" loop). *)
Fixpoint flush_loop (n : nat) : M unit :=
  match n with
  | O => ret tt
  | S n' => _ENC28J60_readDataByte ;; flush_loop n'
  end.

(** Returns the [int] result together with the caller's buffer as the call
    leaves it.  [bufsize] is a [uint16_t]. *)
Definition ENC28J60_receive (buffer : list Z) (bufsize : Z) : M (Z * list Z) :=
  _ENC28J60_setRegBank EPKTCNT_BANK ;;
  n <- _ENC28J60_readReg EPKTCNT ;;
  if n =? 0 then ret (0, buffer)
  else
    _ENC28J60_setRegBank ERXTX_BANK ;;
    nxtpkt0 <- _ENC28J60_readDataByte ;;
    nxtpkt1 <- _ENC28J60_readDataByte ;;
    length0 <- _ENC28J60_readDataByte ;;
    length1 <- _ENC28J60_readDataByte ;;
    _ENC28J60_readDataByte ;;
    _ENC28J60_readDataByte ;;
    let len := Z.shiftl length1 8 + length0 in
    be <- (if bufsize >=? len then
             br <- _ENC28J60_readData buffer len ;; ret (fst br, 0)
           else
             flush_loop (Z.to_nat len) ;; ret (buffer, 1)) ;;
    (if negb (Z.rem len 2 =? 0) then _ENC28J60_readDataByte else ret 0) ;;
    let next := Z.shiftl nxtpkt1 8 + nxtpkt0 in
    let next := if next =? RX_BUF_START then RX_BUF_END else next - 1 in
    _ENC28J60_writeReg16 ERXRDPTL next ;;
    _ENC28J60_setRegBitField ECON2 ECON2_PKTDEC ;;
    if negb (snd be =? 0) then ret (0, fst be)
    else
      modify (fun e => set_receivedPackets (s32 (receivedPackets e + 1)) e) ;;
      ret (len, fst be).

(** ** Watchdog ([enc28j60.c], lines 626-640) *)

Definition ENC28J60_tick (fuel : nat) : M unit :=
  elapsed <- do_periodicTimer_hasElapsed ;;
  if elapsed then
    r <- gets receivedPackets ;;
    s <- gets sentPackets ;;
    (if r <=? s then _ENC28J60_reset fuel else ret 0) ;;
    modify (set_receivedPackets 0) ;;
    modify (set_sentPackets 0)
  else ret tt.

(** ** Reading the log as the chip sees it *)

(** The bytes exchanged while the chip is selected, as (sent, received). *)
Definition Frame : Type := list (Z * Z).

(** What one bus transaction asks of the chip (the SPI instruction set the
    source's comments quote: an opcode in the three high bits, an argument
    in the five low ones), and the other calls the driver makes. *)
Inductive Act :=
| RCR (reg value : Z)
| RBM (bytes : list Z)
| WCR (reg data : Z)
| WBM (bytes : list Z)
| BFS (reg mask : Z)
| BFC (reg mask : Z)
| SRC
| Garbled (f : Frame)
| ResetAssert
| ResetDeassert
| Delay (ms : Z)
| Clock (t : Z).

Definition decode (f : Frame) : Act :=
  match f with
  | [] => Garbled f
  | (op, _) :: args =>
      let a := Z.land op 0x1f in
      match Z.shiftr op 5, args with
      | 0, [(_, v)] => RCR a v
      | 0, [_; (_, v)] => RCR a v
      | 1, _ => if a =? 0x1a then RBM (map snd args) else Garbled f
      | 2, [(d, _)] => WCR a d
      | 3, _ => if a =? 0x1a then WBM (map fst args) else Garbled f
      | 4, [(m, _)] => BFS a m
      | 5, [(m, _)] => BFC a m
      | 7, [] => if a =? 0x1f then SRC else Garbled f
      | _, _ => Garbled f
      end
  end.

(** [cur] is the transaction in progress, if the chip is selected. *)
Fixpoint acts_from (cur : option Frame) (l : list Event) : list Act :=
  match l with
  | [] => []
  | EvSpiAssert :: l' => acts_from (Some []) l'
  | EvSpiTx tx rx :: l' =>
      acts_from (option_map (fun f => f ++ [(tx, rx)]) cur) l'
  | EvSpiDeassert :: l' =>
      match cur with
      | Some f => decode f :: acts_from None l'
      | None => acts_from None l'
      end
  | EvResetAssert :: l' => ResetAssert :: acts_from cur l'
  | EvResetDeassert :: l' => ResetDeassert :: acts_from cur l'
  | EvSleep ms :: l' => Delay ms :: acts_from cur l'
  | EvGetTick t :: l' => Clock t :: acts_from cur l'
  end.

Definition acts (l : list Event) : list Act := acts_from None l.

(** The events of one complete transaction. *)
Definition txn (f : Frame) : list Event :=
  EvSpiAssert :: map (fun p => EvSpiTx (fst p) (snd p)) f ++ [EvSpiDeassert].

(** A stretch of log made of complete transactions and other calls, next to
    its reading. *)
Inductive Trace : list Event -> list Act -> Prop :=
| Trace_nil : Trace [] []
| Trace_txn f evs tr :
    Trace evs tr -> Trace (txn f ++ evs) (decode f :: tr)
| Trace_resetAssert evs tr :
    Trace evs tr -> Trace (EvResetAssert :: evs) (ResetAssert :: tr)
| Trace_resetDeassert evs tr :
    Trace evs tr -> Trace (EvResetDeassert :: evs) (ResetDeassert :: tr)
| Trace_sleep ms evs tr :
    Trace evs tr -> Trace (EvSleep ms :: evs) (Delay ms :: tr)
| Trace_tick t evs tr :
    Trace evs tr -> Trace (EvGetTick t :: evs) (Clock t :: tr).

(** [m], started in [w], returns [r] in state [w']; the log grew by a
    stretch that reads as [tr]. *)
Definition Ran {A} (m : M A) (w : World) (r : A) (w' : World)
  (tr : list Act) : Prop :=
  m w = Some (r, w') /\
  exists evs, log w' = log w ++ evs /\ Trace evs tr.

(** The byte [_ENC28J60_setRegBank] writes back to [ECON1]. *)
Definition bank_bits (v new_bank : Z) : Z :=
  Z.lor (Z.land v 0xfc) (Z.land new_bank 0x03).

(** The bytes [_ENC28J60_writeData] puts on the bus: [data[0]] to
    [data[datalen - 1]], each a [uint8_t]. *)
Definition bytes_out (data : list Z) (datalen : Z) : list Z :=
  map (fun k => u8 (nth k data 0)) (seq 0 (Z.to_nat datalen)).

(** The buffer after storing [bytes] at indices [i], [i + 1], ... *)
Fixpoint stores (i : nat) (bytes : list Z) (buf : list Z) : list Z :=
  match bytes with
  | [] => buf
  | b :: bs => stores (S i) bs (store i b buf)
  end.

Definition is_byte (b : Z) : Prop := 0 <= b < 256.

(** ** How a polling loop can end *)

Inductive PollEnd := Satisfied | Expired.

(** [polls reg ready timeoutTime w o w']: polling register [reg] from state
    [w] until [ready] holds of the value read, checking the clock against
    [timeoutTime] after every unsuccessful read, ends in state [w'], either
    because the value was ready ([Satisfied]) or because the clock had
    passed the deadline ([Expired]). *)
Inductive polls (reg : Z) (ready : Z -> bool) (timeoutTime : Z)
  : World -> PollEnd -> World -> Prop :=
| polls_ready w v w1 :
    _ENC28J60_readReg reg w = Some (v, w1) ->
    ready v = true ->
    polls reg ready timeoutTime w Satisfied w1
| polls_expired w v w1 t w2 :
    _ENC28J60_readReg reg w = Some (v, w1) ->
    ready v = false ->
    do_HAL_GetTick w1 = Some (t, w2) ->
    t > timeoutTime ->
    polls reg ready timeoutTime w Expired w2
| polls_again w v w1 t w2 o w3 :
    _ENC28J60_readReg reg w = Some (v, w1) ->
    ready v = false ->
    do_HAL_GetTick w1 = Some (t, w2) ->
    t <= timeoutTime ->
    polls reg ready timeoutTime w2 o w3 ->
    polls reg ready timeoutTime w o w3.

(** The oscillator-ready bit of [ESTAT] is set; the transmit-request bit of
    [ECON1] is clear. *)
Definition clkrdy (v : Z) : bool := negb (Z.land v ESTAT_CLKRDY =? 0).
Definition txrts_clear (v : Z) : bool := negb (Z.land v ECON1_TXRTS >? 0).

(** What a polling loop on [reg] puts in the log: reads of [reg] and
    readings of the tick. *)
Definition poll_act (reg : Z) (a : Act) : Prop :=
  (exists v, a = RCR reg v) \/ (exists t, a = Clock t).

(** A run of [_ENC28J60_reset] calls, each returning a failure code. *)
Inductive failed_resets : World -> World -> Prop :=
| failed_none w : failed_resets w w
| failed_more fuel w r w1 w2 :
    _ENC28J60_reset fuel w = Some (r, w1) ->
    r <> 0 ->
    failed_resets w1 w2 ->
    failed_resets w w2.

(** ** Well-formed logs *)

(** The chip-select discipline: bytes are exchanged only while the chip is
    selected, the chip is selected and released in turn, every other call
    happens while it is released, and the log ends with the chip released.
    [selected] is the state of the line before [l]. *)
Fixpoint cs_ok (selected : bool) (l : list Event) : bool :=
  match l with
  | [] => negb selected
  | EvSpiAssert :: l' => negb selected && cs_ok true l'
  | EvSpiDeassert :: l' => selected && cs_ok false l'
  | EvSpiTx _ _ :: l' => selected && cs_ok true l'
  | _ :: l' => negb selected && cs_ok false l'
  end.

(** What [ENC28J60_receive] may do on the bus: read registers and buffer
    memory, write ECON1 (to select a bank) and the receive read pointer,
    and set the packet-decrement bit of ECON2. *)
Definition receive_act (a : Act) : Prop :=
  match a with
  | RCR _ _ | RBM _ => True
  | WCR reg _ => reg = ECON1 \/ reg = ERXRDPTL \/ reg = ERXRDPTH
  | BFS reg mask => reg = ECON2 /\ mask = ECON2_PKTDEC
  | _ => False
  end.

(** A transaction that is one of the chip's SPI commands. *)
Definition wellformed (a : Act) : Prop :=
  match a with
  | Garbled _ => False
  | _ => True
  end.

(** The log grew from [w] to [w'] by complete, well-formed transactions
    and calls made while the chip was released. *)
Definition clean (w w' : World) : Prop :=
  exists evs,
    log w' = log w ++ evs /\
    cs_ok false evs = true /\
    Forall wellformed (acts evs).

End Driver.

(** ** A scripted platform

    A platform that replays a script: the bytes the chip shifts out, one per
    exchange, the readings of the millisecond tick, and the answers of the
    watchdog timer.  An exhausted script answers 0 (or "not elapsed").  It
    is used to run the driver on concrete inputs. *)

Record Script := {
  miso : list Z;
  ticks : list Z;
  alarms : list bool
}.

#[export] Instance Scripted : Platform := {|
  HW := Script;
  PeriodicTimer := Z;
  HAL_SPI_TransmitReceive := fun _ _ h =>
    (hd 0 (miso h),
     {| miso := tl (miso h); ticks := ticks h; alarms := alarms h |});
  HAL_GPIO_WritePin := fun _ _ _ h => h;
  HAL_GetTick := fun h =>
    (hd 0 (ticks h),
     {| miso := miso h; ticks := tl (ticks h); alarms := alarms h |});
  sleep_ms := fun _ h => h;
  periodicTimer_setup := fun _ ms h => (ms, h);
  periodicTimer_hasElapsed := fun t h =>
    (hd false (alarms h), t,
     {| miso := miso h; ticks := ticks h; alarms := tl (alarms h) |})
|}.

(** A handle as [ENC28J60_setup] leaves it, with the given bank and
    counters, on a platform that is about to replay [s]. *)
Definition handle (b received sent : Z) : ENC28J60 :=
  {| spi := 1; macAddress := [0x02; 0x00; 0x00; 0x12; 0x34; 0x56];
     csPort := 1; csPin := 4; resetPort := 1; resetPin := 5;
     bank := b; receivedPackets := received; sentPackets := sent;
     watchDogTimer := 30000 |}.

Definition world (b received sent : Z) (s : Script) : World :=
  {| dev := handle b received sent; hw := s; log := [] |}.

(** A chip that answers 0 to everything, and no clock readings. *)
Definition idle : Script := {| miso := []; ticks := []; alarms := [] |}.

(** The watchdog timer fires; the oscillator is ready at the first poll. *)
Definition alarm_script : Script :=
  {| miso := [0; 1]; ticks := [100]; alarms := [true] |}.

(** ECON1 reads 0x08 (transmit request set) for ever; the clock reads
    100, 200 and then 6000 ms. *)
Definition txrts_stuck_script : Script :=
  {| miso := repeat 0x08 40; ticks := [100; 200; 6000]; alarms := [] |}.

(** The oscillator is not ready before the clock reads 6000 ms; after the
    next reset pulse it is ready at once. *)
Definition osc_late_script : Script :=
  {| miso := [0; 0; 0; 0; 0; 1]; ticks := [100; 200; 6000; 6100];
     alarms := [] |}.

(** One pending frame of three bytes, 0xaa 0xbb 0xcc, whose descriptor
    points to 0x0010 as the next packet; 0x77 is the padding byte. *)
Definition frame_script : Script :=
  {| miso := [0; 0; 0; 0; 0; 1; 0; 0; 0; 0;
              0; 0x10; 0; 0x00; 0; 3; 0; 0; 0; 0x80; 0; 0;
              0; 0xaa; 0xbb; 0xcc; 0; 0x77];
     ticks := []; alarms := [] |}.

(** The same frame as the chip hands it over when every payload byte is
    fetched by a read of its own; the next-packet pointer is 0x0000. *)
Definition flushed_frame_script : Script :=
  {| miso := [0; 0; 0; 0; 0; 1; 0; 0; 0; 0;
              0; 0x00; 0; 0x00; 0; 3; 0; 0; 0; 0x80; 0; 0;
              0; 0xaa; 0; 0xbb; 0; 0xcc; 0; 0x77];
     ticks := []; alarms := [] |}.

(** The clock reads 296 ms short of 2^32 when the transmission is started
    and 100 ms later at the first poll; ECON1 reads 0x08 throughout. *)
Definition tick_wrap_script : Script :=
  {| miso := repeat 0x08 40; ticks := [4294967000; 4294967100];
     alarms := [] |}.

(** The tick reading 5001 ms before the 32-bit millisecond counter rolls
    over (about 49.7 days after start-up). *)
Definition rollover_start : Z := 4294962295.

(** A transmission started at [rollover_start].  ECON1 reads 0x08 (transmit
    request set) at the polls made 5.0 s, 5.7 s, 15.7 s and 65.7 s later,
    and reads clear after that.  The tick is a [uint32_t]: the readings are
    those times modulo 2^32. *)
Definition send_rollover_script : Script :=
  {| miso := repeat 0 26 ++ [0; 0x08; 0; 0x08; 0; 0x08; 0; 0x08; 0; 0];
     ticks := map u32 [rollover_start; rollover_start + 5000;
                       rollover_start + 5700; rollover_start + 15700;
                       rollover_start + 65700];
     alarms := [] |}.

(** A reset started at [rollover_start].  ESTAT reads 0 (oscillator not
    ready) at the polls made 5.0 s, 5.7 s and 65.7 s later, and reads ready
    after that. *)
Definition reset_rollover_script : Script :=
  {| miso := [0; 0; 0; 0; 0; 0; 0; 1];
     ticks := map u32 [rollover_start; rollover_start + 5000;
                       rollover_start + 5700; rollover_start + 65700];
     alarms := [] |}.

(** The pending frame of [frame_script], and a watchdog timer that has
    elapsed when it is next consulted. *)
Definition frame_then_alarm_script : Script :=
  {| miso := miso frame_script; ticks := []; alarms := [true] |}.

(** * Properties *)

Section Properties.
Context {P : Platform}.

Notation "x <- m ;; k" := (bind m (fun x => k))
  (at level 61, m at next level, right associativity).
Notation "m ;; k" := (bind m (fun _ => k))
  (at level 61, right associativity).

(** ** Integers *)

Lemma u8_range z : 0 <= u8 z < 256.
Proof. unfold u8. apply Z.mod_pos_bound. lia. Qed.

Lemma u8_small z : 0 <= z < 256 -> u8 z = z.
Proof. intros H. unfold u8. apply Z.mod_small. exact H. Qed.

Lemma s32_small z : INT_MIN <= z <= INT_MAX -> s32 z = z.
Proof.
  unfold INT_MIN, INT_MAX, s32. intros H.
  rewrite Z.mod_small by lia. lia.
Qed.

(** A register address is one of 32 values; facts about opcodes are checked
    on each. *)
Lemma reg_cases (Q : Z -> Prop) :
  (forall n, (n < 32)%nat -> Q (Z.of_nat n)) ->
  forall r, 0 <= r < 32 -> Q r.
Proof.
  intros H r Hr. rewrite <- (Z2Nat.id r) by lia. apply H. lia.
Qed.

Ltac each_reg r H :=
  revert H; revert r; apply reg_cases;
  let n := fresh "n" in
  let Hn := fresh "Hn" in
  intros n Hn;
  do 32 (destruct n as [|n]; [ vm_compute; try reflexivity; try (split; congruence) | ]);
  exfalso; lia.

(** ** Reading the log *)

Lemma acts_from_frame f acc l :
  acts_from (Some acc) (map (fun p => EvSpiTx (fst p) (snd p)) f ++ EvSpiDeassert :: l)
  = decode (acc ++ f) :: acts_from None l.
Proof.
  revert acc. induction f as [|[tx rx] f IH]; intros acc; simpl.
  - rewrite app_nil_r. reflexivity.
  - rewrite IH. rewrite <- app_assoc. reflexivity.
Qed.

Lemma acts_txn f l : acts (txn f ++ l) = decode f :: acts l.
Proof.
  unfold acts, txn. simpl. rewrite <- app_assoc. simpl.
  apply (acts_from_frame f []).
Qed.

Lemma Trace_acts_app evs tr l : Trace evs tr -> acts (evs ++ l) = tr ++ acts l.
Proof.
  induction 1.
  - reflexivity.
  - rewrite <- app_assoc, acts_txn, IHTrace. reflexivity.
  - unfold acts in *. simpl. rewrite IHTrace. reflexivity.
  - unfold acts in *. simpl. rewrite IHTrace. reflexivity.
  - unfold acts in *. simpl. rewrite IHTrace. reflexivity.
  - unfold acts in *. simpl. rewrite IHTrace. reflexivity.
Qed.

Lemma Trace_acts evs tr : Trace evs tr -> acts evs = tr.
Proof.
  intros H. rewrite <- (app_nil_r evs), (Trace_acts_app _ _ [] H).
  apply app_nil_r.
Qed.

Lemma Trace_app e1 t1 e2 t2 :
  Trace e1 t1 -> Trace e2 t2 -> Trace (e1 ++ e2) (t1 ++ t2).
Proof.
  induction 1; intros H2.
  - exact H2.
  - rewrite <- app_assoc. constructor. auto.
  - simpl. constructor. auto.
  - simpl. constructor. auto.
  - simpl. constructor. auto.
  - simpl. constructor. auto.
Qed.

Lemma Trace_one f : Trace (txn f) [decode f].
Proof.
  rewrite <- (app_nil_r (txn f)). constructor. constructor.
Qed.

(** ** Running routines *)

Lemma bind_some {A B} (m : M A) (f : A -> M B) w a w1 :
  m w = Some (a, w1) -> bind m f w = f a w1.
Proof. intros H. unfold bind. rewrite H. reflexivity. Qed.

Lemma Ran_ret {A} (a : A) w : Ran (ret a) w a w [].
Proof.
  split; [reflexivity|]. exists []. split; [symmetry; apply app_nil_r | constructor].
Qed.

Lemma Ran_bind {A B} (m : M A) (f : A -> M B) w a w1 t1 b w2 t2 :
  Ran m w a w1 t1 -> Ran (f a) w1 b w2 t2 -> Ran (bind m f) w b w2 (t1 ++ t2).
Proof.
  intros [E1 (e1 & L1 & T1)] [E2 (e2 & L2 & T2)]. split.
  - rewrite (bind_some _ _ _ _ _ E1). exact E2.
  - exists (e1 ++ e2). split.
    + rewrite L2, L1, app_assoc. reflexivity.
    + apply Trace_app; assumption.
Qed.

Lemma Ran_gets {A} (f : ENC28J60 -> A) w : Ran (gets f) w (f (dev w)) w [].
Proof.
  split; [reflexivity|]. exists []. split; [symmetry; apply app_nil_r | constructor].
Qed.

Lemma Ran_modify f w :
  Ran (modify f) w tt {| dev := f (dev w); hw := hw w; log := log w |} [].
Proof.
  split; [reflexivity|]. exists []. split; [symmetry; apply app_nil_r | constructor].
Qed.

Lemma Ran_eq {A} (m : M A) w r w' tr : Ran m w r w' tr -> m w = Some (r, w').
Proof. intros [E _]. exact E. Qed.

(** A routine that performs one complete transaction. *)
Lemma Ran_txn {A} (m : M A) w r w' f :
  m w = Some (r, w') -> log w' = log w ++ txn f -> Ran m w r w' [decode f].
Proof.
  intros E L. split; [exact E|]. exists (txn f). split; [exact L | apply Trace_one].
Qed.

(** ** Bus protocol layer *)

Lemma isMacMiiReg_high e reg : EIE <= reg -> _ENC28J60_isMacMiiReg e reg = 0.
Proof.
  unfold _ENC28J60_isMacMiiReg, EIE, MAADR2, MISTAT. intros H.
  destruct (bank e =? MACONX_BANK).
  - destruct (Z.ltb_spec reg 27); [lia | reflexivity].
  - destruct (bank e =? MAADRX_BANK); [|reflexivity].
    destruct (Z.leb_spec reg 5); [lia|].
    destruct (Z.eqb_spec reg 10); [lia | reflexivity].
Qed.

(** The events of [_ENC28J60_readReg]: the opcode, a dummy byte for a MAC or
    MII register, the byte that is returned. *)
Lemma readReg_events reg w :
  exists x d v w',
    _ENC28J60_readReg reg w = Some (v, w') /\
    dev w' = dev w /\ 0 <= v < 256 /\
    log w' = log w ++
      txn ((u8 (Z.lor 0x00 (Z.land reg 0x1f)), x) ::
           (if _ENC28J60_isMacMiiReg (dev w) reg =? 0 then [] else [(0, d)]) ++
           [(0, v)]).
Proof.
  unfold _ENC28J60_readReg, bind, _ENC28J60_spiAssert, _ENC28J60_spiTx,
    _ENC28J60_spiDeassert, gets, ret, txn. cbn [dev hw log].
  destruct (HAL_SPI_TransmitReceive _ _ _) as [x h1].
  cbn [dev hw log].
  destruct (_ENC28J60_isMacMiiReg (dev w) reg =? 0); cbn [negb].
  - cbn [dev hw log]. destruct (HAL_SPI_TransmitReceive _ _ _) as [v h2].
    exists (u8 x), 0, (u8 v). eexists. split; [reflexivity|]. cbn [dev hw log].
    split; [reflexivity|]. split; [apply u8_range|].
    repeat rewrite <- app_assoc. reflexivity.
  - cbn [dev hw log]. destruct (HAL_SPI_TransmitReceive _ _ _) as [d h2].
    cbn [dev hw log]. destruct (HAL_SPI_TransmitReceive _ _ _) as [v h3].
    exists (u8 x), (u8 d), (u8 v). eexists. split; [reflexivity|]. cbn [dev hw log].
    split; [reflexivity|]. split; [apply u8_range|].
    repeat rewrite <- app_assoc. reflexivity.
Qed.

Lemma decode_rcr reg x v :
  0 <= reg < 32 ->
  decode [(u8 (Z.lor 0x00 (Z.land reg 0x1f)), x); (0, v)] = RCR reg v.
Proof. intros H. each_reg reg H. Qed.

Lemma decode_rcr_dummy reg x d v :
  0 <= reg < 32 ->
  decode [(u8 (Z.lor 0x00 (Z.land reg 0x1f)), x); (0, d); (0, v)] = RCR reg v.
Proof. intros H. each_reg reg H. Qed.

Lemma decode_wcr reg x d y :
  0 <= reg < 32 ->
  decode [(u8 (Z.lor 0x40 (Z.land reg 0x1f)), x); (d, y)] = WCR reg d.
Proof. intros H. each_reg reg H. Qed.

Lemma decode_bfs reg x m y :
  0 <= reg < 32 ->
  decode [(u8 (Z.lor 0x80 (Z.land reg 0x1f)), x); (m, y)] = BFS reg m.
Proof. intros H. each_reg reg H. Qed.

Lemma decode_bfc reg x m y :
  0 <= reg < 32 ->
  decode [(u8 (Z.lor 0xa0 (Z.land reg 0x1f)), x); (m, y)] = BFC reg m.
Proof. intros H. each_reg reg H. Qed.

Lemma readReg_ran reg w :
  0 <= reg < 32 ->
  exists v w',
    Ran (_ENC28J60_readReg reg) w v w' [RCR reg v] /\
    dev w' = dev w /\ 0 <= v < 256.
Proof.
  intros Hr. destruct (readReg_events reg w) as (x & d & v & w' & E & D & V & L).
  exists v, w'. split; [|split; assumption].
  destruct (_ENC28J60_isMacMiiReg (dev w) reg =? 0).
  - rewrite <- (decode_rcr reg x v Hr). eapply Ran_txn; eassumption.
  - rewrite <- (decode_rcr_dummy reg x d v Hr). eapply Ran_txn; eassumption.
Qed.

Lemma writeReg_ran reg data w :
  0 <= reg < 32 ->
  exists w',
    Ran (_ENC28J60_writeReg reg data) w tt w' [WCR reg (u8 data)] /\
    dev w' = dev w.
Proof.
  intros Hr.
  unfold _ENC28J60_writeReg, Ran, bind, _ENC28J60_spiAssert, _ENC28J60_spiTx,
    _ENC28J60_spiDeassert. cbn [dev hw log].
  destruct (HAL_SPI_TransmitReceive _ _ _) as [x h1]. cbn [dev hw log].
  destruct (HAL_SPI_TransmitReceive _ _ _) as [y h2]. cbn [dev hw log].
  eexists. split; [split; [reflexivity|]|reflexivity]. cbn [dev hw log].
  exists (txn [(u8 (Z.lor 0x40 (Z.land reg 0x1f)), u8 x); (u8 data, u8 y)]).
  split.
  - repeat rewrite <- app_assoc. reflexivity.
  - rewrite <- (decode_wcr reg (u8 x) (u8 data) (u8 y) Hr). apply Trace_one.
Qed.

(** Two bytes of a 16-bit value are bytes. *)
Lemma land_ff_range z : 0 <= Z.land z 0xff < 256.
Proof.
  change 0xff with (Z.ones 8). rewrite Z.land_ones by lia.
  apply Z.mod_pos_bound. lia.
Qed.

Lemma u8_land_ff z : u8 (Z.land z 0xff) = Z.land z 0xff.
Proof. apply u8_small, land_ff_range. Qed.

Lemma writeReg16_ran reg data w :
  0 <= reg < 31 ->
  exists w',
    Ran (_ENC28J60_writeReg16 reg data) w tt w'
      [WCR reg (Z.land (u16 data) 0xff);
       WCR (reg + 1) (Z.land (Z.shiftr (u16 data) 8) 0xff)] /\
    dev w' = dev w.
Proof.
  intros Hr. unfold _ENC28J60_writeReg16. cbv zeta.
  destruct (writeReg_ran reg (Z.land (u16 data) 0xff) w) as (w1 & R1 & D1); [lia|].
  destruct (writeReg_ran (reg + 1) (Z.land (Z.shiftr (u16 data) 8) 0xff) w1)
    as (w2 & R2 & D2); [lia|].
  exists w2. split; [|congruence].
  rewrite (u8_small (reg + 1)) by lia.
  rewrite !u8_land_ff in *.
  apply (Ran_bind _ _ _ _ _ _ _ _ _ R1 R2).
Qed.

(** The single-opcode forms of bit set and bit clear, used for every
    register that is not of the MAC/MII class in the selected bank. *)
Lemma setRegBitField_eth_ran reg mask w :
  0 <= reg < 32 ->
  _ENC28J60_isMacMiiReg (dev w) reg = 0 ->
  exists w',
    Ran (_ENC28J60_setRegBitField reg mask) w tt w' [BFS reg (u8 mask)] /\
    dev w' = dev w.
Proof.
  intros Hr Hm.
  unfold _ENC28J60_setRegBitField, Ran, bind, gets. rewrite Hm.
  cbn [Z.eqb negb].
  unfold bind, _ENC28J60_spiAssert, _ENC28J60_spiTx, _ENC28J60_spiDeassert.
  cbn [dev hw log].
  destruct (HAL_SPI_TransmitReceive _ _ _) as [x h1]. cbn [dev hw log].
  destruct (HAL_SPI_TransmitReceive _ _ _) as [y h2]. cbn [dev hw log].
  eexists. split; [split; [reflexivity|]|reflexivity]. cbn [dev hw log].
  exists (txn [(u8 (Z.lor 0x80 (Z.land reg 0x1f)), u8 x); (u8 mask, u8 y)]).
  split.
  - repeat rewrite <- app_assoc. reflexivity.
  - rewrite <- (decode_bfs reg (u8 x) (u8 mask) (u8 y) Hr). apply Trace_one.
Qed.

Lemma clearRegBitField_eth_ran reg mask w :
  0 <= reg < 32 ->
  _ENC28J60_isMacMiiReg (dev w) reg = 0 ->
  exists w',
    Ran (_ENC28J60_clearRegBitField reg mask) w tt w' [BFC reg (u8 mask)] /\
    dev w' = dev w.
Proof.
  intros Hr Hm.
  unfold _ENC28J60_clearRegBitField, Ran, bind, gets. rewrite Hm.
  cbn [Z.eqb negb].
  unfold bind, _ENC28J60_spiAssert, _ENC28J60_spiTx, _ENC28J60_spiDeassert.
  cbn [dev hw log].
  destruct (HAL_SPI_TransmitReceive _ _ _) as [x h1]. cbn [dev hw log].
  destruct (HAL_SPI_TransmitReceive _ _ _) as [y h2]. cbn [dev hw log].
  eexists. split; [split; [reflexivity|]|reflexivity]. cbn [dev hw log].
  exists (txn [(u8 (Z.lor 0xa0 (Z.land reg 0x1f)), u8 x); (u8 mask, u8 y)]).
  split.
  - repeat rewrite <- app_assoc. reflexivity.
  - rewrite <- (decode_bfc reg (u8 x) (u8 mask) (u8 y) Hr). apply Trace_one.
Qed.

Lemma bank_bits_range v b : 0 <= v < 256 -> 0 <= bank_bits v b < 256.
Proof.
  intros Hv. unfold bank_bits.
  assert (H : Z.land (Z.lor (Z.land v 0xfc) (Z.land b 0x03)) (Z.ones 8)
              = Z.lor (Z.land v 0xfc) (Z.land b 0x03)).
  { rewrite Z.land_lor_distr_l, <- !Z.land_assoc. reflexivity. }
  rewrite Z.land_ones in H by lia. rewrite <- H.
  apply Z.mod_pos_bound. lia.
Qed.

Lemma setRegBank_ran new_bank w :
  exists v w',
    Ran (_ENC28J60_setRegBank new_bank) w tt w'
      [RCR ECON1 v; WCR ECON1 (bank_bits v new_bank)] /\
    dev w' = set_bank new_bank (dev w) /\ 0 <= v < 256.
Proof.
  unfold _ENC28J60_setRegBank.
  destruct (readReg_ran ECON1 w) as (v & w1 & R1 & D1 & V); [unfold ECON1; lia|].
  destruct (writeReg_ran ECON1 (bank_bits v new_bank) w1) as (w2 & R2 & D2);
    [unfold ECON1; lia|].
  rewrite (u8_small _ (bank_bits_range v new_bank V)) in R2.
  exists v. eexists. split; [|split; [|exact V]].
  - change [RCR ECON1 v; WCR ECON1 (bank_bits v new_bank)]
      with ([RCR ECON1 v] ++ [WCR ECON1 (bank_bits v new_bank)] ++ []).
    eapply Ran_bind; [exact R1|].
    eapply Ran_bind; [exact R2|]. apply Ran_modify.
  - cbn [dev]. rewrite D2, D1. reflexivity.
Qed.

Lemma writeData_loop_events n : forall i data w,
  exists f w',
    writeData_loop n i data w = Some (tt, w') /\ dev w' = dev w /\
    map fst f = map (fun k => u8 (nth k data 0)) (seq i n) /\
    log w' = log w ++ map (fun p => EvSpiTx (fst p) (snd p)) f.
Proof.
  induction n as [|n IH]; intros i data w.
  - exists [], w. cbn. rewrite app_nil_r. repeat split; reflexivity.
  - cbn [writeData_loop]. unfold bind at 1, _ENC28J60_spiTx.
    destruct (HAL_SPI_TransmitReceive _ _ _) as [y h1].
    match goal with |- context [writeData_loop n (S i) data ?w1] =>
      destruct (IH (S i) data w1) as (f & w' & E & D & F & L) end.
    exists ((u8 (nth i data 0), u8 y) :: f), w'.
    split; [exact E|]. split; [exact D|]. split.
    + cbn. rewrite F. reflexivity.
    + rewrite L. cbn [log map fst snd]. rewrite <- app_assoc. reflexivity.
Qed.

Lemma decode_wbm x f : decode ((u8 0x7a, x) :: f) = WBM (map fst f).
Proof. reflexivity. Qed.

Lemma decode_rbm x f : decode ((u8 0x3a, x) :: f) = RBM (map snd f).
Proof. reflexivity. Qed.

Lemma writeData_ran data datalen w :
  exists w',
    Ran (_ENC28J60_writeData data datalen) w tt w' [WBM (bytes_out data datalen)] /\
    dev w' = dev w.
Proof.
  unfold _ENC28J60_writeData, Ran.
  unfold bind at 1, _ENC28J60_spiAssert. unfold bind at 1, _ENC28J60_spiTx.
  cbn [dev hw log].
  destruct (HAL_SPI_TransmitReceive _ _ _) as [x h1].
  unfold bind at 1.
  match goal with |- context [writeData_loop ?n 0 data ?w1] =>
    destruct (writeData_loop_events n 0 data w1) as (f & w2 & E & D & F & L) end.
  rewrite E. unfold _ENC28J60_spiDeassert.
  eexists. split; [split; [reflexivity|]|exact D]. cbn [dev hw log].
  exists (txn ((u8 0x7a, u8 x) :: f)). split.
  - rewrite L. cbn [log txn map fst snd]. repeat rewrite <- app_assoc. reflexivity.
  - unfold bytes_out. rewrite <- F, <- (decode_wbm (u8 x) f). apply Trace_one.
Qed.

Lemma readData_loop_events n : forall i buf w,
  exists bytes w',
    readData_loop n i buf w = Some (stores i bytes buf, w') /\ dev w' = dev w /\
    length bytes = n /\ Forall is_byte bytes /\
    log w' = log w ++ map (fun b => EvSpiTx 0 b) bytes.
Proof.
  induction n as [|n IH]; intros i buf w.
  - exists [], w. cbn. rewrite app_nil_r. repeat split; constructor.
  - cbn [readData_loop]. unfold bind at 1, _ENC28J60_spiTx.
    destruct (HAL_SPI_TransmitReceive _ _ _) as [y h1].
    match goal with |- context [readData_loop n (S i) ?b ?w1] =>
      destruct (IH (S i) b w1) as (bytes & w' & E & D & N & B & L) end.
    exists (u8 y :: bytes), w'.
    split; [exact E|]. split; [exact D|]. split; [cbn; congruence|]. split.
    + constructor; [apply u8_range | exact B].
    + rewrite L. cbn [log map]. rewrite <- app_assoc. reflexivity.
Qed.

Lemma readData_ran buf len w :
  exists bytes w',
    Ran (_ENC28J60_readData buf len) w (stores 0 bytes buf, Z.max 0 len) w'
      [RBM bytes] /\
    dev w' = dev w /\ length bytes = Z.to_nat len /\ Forall is_byte bytes.
Proof.
  unfold _ENC28J60_readData, Ran.
  unfold bind at 1, _ENC28J60_spiAssert. unfold bind at 1, _ENC28J60_spiTx.
  cbn [dev hw log].
  destruct (HAL_SPI_TransmitReceive _ _ _) as [x h1].
  unfold bind at 1.
  match goal with |- context [readData_loop ?n 0 buf ?w1] =>
    destruct (readData_loop_events n 0 buf w1) as (bytes & w2 & E & D & N & B & L) end.
  rewrite E. unfold bind, _ENC28J60_spiDeassert, ret.
  exists bytes. eexists. split; [split; [reflexivity|]|repeat split; assumption].
  cbn [dev hw log].
  exists (txn ((u8 0x3a, u8 x) :: map (fun b => (0, b)) bytes)). split.
  - rewrite L. unfold txn. cbn [log map fst snd]. rewrite map_map. cbn [fst snd].
    repeat rewrite <- app_assoc. reflexivity.
  - replace (RBM bytes) with (decode ((u8 0x3a, u8 x) :: map (fun b => (0, b)) bytes)).
    + apply Trace_one.
    + rewrite decode_rbm, map_map. cbn [snd]. rewrite map_id. reflexivity.
Qed.

Lemma readDataByte_ran w :
  exists b w',
    Ran _ENC28J60_readDataByte w b w' [RBM [b]] /\
    dev w' = dev w /\ is_byte b.
Proof.
  unfold _ENC28J60_readDataByte.
  destruct (readData_ran [0] 1 w) as (bytes & w' & R & D & N & B).
  destruct bytes as [|b [|b' bytes]]; try discriminate N.
  exists b, w'. split; [|split; [exact D | inversion B; assumption]].
  rewrite <- (app_nil_r [RBM [b]]).
  eapply Ran_bind; [exact R|]. apply Ran_ret.
Qed.

Lemma flush_loop_ran n : forall w,
  exists bytes w',
    Ran (flush_loop n) w tt w' (map (fun b => RBM [b]) bytes) /\
    dev w' = dev w /\ length bytes = n /\ Forall is_byte bytes.
Proof.
  induction n as [|n IH]; intros w.
  - exists [], w. split; [apply Ran_ret|]. repeat split; constructor.
  - destruct (readDataByte_ran w) as (b & w1 & R1 & D1 & B1).
    destruct (IH w1) as (bytes & w2 & R2 & D2 & N2 & B2).
    exists (b :: bytes), w2. split; [|split; [congruence|split]].
    + cbn [flush_loop map].
      change (RBM [b] :: map (fun b0 => RBM [b0]) bytes)
        with ([RBM [b]] ++ map (fun b0 => RBM [b0]) bytes).
      eapply Ran_bind; eassumption.
    + cbn. congruence.
    + constructor; assumption.
Qed.

Lemma Ran_acts {A} (m : M A) w r w' tr :
  Ran m w r w' tr ->
  m w = Some (r, w') /\ exists evs, log w' = log w ++ evs /\ acts evs = tr.
Proof.
  intros [E (evs & L & T)]. split; [exact E|].
  exists evs. split; [exact L | apply Trace_acts; exact T].
Qed.

Lemma Ran_trace {A} (m : M A) w r w' tr tr' :
  Ran m w r w' tr -> tr = tr' -> Ran m w r w' tr'.
Proof. intros H <-. exact H. Qed.

Ltac ran_step R := eapply Ran_bind; [exact R | cbv beta].

(** ** Chip control layer *)

Lemma readRev_ran w :
  exists e raw w',
    Ran _ENC28J60_readRev w
      (if raw =? 2 then 1 else if raw =? 6 then 7 else raw) w'
      [RCR ECON1 e; WCR ECON1 (bank_bits e MAADRX_BANK); RCR EREVID raw] /\
    dev w' = set_bank MAADRX_BANK (dev w) /\ is_byte raw.
Proof.
  destruct (setRegBank_ran MAADRX_BANK w) as (e & w1 & R1 & D1 & E1).
  destruct (readReg_ran EREVID w1) as (raw & w2 & R2 & D2 & V2);
    [unfold EREVID; lia|].
  exists e, raw, w2. split; [|split; [congruence | exact V2]].
  unfold _ENC28J60_readRev.
  eapply Ran_trace.
  - ran_step R1. ran_step R2. apply Ran_ret.
  - reflexivity.
Qed.

(** ** Words and buffers *)

Lemma split16 x :
  0 <= x < 65536 ->
  Z.land (u16 x) 0xff = x mod 256 /\
  Z.land (Z.shiftr (u16 x) 8) 0xff = x / 256.
Proof.
  intros H. unfold u16. rewrite Z.mod_small by exact H.
  change 0xff with (Z.ones 8). rewrite !Z.land_ones by lia.
  rewrite Z.shiftr_div_pow2 by lia. change (2 ^ 8) with 256.
  split; [reflexivity|]. apply Z.mod_small.
  split; [apply Z.div_pos; lia | apply Z.div_lt_upper_bound; lia].
Qed.

Lemma word_range lo hi :
  is_byte lo -> is_byte hi -> 0 <= Z.shiftl hi 8 + lo < 65536.
Proof.
  unfold is_byte. intros Hl Hh. rewrite Z.shiftl_mul_pow2 by lia.
  change (2 ^ 8) with 256. lia.
Qed.

Lemma rem2_even len : 0 <= len -> (Z.rem len 2 =? 0) = Z.even len.
Proof.
  intros H. rewrite Z.rem_mod_nonneg by lia. rewrite Zmod_even.
  destruct (Z.even len); reflexivity.
Qed.

Lemma length_store i v buf : length (store i v buf) = length buf.
Proof.
  revert i. induction buf as [|b buf IH]; intros [|i]; cbn; auto.
Qed.

Lemma stores_splice bytes : forall i buf,
  (i + length bytes <= length buf)%nat ->
  stores i bytes buf = firstn i buf ++ bytes ++ skipn (i + length bytes) buf.
Proof.
  induction bytes as [|b bytes IH]; intros i buf H; cbn [stores length app] in *.
  - rewrite Nat.add_0_r. symmetry. apply firstn_skipn.
  - rewrite IH by (rewrite length_store; lia).
    replace (S i + length bytes)%nat with (i + S (length bytes))%nat by lia.
    assert (Hs : forall j b0, (i < length b0)%nat -> (i < j)%nat ->
              firstn (S i) (store i b b0) = firstn i b0 ++ [b] /\
              skipn j (store i b b0) = skipn j b0).
    { clear. induction i as [|i IHi]; intros j [|x b0] Hl Hj; cbn in Hl; try lia.
      - destruct j; [lia|]. split; reflexivity.
      - destruct j; [lia|]. destruct (IHi j b0) as [E1 E2]; try lia.
        split.
        + change (store (S i) b (x :: b0)) with (x :: store i b b0).
          change (firstn (S (S i)) (x :: store i b b0))
            with (x :: firstn (S i) (store i b b0)).
          rewrite E1. reflexivity.
        + exact E2. }
    destruct (Hs (i + S (length bytes))%nat buf) as [E1 E2]; try lia.
    rewrite E1, E2, <- app_assoc. reflexivity.
Qed.

Lemma stores_prefix bytes buf :
  (length bytes <= length buf)%nat ->
  stores 0 bytes buf = bytes ++ skipn (length bytes) buf.
Proof. intros H. apply (stores_splice bytes 0 buf). exact H. Qed.

(** ** Packet I/O layer: receive *)

Lemma pktdec_ran w :
  exists w',
    Ran (_ENC28J60_setRegBitField ECON2 ECON2_PKTDEC) w tt w'
      [BFS ECON2 ECON2_PKTDEC] /\
    dev w' = dev w.
Proof.
  destruct (setRegBitField_eth_ran ECON2 ECON2_PKTDEC w) as (w' & R & D).
  - unfold ECON2; lia.
  - apply isMacMiiReg_high. unfold EIE, ECON2. lia.
  - exists w'. split; [exact R | exact D].
Qed.

(** The payload: one streaming read into the caller's buffer when it fits,
    one single-byte read per payload byte, dropped, when it does not. *)
Lemma receive_payload_ran buffer bufsize len w :
  exists payload w',
    Ran (if bufsize >=? len then
           br <- _ENC28J60_readData buffer len ;; ret (fst br, 0)
         else
           flush_loop (Z.to_nat len) ;; ret (buffer, 1)) w
      (if bufsize >=? len then (stores 0 payload buffer, 0) else (buffer, 1)) w'
      (if bufsize >=? len then [RBM payload]
       else map (fun b => RBM [b]) payload) /\
    dev w' = dev w /\ length payload = Z.to_nat len /\ Forall is_byte payload.
Proof.
  destruct (bufsize >=? len).
  - destruct (readData_ran buffer len w) as (payload & w' & R & D & N & B).
    exists payload, w'. split; [|repeat split; assumption].
    eapply Ran_trace; [ran_step R; apply Ran_ret | reflexivity].
  - destruct (flush_loop_ran (Z.to_nat len) w) as (payload & w' & R & D & N & B).
    exists payload, w'. split; [|repeat split; assumption].
    eapply Ran_trace; [ran_step R; apply Ran_ret | apply app_nil_r].
Qed.

(** The extra byte read after a frame of odd length. *)
Lemma receive_pad_ran len w :
  exists pad r w',
    Ran (if negb (Z.rem len 2 =? 0) then _ENC28J60_readDataByte else ret 0)
      w r w' (map (fun b => RBM [b]) pad) /\
    dev w' = dev w /\
    length pad = (if Z.rem len 2 =? 0 then O else 1%nat) /\
    Forall is_byte pad.
Proof.
  destruct (Z.rem len 2 =? 0); cbn [negb].
  - exists [], 0, w. split; [apply Ran_ret|]. repeat split; constructor.
  - destruct (readDataByte_ran w) as (b & w' & R & D & B).
    exists [b], b, w'. split; [exact R|]. repeat split; try assumption.
    constructor; [assumption | constructor].
Qed.

(** Everything [ENC28J60_receive] does, as the chip sees it. *)
Lemma receive_ran buffer bufsize w :
  exists e n w1,
    Ran (_ENC28J60_setRegBank EPKTCNT_BANK ;; _ENC28J60_readReg EPKTCNT) w n w1
      [RCR ECON1 e; WCR ECON1 (bank_bits e EPKTCNT_BANK); RCR EPKTCNT n] /\
    dev w1 = set_bank EPKTCNT_BANK (dev w) /\ is_byte e /\ is_byte n /\
    (n = 0 -> ENC28J60_receive buffer bufsize w = Some ((0, buffer), w1)) /\
    (n <> 0 ->
     exists e2 nxt0 nxt1 len0 len1 st0 st1 payload pad w',
       let len := Z.shiftl len1 8 + len0 in
       let next := Z.shiftl nxt1 8 + nxt0 in
       let rdpt := if next =? RX_BUF_START then RX_BUF_END else next - 1 in
       Ran (ENC28J60_receive buffer bufsize) w
         (if bufsize >=? len then (len, stores 0 payload buffer)
          else (0, buffer)) w'
         ([RCR ECON1 e; WCR ECON1 (bank_bits e EPKTCNT_BANK); RCR EPKTCNT n;
           RCR ECON1 e2; WCR ECON1 (bank_bits e2 ERXTX_BANK);
           RBM [nxt0]; RBM [nxt1]; RBM [len0]; RBM [len1];
           RBM [st0]; RBM [st1]]
          ++ (if bufsize >=? len then [RBM payload]
              else map (fun b => RBM [b]) payload)
          ++ map (fun b => RBM [b]) pad
          ++ [WCR ERXRDPTL (rdpt mod 256); WCR ERXRDPTH (rdpt / 256);
              BFS ECON2 ECON2_PKTDEC]) /\
       is_byte nxt0 /\ is_byte nxt1 /\ is_byte len0 /\ is_byte len1 /\
       length payload = Z.to_nat len /\ Forall is_byte payload /\
       length pad = (if Z.rem len 2 =? 0 then O else 1%nat) /\
       dev w' =
         if bufsize >=? len then
           set_receivedPackets (s32 (receivedPackets (dev w) + 1))
             (set_bank ERXTX_BANK (dev w))
         else set_bank ERXTX_BANK (dev w)).
Proof.
  destruct (setRegBank_ran EPKTCNT_BANK w) as (e & w1 & R1 & D1 & E1).
  destruct (readReg_ran EPKTCNT w1) as (n & w2 & R2 & D2 & V2);
    [unfold EPKTCNT; lia|].
  exists e, n, w2.
  split; [eapply Ran_trace; [ran_step R1; exact R2 | reflexivity]|].
  split; [congruence|]. split; [exact E1|]. split; [exact V2|]. split.
  - intros ->. unfold ENC28J60_receive.
    rewrite (bind_some _ _ _ _ _ (Ran_eq _ _ _ _ _ R1)).
    rewrite (bind_some _ _ _ _ _ (Ran_eq _ _ _ _ _ R2)). reflexivity.
  - intros Hn. apply Z.eqb_neq in Hn.
    destruct (setRegBank_ran ERXTX_BANK w2) as (e2 & w3 & R3 & D3 & E3).
    destruct (readDataByte_ran w3) as (nxt0 & w4 & R4 & D4 & B4).
    destruct (readDataByte_ran w4) as (nxt1 & w5 & R5 & D5 & B5).
    destruct (readDataByte_ran w5) as (len0 & w6 & R6 & D6 & B6).
    destruct (readDataByte_ran w6) as (len1 & w7 & R7 & D7 & B7).
    destruct (readDataByte_ran w7) as (st0 & w8 & R8 & D8 & B8).
    destruct (readDataByte_ran w8) as (st1 & w9 & R9 & D9 & B9).
    exists e2, nxt0, nxt1, len0, len1, st0, st1.
    set (len := Z.shiftl len1 8 + len0).
    set (next := Z.shiftl nxt1 8 + nxt0).
    set (rdpt := if next =? RX_BUF_START then RX_BUF_END else next - 1).
    destruct (receive_payload_ran buffer bufsize len w9)
      as (payload & w10 & R10 & D10 & N10 & F10).
    destruct (receive_pad_ran len w10) as (pad & rp & w11 & R11 & D11 & N11 & F11).
    destruct (writeReg16_ran ERXRDPTL rdpt w11) as (w12 & R12 & D12);
      [unfold ERXRDPTL; lia|].
    assert (Hnext : 0 <= next < 65536) by (apply word_range; assumption).
    assert (Hrd : 0 <= rdpt < 65536).
    { unfold rdpt, RX_BUF_START, RX_BUF_END.
      destruct (Z.eqb_spec next 0); lia. }
    destruct (split16 rdpt Hrd) as [Elo Ehi]. rewrite Elo, Ehi in R12.
    change (ERXRDPTL + 1) with ERXRDPTH in R12.
    destruct (pktdec_ran w12) as (w13 & R13 & D13).
    assert (Dw : dev w13 = set_bank ERXTX_BANK (dev w)).
    { rewrite D13, D12, D11, D10, D9, D8, D7, D6, D5, D4, D3, D2, D1.
      reflexivity. }
    exists payload, pad.
    cbv zeta. fold len next rdpt.
    destruct (bufsize >=? len) eqn:Hcap.
    + exists {| dev := set_receivedPackets (s32 (receivedPackets (dev w13) + 1))
                         (dev w13);
                hw := hw w13; log := log w13 |}.
      split; [|repeat (split; [assumption|]); cbn [dev]; rewrite Dw; reflexivity].
      eapply Ran_trace.
      * unfold ENC28J60_receive. ran_step R1. ran_step R2. rewrite Hn.
        ran_step R3. ran_step R4. ran_step R5. ran_step R6. ran_step R7.
        ran_step R8. ran_step R9. cbv zeta. fold len next rdpt. rewrite Hcap.
        ran_step R10. ran_step R11. ran_step R12. ran_step R13.
        cbn [snd fst Z.eqb negb]. eapply Ran_bind; [apply Ran_modify | apply Ran_ret].
      * cbn [app]. rewrite ?app_nil_r. reflexivity.
    + exists w13. split; [|repeat (split; [assumption|]); exact Dw].
      eapply Ran_trace.
      * unfold ENC28J60_receive. ran_step R1. ran_step R2. rewrite Hn.
        ran_step R3. ran_step R4. ran_step R5. ran_step R6. ran_step R7.
        ran_step R8. ran_step R9. cbv zeta. fold len next rdpt. rewrite Hcap.
        ran_step R10. ran_step R11. ran_step R12. ran_step R13.
        cbn [snd fst Z.eqb negb]. apply Ran_ret.
      * cbn [app]. rewrite ?app_nil_r, <- ?app_assoc. reflexivity.
Qed.

(** [C2] The value [ENC28J60_receive] programs into the read-pointer
    register pair ERXRDPTL/ERXRDPTH, low byte first, is computed from the
    descriptor's next-packet pointer [next] (the first two buffer bytes read,
    low byte first): it is [RX_BUF_END] (0x0fff) when [next] is
    [RX_BUF_START] (0x0000) and [next - 1] otherwise.  These are the only
    register writes between the descriptor and the packet decrement. *)
Theorem receive_programs_read_pointer buffer bufsize w :
  exists res w' evs e n rest,
    ENC28J60_receive buffer bufsize w = Some (res, w') /\
    log w' = log w ++ evs /\
    acts evs =
      [RCR ECON1 e; WCR ECON1 (bank_bits e EPKTCNT_BANK); RCR EPKTCNT n]
      ++ rest /\
    (n <> 0 ->
     exists e2 nxt0 nxt1 body rdpt,
       let next := Z.shiftl nxt1 8 + nxt0 in
       rest =
         [RCR ECON1 e2; WCR ECON1 (bank_bits e2 ERXTX_BANK);
          RBM [nxt0]; RBM [nxt1]]
         ++ body
         ++ [WCR ERXRDPTL (rdpt mod 256); WCR ERXRDPTH (rdpt / 256);
             BFS ECON2 ECON2_PKTDEC] /\
       Forall (fun a => exists bytes, a = RBM bytes) body /\
       is_byte nxt0 /\ is_byte nxt1 /\
       0 <= rdpt < 65536 /\
       (next = RX_BUF_START -> rdpt = RX_BUF_END) /\
       (next <> RX_BUF_START -> rdpt = next - 1)).
Proof.
  destruct (receive_ran buffer bufsize w)
    as (e & n & w1 & R0 & D0 & E0 & N0 & Hz & Hnz).
  destruct (Z.eq_dec n 0) as [Hn|Hn].
  - destruct (Ran_acts _ _ _ _ _ R0) as (_ & evs & L & A).
    exists (0, buffer), w1, evs, e, n, []. split; [apply Hz; exact Hn|].
    split; [exact L|]. split; [rewrite app_nil_r; exact A|].
    intros Hn'. contradiction.
  - destruct (Hnz Hn)
      as (e2 & nxt0 & nxt1 & len0 & len1 & st0 & st1 & payload & pad & w' & H).
    cbv zeta in H.
    destruct H as (R & B0 & B1 & B2 & B3 & NP & FP & NPad & D).
    destruct (Ran_acts _ _ _ _ _ R) as (E & evs & L & A).
    set (next := Z.shiftl nxt1 8 + nxt0) in *.
    set (rdpt := if next =? RX_BUF_START then RX_BUF_END else next - 1) in *.
    assert (Hnext : 0 <= next < 65536) by (apply word_range; assumption).
    assert (Hrd : 0 <= rdpt < 65536).
    { unfold rdpt, RX_BUF_START, RX_BUF_END.
      destruct (Z.eqb_spec next 0); lia. }
    eexists _, w', evs, e, n, _. split; [exact E|]. split; [exact L|].
    split; [exact A|]. intros _.
    exists e2, nxt0, nxt1.
    exists ([RBM [len0]; RBM [len1]; RBM [st0]; RBM [st1]]
            ++ (if bufsize >=? Z.shiftl len1 8 + len0 then [RBM payload]
                else map (fun b => RBM [b]) payload)
            ++ map (fun b => RBM [b]) pad), rdpt.
    cbv zeta. fold next.
    split; [cbn [app]; rewrite <- ?app_assoc; reflexivity|].
    split.
    { repeat (constructor; [eexists; reflexivity|]).
      apply Forall_app. split.
      - destruct (bufsize >=? _).
        + constructor; [eexists; reflexivity | constructor].
        + apply Forall_forall. intros a Ha. apply in_map_iff in Ha.
          destruct Ha as (b & <- & _). eexists; reflexivity.
      - apply Forall_forall. intros a Ha. apply in_map_iff in Ha.
        destruct Ha as (b & <- & _). eexists; reflexivity. }
    split; [exact B0|]. split; [exact B1|]. split; [exact Hrd|].
    unfold rdpt. split; intros Hx.
    + rewrite Hx. reflexivity.
    + apply Z.eqb_neq in Hx. rewrite Hx. reflexivity.
Qed.

(** [C3] A pending frame whose declared length [len] (descriptor bytes 3
    and 4, low byte first) exceeds the capacity [bufsize] is read off the
    chip in [len] single-byte buffer reads whose bytes go nowhere: the
    caller's buffer is returned as it was, the result is 0 and the
    received-packet counter keeps its value, while the read pointer is still
    programmed (from the descriptor's next-packet pointer) and the packet
    decrement still issued.  When [bufsize >= len]
    the [len] payload bytes are streamed by one buffer read into the first
    [len] cells of the caller's buffer, the counter is incremented and the
    result is [len]. *)
Theorem receive_capacity buffer bufsize w :
  exists res w' evs e n rest,
    ENC28J60_receive buffer bufsize w = Some (res, w') /\
    log w' = log w ++ evs /\
    acts evs =
      [RCR ECON1 e; WCR ECON1 (bank_bits e EPKTCNT_BANK); RCR EPKTCNT n]
      ++ rest /\
    (n <> 0 ->
     exists e2 nxt0 nxt1 len0 len1 st0 st1 payload pad,
       let len := Z.shiftl len1 8 + len0 in
       let next := Z.shiftl nxt1 8 + nxt0 in
       let rdpt := if next =? RX_BUF_START then RX_BUF_END else next - 1 in
       let descriptor :=
         [RCR ECON1 e2; WCR ECON1 (bank_bits e2 ERXTX_BANK);
          RBM [nxt0]; RBM [nxt1]; RBM [len0]; RBM [len1];
          RBM [st0]; RBM [st1]] in
       let release :=
         [WCR ERXRDPTL (rdpt mod 256); WCR ERXRDPTH (rdpt / 256);
          BFS ECON2 ECON2_PKTDEC] in
       length payload = Z.to_nat len /\ (length pad <= 1)%nat /\
       (bufsize < len ->
        rest = descriptor ++ map (fun b => RBM [b]) payload
                 ++ map (fun b => RBM [b]) pad ++ release /\
        res = (0, buffer) /\
        receivedPackets (dev w') = receivedPackets (dev w)) /\
       (len <= bufsize ->
        rest = descriptor ++ [RBM payload]
                 ++ map (fun b => RBM [b]) pad ++ release /\
        res = (len, stores 0 payload buffer) /\
        ((Z.to_nat len <= length buffer)%nat ->
         stores 0 payload buffer = payload ++ skipn (length payload) buffer) /\
        receivedPackets (dev w') = s32 (receivedPackets (dev w) + 1) /\
        (INT_MIN <= receivedPackets (dev w) < INT_MAX ->
         receivedPackets (dev w') = receivedPackets (dev w) + 1))).
Proof.
  destruct (receive_ran buffer bufsize w)
    as (e & n & w1 & R0 & D0 & E0 & N0 & Hz & Hnz).
  destruct (Z.eq_dec n 0) as [Hn|Hn].
  - destruct (Ran_acts _ _ _ _ _ R0) as (_ & evs & L & A).
    exists (0, buffer), w1, evs, e, n, []. split; [apply Hz; exact Hn|].
    split; [exact L|]. split; [rewrite app_nil_r; exact A|].
    intros Hn'. contradiction.
  - destruct (Hnz Hn)
      as (e2 & nxt0 & nxt1 & len0 & len1 & st0 & st1 & payload & pad & w' & H).
    cbv zeta in H.
    destruct H as (R & B0 & B1 & B2 & B3 & NP & FP & NPad & D).
    destruct (Ran_acts _ _ _ _ _ R) as (E & evs & L & A).
    set (len := Z.shiftl len1 8 + len0) in *.
    eexists _, w', evs, e, n, _. split; [exact E|]. split; [exact L|].
    split; [exact A|]. intros _.
    exists e2, nxt0, nxt1, len0, len1, st0, st1, payload, pad.
    cbv zeta. fold len.
    split; [exact NP|].
    split; [rewrite NPad; destruct (Z.rem len 2 =? 0); lia|].
    split.
    + intros Hlt. destruct (Z.geb_spec bufsize len) as [Hge|_]; [lia|].
      split; [reflexivity|]. split; [reflexivity|]. rewrite D. reflexivity.
    + intros Hle. destruct (Z.geb_spec bufsize len) as [_|Hlt]; [|lia].
      split; [reflexivity|]. split; [reflexivity|].
      split; [intros Hb; apply stores_prefix; lia|].
      rewrite D. cbn [receivedPackets set_receivedPackets set_bank].
      split; [reflexivity|]. intros Hr. apply s32_small.
      unfold INT_MIN, INT_MAX in *. lia.
Qed.

(** [C6] After the payload of a pending frame (streamed into the buffer
    or dropped byte by byte, whichever path is taken) and before the
    read-pointer registers are written, [ENC28J60_receive] performs exactly
    one more single-byte buffer read when the declared length is odd, and
    none when it is even; that byte is not stored anywhere. *)
Theorem receive_odd_length_padding buffer bufsize w :
  exists res w' evs e n rest,
    ENC28J60_receive buffer bufsize w = Some (res, w') /\
    log w' = log w ++ evs /\
    acts evs =
      [RCR ECON1 e; WCR ECON1 (bank_bits e EPKTCNT_BANK); RCR EPKTCNT n]
      ++ rest /\
    (n <> 0 ->
     exists e2 nxt0 nxt1 len0 len1 st0 st1 payload pad lo hi,
       let len := Z.shiftl len1 8 + len0 in
       rest =
         [RCR ECON1 e2; WCR ECON1 (bank_bits e2 ERXTX_BANK);
          RBM [nxt0]; RBM [nxt1]; RBM [len0]; RBM [len1];
          RBM [st0]; RBM [st1]]
         ++ (if bufsize >=? len then [RBM payload]
             else map (fun b => RBM [b]) payload)
         ++ map (fun b => RBM [b]) pad
         ++ [WCR ERXRDPTL lo; WCR ERXRDPTH hi; BFS ECON2 ECON2_PKTDEC] /\
       length payload = Z.to_nat len /\
       (Z.odd len = true -> length pad = 1%nat) /\
       (Z.even len = true -> pad = []) /\
       snd res = (if bufsize >=? len then stores 0 payload buffer else buffer)).
Proof.
  destruct (receive_ran buffer bufsize w)
    as (e & n & w1 & R0 & D0 & E0 & N0 & Hz & Hnz).
  destruct (Z.eq_dec n 0) as [Hn|Hn].
  - destruct (Ran_acts _ _ _ _ _ R0) as (_ & evs & L & A).
    exists (0, buffer), w1, evs, e, n, []. split; [apply Hz; exact Hn|].
    split; [exact L|]. split; [rewrite app_nil_r; exact A|].
    intros Hn'. contradiction.
  - destruct (Hnz Hn)
      as (e2 & nxt0 & nxt1 & len0 & len1 & st0 & st1 & payload & pad & w' & H).
    cbv zeta in H.
    destruct H as (R & B0 & B1 & B2 & B3 & NP & FP & NPad & D).
    destruct (Ran_acts _ _ _ _ _ R) as (E & evs & L & A).
    set (len := Z.shiftl len1 8 + len0) in *.
    assert (Hlen : 0 <= len < 65536) by (apply word_range; assumption).
    rewrite rem2_even in NPad by lia.
    eexists _, w', evs, e, n, _. split; [exact E|]. split; [exact L|].
    split; [exact A|]. intros _.
    exists e2, nxt0, nxt1, len0, len1, st0, st1, payload, pad.
    eexists. eexists. cbv zeta. fold len.
    split; [reflexivity|]. split; [exact NP|].
    split; [|split].
    + intros Ho. rewrite <- Z.negb_even in Ho.
      destruct (Z.even len); [discriminate Ho | exact NPad].
    + intros He. rewrite He in NPad. destruct pad; [reflexivity | discriminate].
    + destruct (bufsize >=? len); reflexivity.
Qed.

(** [C8] When the pending-packet counter reads zero, [ENC28J60_receive]
    returns 0 and leaves the caller's buffer as it was; on the bus it has
    only selected the packet-count bank (ECON1 read, then written back with
    its two low bits set to that bank) and read the counter: no buffer
    byte is read, the read pointer is not written and no packet decrement
    is issued.  Of the handle only the recorded bank changes, to the
    packet-count bank; both packet counters are unchanged. *)
Theorem receive_nothing_pending buffer bufsize w :
  exists res w' evs e n rest,
    ENC28J60_receive buffer bufsize w = Some (res, w') /\
    log w' = log w ++ evs /\
    acts evs =
      [RCR ECON1 e; WCR ECON1 (bank_bits e EPKTCNT_BANK); RCR EPKTCNT n]
      ++ rest /\
    (n = 0 ->
     res = (0, buffer) /\ rest = [] /\
     dev w' = set_bank EPKTCNT_BANK (dev w) /\
     bank (dev w') = EPKTCNT_BANK /\
     receivedPackets (dev w') = receivedPackets (dev w) /\
     sentPackets (dev w') = sentPackets (dev w)).
Proof.
  destruct (receive_ran buffer bufsize w)
    as (e & n & w1 & R0 & D0 & E0 & N0 & Hz & Hnz).
  destruct (Z.eq_dec n 0) as [Hn|Hn].
  - destruct (Ran_acts _ _ _ _ _ R0) as (_ & evs & L & A).
    exists (0, buffer), w1, evs, e, n, []. split; [apply Hz; exact Hn|].
    split; [exact L|]. split; [rewrite app_nil_r; exact A|].
    intros _. rewrite D0. repeat split; reflexivity.
  - destruct (Hnz Hn)
      as (e2 & nxt0 & nxt1 & len0 & len1 & st0 & st1 & payload & pad & w' & H).
    cbv zeta in H. destruct H as (R & _).
    destruct (Ran_acts _ _ _ _ _ R) as (E & evs & L & A).
    eexists _, w', evs, e, n, _. split; [exact E|]. split; [exact L|].
    split; [exact A|]. intros Hn'. contradiction.
Qed.

(** [C9] [_ENC28J60_readRev] selects the address bank, reads EREVID, and
    reports 1 for the raw value 2, 7 for the raw value 6 and every other
    raw value as it is. *)
Theorem readRev_remaps w :
  exists rev w' evs e raw,
    _ENC28J60_readRev w = Some (rev, w') /\
    log w' = log w ++ evs /\
    acts evs =
      [RCR ECON1 e; WCR ECON1 (bank_bits e MAADRX_BANK); RCR EREVID raw] /\
    is_byte raw /\
    (raw = 2 -> rev = 1) /\
    (raw = 6 -> rev = 7) /\
    (raw <> 2 -> raw <> 6 -> rev = raw).
Proof.
  destruct (readRev_ran w) as (e & raw & w' & R & D & B).
  destruct (Ran_acts _ _ _ _ _ R) as (E & evs & L & A).
  eexists _, w', evs, e, raw. split; [exact E|]. split; [exact L|].
  split; [exact A|]. split; [exact B|].
  split; [intros ->; reflexivity|]. split; [intros ->; reflexivity|].
  intros H2 H6. apply Z.eqb_neq in H2, H6. rewrite H2, H6. reflexivity.
Qed.

(** ** Polling loops *)

Lemma while_mono {R} (cond : M bool) (body : M (option R)) fuel :
  forall w x, while_ fuel cond body w = Some x ->
  forall fuel', (fuel <= fuel')%nat -> while_ fuel' cond body w = Some x.
Proof.
  induction fuel as [|fuel IH]; intros w x H fuel' Hle; [discriminate H|].
  destruct fuel' as [|fuel']; [lia|].
  cbn [while_] in *. unfold bind in *.
  destruct (cond w) as [[c w1]|]; [|discriminate H].
  destruct c; [|exact H].
  destruct (body w1) as [[r w2]|]; [|discriminate H].
  destruct r as [v|]; [exact H|].
  apply IH; [exact H | lia].
Qed.

(** A poll that ends, as [polls] describes it, is what the loop computes
    once it is given enough iterations. *)
Lemma while_polls reg ready busy (code : Z) timeoutTime :
  (forall v, busy v = negb (ready v)) ->
  forall w o w', polls reg ready timeoutTime w o w' ->
  exists n, forall fuel, (n <= fuel)%nat ->
    while_ fuel
      (v <- _ENC28J60_readReg reg ;; ret (busy v))
      (t <- do_HAL_GetTick ;;
       if t >? timeoutTime then ret (Some code) else ret None) w
    = Some (match o with Satisfied => None | Expired => Some code end, w').
Proof.
  intros Hb w o w' H.
  induction H as [w v w1 Hr Hv | w v w1 t w2 Hr Hv Ht Hgt
                 | w v w1 t w2 o w3 Hr Hv Ht Hle Hp IH].
  - exists 1%nat. intros [|fuel] Hf; [lia|]. cbn [while_]. unfold bind.
    rewrite Hr. unfold ret. rewrite Hb, Hv. reflexivity.
  - exists 1%nat. intros [|fuel] Hf; [lia|]. cbn [while_]. unfold bind.
    rewrite Hr. unfold ret at 1. rewrite Hb, Hv. cbn [negb]. rewrite Ht.
    destruct (Z.gtb_spec t timeoutTime); [reflexivity | lia].
  - destruct IH as (n & IH). exists (S n). intros [|fuel] Hf; [lia|].
    cbn [while_]. unfold bind at 1 2. rewrite Hr. unfold ret at 1.
    rewrite Hb, Hv. cbn [negb]. unfold bind at 1 2. rewrite Ht.
    destruct (Z.gtb_spec t timeoutTime); [lia|]. unfold ret at 1.
    apply IH. lia.
Qed.

Lemma getTick_ran w :
  exists t w',
    Ran do_HAL_GetTick w t w' [Clock t] /\ dev w' = dev w /\
    0 <= t < 4294967296.
Proof.
  unfold Ran, do_HAL_GetTick. destruct (HAL_GetTick (hw w)) as [t h].
  eexists _, _. split; [split; [reflexivity|]|split; [reflexivity|]].
  - exists [EvGetTick (u32 t)]. split; [reflexivity|]. repeat constructor.
  - unfold u32. apply Z.mod_pos_bound. lia.
Qed.

(** What a poll leaves in the log, and that it leaves the handle alone. *)
Lemma polls_log reg ready timeoutTime :
  0 <= reg < 32 ->
  forall w o w', polls reg ready timeoutTime w o w' ->
  dev w' = dev w /\
  exists evs tr,
    log w' = log w ++ evs /\ Trace evs tr /\ Forall (poll_act reg) tr.
Proof.
  intros Hreg w o w' H.
  induction H as [w v w1 Hr Hv | w v w1 t w2 Hr Hv Ht Hgt
                 | w v w1 t w2 o w3 Hr Hv Ht Hle Hp IH].
  - destruct (readReg_ran reg w Hreg) as (v' & w1' & [E (evs & L & T)] & D & _).
    rewrite E in Hr. inversion Hr; subst v' w1'.
    split; [exact D|]. exists evs, [RCR reg v]. split; [exact L|].
    split; [exact T|]. constructor; [left; eexists; reflexivity | constructor].
  - destruct (readReg_ran reg w Hreg) as (v' & w1' & R1 & D1 & _).
    rewrite (Ran_eq _ _ _ _ _ R1) in Hr. inversion Hr; subst v' w1'.
    destruct (getTick_ran w1) as (t' & w2' & R2 & D2 & _).
    rewrite (Ran_eq _ _ _ _ _ R2) in Ht. inversion Ht; subst t' w2'.
    split; [congruence|].
    destruct R1 as [_ (e1 & L1 & T1)]. destruct R2 as [_ (e2 & L2 & T2)].
    exists (e1 ++ e2), ([RCR reg v] ++ [Clock t]).
    split; [rewrite L2, L1, app_assoc; reflexivity|].
    split; [apply Trace_app; assumption|].
    constructor; [left; eexists; reflexivity|].
    constructor; [right; eexists; reflexivity | constructor].
  - destruct (readReg_ran reg w Hreg) as (v' & w1' & R1 & D1 & _).
    rewrite (Ran_eq _ _ _ _ _ R1) in Hr. inversion Hr; subst v' w1'.
    destruct (getTick_ran w1) as (t' & w2' & R2 & D2 & _).
    rewrite (Ran_eq _ _ _ _ _ R2) in Ht. inversion Ht; subst t' w2'.
    destruct IH as (D3 & e3 & t3 & L3 & T3 & F3).
    split; [congruence|].
    destruct R1 as [_ (e1 & L1 & T1)]. destruct R2 as [_ (e2 & L2 & T2)].
    exists (e1 ++ e2 ++ e3), ([RCR reg v] ++ [Clock t] ++ t3).
    split; [rewrite L3, L2, L1, <- !app_assoc; reflexivity|].
    split; [repeat apply Trace_app; assumption|].
    constructor; [left; eexists; reflexivity|].
    constructor; [right; eexists; reflexivity | exact F3].
Qed.

(** Conversely, whatever the loop returns is a poll that ended that way. *)
Lemma polls_of_while reg ready busy (code : Z) timeoutTime :
  (forall v, busy v = negb (ready v)) ->
  forall fuel w o w',
    while_ fuel
      (v <- _ENC28J60_readReg reg ;; ret (busy v))
      (t <- do_HAL_GetTick ;;
       if t >? timeoutTime then ret (Some code) else ret None) w
    = Some (o, w') ->
    (o = None /\ polls reg ready timeoutTime w Satisfied w') \/
    (o = Some code /\ polls reg ready timeoutTime w Expired w').
Proof.
  intros Hb. induction fuel as [|fuel IH]; intros w o w' H; [discriminate H|].
  cbn [while_] in H. unfold bind at 1 2 in H.
  destruct (_ENC28J60_readReg reg w) as [[v w1]|] eqn:Hr; [|discriminate H].
  unfold ret at 1 in H. rewrite Hb in H.
  destruct (ready v) eqn:Hv; cbn [negb] in H.
  - inversion H; subst. left. split; [reflexivity|].
    eapply polls_ready; eassumption.
  - unfold bind at 1 2 in H.
    destruct (do_HAL_GetTick w1) as [[t w2]|] eqn:Ht; [|discriminate H].
    destruct (Z.gtb_spec t timeoutTime) as [Hgt|Hle].
    + inversion H; subst. right. split; [reflexivity|].
      eapply polls_expired; [eassumption | eassumption | eassumption | lia].
    + unfold ret at 1 in H. destruct (IH _ _ _ H) as [[-> Hp]|[-> Hp]].
      * left. split; [reflexivity|]. eapply polls_again; eassumption.
      * right. split; [reflexivity|]. eapply polls_again; eassumption.
Qed.

(** ** Chip control layer: reset *)

Lemma reset_pulse_ran w :
  exists t0 w1,
    Ran reset_pulse w (u32 (t0 + 5000)) w1
      [ResetAssert; Delay 2; ResetDeassert; Delay 2; Delay 2; Clock t0] /\
    dev w1 = dev w.
Proof.
  unfold reset_pulse, Ran, bind, _ENC28J60_resetAssert, _ENC28J60_resetDeassert,
    do_sleep_ms, do_HAL_GetTick, ret. cbn [dev hw log].
  destruct (HAL_GetTick _) as [t h].
  exists (u32 t). eexists. split; [split; [reflexivity|]|reflexivity].
  cbn [dev hw log].
  exists [EvResetAssert; EvSleep 2; EvResetDeassert; EvSleep 2; EvSleep 2;
          EvGetTick (u32 t)].
  split; [repeat rewrite <- app_assoc; reflexivity | repeat constructor].
Qed.

Lemma setRegBitField_ran reg mask w :
  0 <= reg < 32 ->
  exists tr w',
    Ran (_ENC28J60_setRegBitField reg mask) w tt w' tr /\ dev w' = dev w.
Proof.
  intros Hr. destruct (_ENC28J60_isMacMiiReg (dev w) reg =? 0) eqn:Hm.
  - apply Z.eqb_eq in Hm.
    destruct (setRegBitField_eth_ran reg mask w Hr Hm) as (w' & R & D).
    exists [BFS reg (u8 mask)], w'. split; assumption.
  - destruct (readReg_ran reg w Hr) as (v & w1 & R1 & D1 & _).
    destruct (writeReg_ran reg (Z.lor v mask) w1 Hr) as (w2 & R2 & D2).
    eexists _, w2. split; [|congruence].
    unfold _ENC28J60_setRegBitField.
    ran_step (Ran_gets (fun e => _ENC28J60_isMacMiiReg e reg) w).
    rewrite Hm. cbn [negb]. ran_step R1. exact R2.
Qed.

(** The configuration part of the reset always runs to its [return 0]; the
    handle is left with the address bank recorded. *)
Lemma reset_configure_ran w :
  exists tr w',
    Ran reset_configure w 0 w' tr /\
    dev w' = set_bank MAADRX_BANK (dev w).
Proof.
  destruct (setRegBank_ran ERXTX_BANK w) as (e1 & w1 & R1 & D1 & _).
  destruct (writeReg16_ran ERXSTL RX_BUF_START w1) as (w2 & R2 & D2);
    [unfold ERXSTL; lia|].
  destruct (writeReg16_ran ERXNDL RX_BUF_END w2) as (w3 & R3 & D3);
    [unfold ERXNDL; lia|].
  destruct (writeReg16_ran ERDPTL RX_BUF_START w3) as (w4 & R4 & D4);
    [unfold ERDPTL; lia|].
  destruct (writeReg16_ran ERXRDPTL RX_BUF_END w4) as (w5 & R5 & D5);
    [unfold ERXRDPTL; lia|].
  destruct (setRegBank_ran EPKTCNT_BANK w5) as (e2 & w6 & R6 & D6 & _).
  destruct (writeReg_ran ERXFCON
              (Z.lor (Z.lor ERXFCON_UCEN ERXFCON_CRCEN) ERXFCON_BCEN) w6)
    as (w7 & R7 & D7); [unfold ERXFCON; lia|].
  destruct (setRegBank_ran MACONX_BANK w7) as (e3 & w8 & R8 & D8 & _).
  destruct (setRegBitField_ran MACON1
              (Z.lor (Z.lor MACON1_MARXEN MACON1_TXPAUS) MACON1_RXPAUS) w8)
    as (t9 & w9 & R9 & D9); [unfold MACON1; lia|].
  destruct (setRegBitField_ran MACON3
              (Z.lor (Z.lor (Z.lor MACON3_PADCFG_FULL MACON3_TXCRCEN)
                        MACON3_FULDPX) MACON3_FRMLNEN) w9)
    as (t10 & w10 & R10 & D10); [unfold MACON3; lia|].
  destruct (writeReg16_ran MAMXFLL MAX_MAC_LENGTH w10) as (w11 & R11 & D11);
    [unfold MAMXFLL; lia|].
  destruct (writeReg_ran MABBIPG 0x15 w11) as (w12 & R12 & D12);
    [unfold MABBIPG; lia|].
  destruct (writeReg_ran MAIPGL 0x12 w12) as (w13 & R13 & D13);
    [unfold MAIPGL; lia|].
  destruct (setRegBank_ran MAADRX_BANK w13) as (e4 & w14 & R14 & D14 & _).
  set (mac := macAddress (dev w14)).
  destruct (writeReg_ran MAADR6 (nth 5 mac 0) w14) as (w15 & R15 & D15);
    [unfold MAADR6; lia|].
  destruct (writeReg_ran MAADR5 (nth 4 mac 0) w15) as (w16 & R16 & D16);
    [unfold MAADR5; lia|].
  destruct (writeReg_ran MAADR4 (nth 3 mac 0) w16) as (w17 & R17 & D17);
    [unfold MAADR4; lia|].
  destruct (writeReg_ran MAADR3 (nth 2 mac 0) w17) as (w18 & R18 & D18);
    [unfold MAADR3; lia|].
  destruct (writeReg_ran MAADR2 (nth 1 mac 0) w18) as (w19 & R19 & D19);
    [unfold MAADR2; lia|].
  destruct (writeReg_ran MAADR1 (nth 0 mac 0) w19) as (w20 & R20 & D20);
    [unfold MAADR1; lia|].
  destruct (setRegBitField_ran ECON2 ECON2_AUTOINC w20)
    as (t21 & w21 & R21 & D21); [unfold ECON2; lia|].
  destruct (writeReg_ran ECON1 ECON1_RXEN w21) as (w22 & R22 & D22);
    [unfold ECON1; lia|].
  eexists _, w22. split.
  - unfold reset_configure.
    ran_step R1. ran_step R2. ran_step R3. ran_step R4. ran_step R5.
    ran_step R6. ran_step R7. ran_step R8. ran_step R9. ran_step R10.
    ran_step R11. ran_step R12. ran_step R13. ran_step R14.
    ran_step (Ran_gets macAddress w14). fold mac.
    ran_step R15. ran_step R16. ran_step R17. ran_step R18. ran_step R19.
    ran_step R20. ran_step R21. ran_step R22. apply Ran_ret.
  - rewrite D22, D21, D20, D19, D18, D17, D16, D15, D14, D13, D12, D11, D10,
      D9, D8, D7, D6, D5, D4, D3, D2, D1.
    reflexivity.
Qed.

Lemma clkrdy_busy v : (Z.land v ESTAT_CLKRDY =? 0) = negb (clkrdy v).
Proof. unfold clkrdy. symmetry. apply negb_involutive. Qed.

Lemma txrts_busy v : (Z.land v ECON1_TXRTS >? 0) = negb (txrts_clear v).
Proof. unfold txrts_clear. symmetry. apply negb_involutive. Qed.

Lemma reset_expired w timeoutTime w1 w2 :
  reset_pulse w = Some (timeoutTime, w1) ->
  polls ESTAT clkrdy timeoutTime w1 Expired w2 ->
  exists n, forall fuel, (n <= fuel)%nat ->
    _ENC28J60_reset fuel w = Some (1, w2).
Proof.
  intros Hp Hpoll.
  destruct (while_polls ESTAT clkrdy _ 1 timeoutTime clkrdy_busy _ _ _ Hpoll)
    as (n & Hn).
  exists n. intros fuel Hf. unfold _ENC28J60_reset.
  rewrite (bind_some _ _ _ _ _ Hp). unfold bind, wait_ost.
  rewrite (Hn fuel Hf). reflexivity.
Qed.

Lemma reset_satisfied w timeoutTime w1 w2 :
  reset_pulse w = Some (timeoutTime, w1) ->
  polls ESTAT clkrdy timeoutTime w1 Satisfied w2 ->
  exists n w3, dev w3 = set_bank MAADRX_BANK (dev w2) /\
    forall fuel, (n <= fuel)%nat -> _ENC28J60_reset fuel w = Some (0, w3).
Proof.
  intros Hp Hpoll.
  destruct (while_polls ESTAT clkrdy _ 1 timeoutTime clkrdy_busy _ _ _ Hpoll)
    as (n & Hn).
  destruct (reset_configure_ran w2) as (tr & w3 & R & D).
  exists n, w3. split; [exact D|]. intros fuel Hf. unfold _ENC28J60_reset.
  rewrite (bind_some _ _ _ _ _ Hp). unfold bind, wait_ost.
  rewrite (Hn fuel Hf). apply (Ran_eq _ _ _ _ _ R).
Qed.

(** Whenever [_ENC28J60_reset] returns, the log shows the reset pulse. *)
Lemma reset_inv fuel w r w2 :
  _ENC28J60_reset fuel w = Some (r, w2) ->
  exists t0 tr,
    Ran (_ENC28J60_reset fuel) w r w2
      ([ResetAssert; Delay 2; ResetDeassert; Delay 2; Delay 2; Clock t0] ++ tr).
Proof.
  intros H. pose proof H as H0.
  destruct (reset_pulse_ran w) as (t0 & w1 & [Ep (ep & Lp & Tp)] & Dp).
  unfold _ENC28J60_reset in H. rewrite (bind_some _ _ _ _ _ Ep) in H.
  unfold bind at 1 in H.
  destruct (wait_ost fuel (u32 (t0 + 5000)) w1) as [[o wq]|] eqn:Hw;
    [|discriminate H].
  apply (polls_of_while ESTAT clkrdy _ 1 _ clkrdy_busy) in Hw.
  assert (Hpl : exists o', polls ESTAT clkrdy (u32 (t0 + 5000)) w1 o' wq)
    by (destruct Hw as [[_ Hq]|[_ Hq]]; eexists; exact Hq).
  destruct Hpl as (o' & Hq).
  destruct (polls_log ESTAT clkrdy _ ltac:(unfold ESTAT; lia) _ _ _ Hq)
    as (Dq & eq & tq & Lq & Tq & _).
  destruct Hw as [[-> _]|[-> _]].
  - destruct (reset_configure_ran wq) as (tc & w3 & [Ec (ec & Lc & Tc)] & Dc).
    rewrite Ec in H. inversion H; subst r w3.
    exists t0, (tq ++ tc). split; [exact H0|].
    exists (ep ++ eq ++ ec). split.
    + rewrite Lc, Lq, Lp, <- !app_assoc. reflexivity.
    + repeat apply Trace_app; assumption.
  - inversion H; subst r wq.
    exists t0, tq. split; [exact H0|].
    exists (ep ++ eq). split.
    + rewrite Lq, Lp, <- !app_assoc. reflexivity.
    + apply Trace_app; assumption.
Qed.

Lemma reset_mono fuel fuel' w x :
  _ENC28J60_reset fuel w = Some x -> (fuel <= fuel')%nat ->
  _ENC28J60_reset fuel' w = Some x.
Proof.
  unfold _ENC28J60_reset, bind, wait_ost. intros H Hle.
  destruct (reset_pulse w) as [[tmo w1]|]; [|discriminate H].
  match type of H with
  | match ?W with _ => _ end = _ => destruct W as [[o w2]|] eqn:Hw
  end; [|discriminate H].
  rewrite (while_mono _ _ _ _ _ Hw _ Hle). exact H.
Qed.

(** ** Setup: the retry loop *)

Lemma setup_loop_retries wa wb wc fuel0 :
  failed_resets wa wb ->
  _ENC28J60_reset fuel0 wb = Some (0, wc) ->
  exists n, forall fuel k, (n <= fuel)%nat -> (n <= k)%nat ->
    while_ (R := unit) k
      (r <- _ENC28J60_reset fuel ;; ret (negb (r =? 0)))
      (ret None) wa
    = Some (None, wc).
Proof.
  intros Hf Hok. induction Hf as [w | f1 w r w1 w2 Hr Hnz Hf IH].
  - exists (S fuel0). intros fuel [|k] H1 H2; [lia|]. cbn [while_].
    unfold bind at 1 2.
    rewrite (reset_mono _ fuel _ _ Hok) by lia. reflexivity.
  - destruct (IH Hok) as (n & Hn). exists (S (Nat.max n f1)).
    intros fuel [|k] H1 H2; [lia|]. cbn [while_]. unfold bind at 1 2.
    rewrite (reset_mono _ fuel _ _ Hr) by lia. unfold ret at 1.
    apply Z.eqb_neq in Hnz. rewrite Hnz. cbn [negb].
    unfold bind at 1, ret at 1. apply Hn; lia.
Qed.

Lemma setup_loop_inv fuel : forall k wa o wc,
  while_ (R := unit) k
    (r <- _ENC28J60_reset fuel ;; ret (negb (r =? 0)))
    (ret None) wa
  = Some (o, wc) ->
  exists wb, failed_resets wa wb /\ _ENC28J60_reset fuel wb = Some (0, wc).
Proof.
  induction k as [|k IH]; intros wa o wc H; [discriminate H|].
  cbn [while_] in H. unfold bind at 1 2 in H.
  destruct (_ENC28J60_reset fuel wa) as [[r w1]|] eqn:Hr; [|discriminate H].
  unfold ret at 1 in H. destruct (Z.eqb_spec r 0) as [->|Hnz]; cbn [negb] in H.
  - inversion H; subst. exists wa. split; [constructor | exact Hr].
  - unfold bind at 1, ret at 1 in H. destruct (IH _ _ _ H) as (wb & Hf & Hok).
    exists wb. split; [|exact Hok]. eapply failed_more; eassumption.
Qed.

(** [X20] If the oscillator-ready bit of ESTAT reads clear at every poll
    until a tick reading is above the deadline (the tick read after the
    reset pulse, plus 5000 ms, reduced modulo 2^32), [_ENC28J60_reset]
    returns 1; the handle is as it was and, after the reset pulse and its
    delays, the bus has carried nothing but the reads of ESTAT: no register
    is written.  The retry is
    the caller's: [ENC28J60_setup] calls [_ENC28J60_reset] again after every
    failure, without a bound, and returns [HAL_OK] exactly when one call
    has returned 0. *)
Theorem reset_timeout_and_setup_retry :
  (forall w timeoutTime w1 w2,
     reset_pulse w = Some (timeoutTime, w1) ->
     polls ESTAT clkrdy timeoutTime w1 Expired w2 ->
     (exists n, forall fuel, (n <= fuel)%nat ->
        _ENC28J60_reset fuel w = Some (1, w2)) /\
     dev w2 = dev w /\
     exists evs t0 tr,
       log w2 = log w ++ evs /\
       acts evs =
         [ResetAssert; Delay 2; ResetDeassert; Delay 2; Delay 2; Clock t0]
         ++ tr /\
       timeoutTime = u32 (t0 + 5000) /\
       Forall (poll_act ESTAT) tr) /\
  (forall w wa wb wc fuel0,
     setup_fields w = Some (tt, wa) ->
     failed_resets wa wb ->
     _ENC28J60_reset fuel0 wb = Some (0, wc) ->
     exists n, forall fuel, (n <= fuel)%nat ->
       ENC28J60_setup fuel w = Some (HAL_OK, wc)) /\
  (forall fuel w r wc,
     ENC28J60_setup fuel w = Some (r, wc) ->
     r = HAL_OK /\
     exists wa wb,
       setup_fields w = Some (tt, wa) /\
       failed_resets wa wb /\
       _ENC28J60_reset fuel wb = Some (0, wc)).
Proof.
  split; [|split].
  - intros w timeoutTime w1 w2 Hp Hpoll.
    split; [eapply reset_expired; eassumption|].
    destruct (reset_pulse_ran w) as (t0 & w1' & [Ep (ep & Lp & Tp)] & Dp).
    rewrite Ep in Hp. inversion Hp; subst timeoutTime w1'.
    destruct (polls_log ESTAT clkrdy _ ltac:(unfold ESTAT; lia) _ _ _ Hpoll)
      as (Dq & eq & tq & Lq & Tq & Fq).
    split; [congruence|].
    exists (ep ++ eq), t0, tq.
    split; [rewrite Lq, Lp, <- app_assoc; reflexivity|].
    split; [apply Trace_acts, Trace_app; assumption|].
    split; [reflexivity | exact Fq].
  - intros w wa wb wc fuel0 Hi Hf Hok.
    destruct (setup_loop_retries _ _ _ _ Hf Hok) as (n & Hn).
    exists n. intros fuel Hfuel. unfold ENC28J60_setup.
    rewrite (bind_some _ _ _ _ _ Hi). unfold bind at 1.
    rewrite (Hn fuel fuel Hfuel Hfuel). reflexivity.
  - intros fuel w r wc H. unfold ENC28J60_setup in H.
    unfold bind at 1 in H.
    destruct (setup_fields w) as [[[] wa]|] eqn:Hi; [|discriminate H].
    unfold bind at 1 in H.
    match type of H with
    | match ?W with _ => _ end = _ => destruct W as [[o w2]|] eqn:Hw
    end; [|discriminate H].
    inversion H; subst r w2. split; [reflexivity|].
    destruct (setup_loop_inv _ _ _ _ _ Hw) as (wb & Hf & Hok).
    exists wa, wb. repeat split; assumption.
Qed.

(** ** Watchdog *)

Lemma hasElapsed_inv w b w1 :
  do_periodicTimer_hasElapsed w = Some (b, w1) ->
  log w1 = log w /\
  receivedPackets (dev w1) = receivedPackets (dev w) /\
  sentPackets (dev w1) = sentPackets (dev w).
Proof.
  unfold do_periodicTimer_hasElapsed.
  destruct (periodicTimer_hasElapsed _ _) as [[b' t] h]. intros H.
  inversion H; subst. repeat split; reflexivity.
Qed.

(** The state a tick leaves behind once the counters are cleared. *)
Lemma tick_elapsed fuel w w1 :
  do_periodicTimer_hasElapsed w = Some (true, w1) ->
  ENC28J60_tick fuel w =
    match (if receivedPackets (dev w) <=? sentPackets (dev w)
           then _ENC28J60_reset fuel else ret 0) w1 with
    | Some (_, w2) =>
        Some (tt, {| dev := set_sentPackets 0 (set_receivedPackets 0 (dev w2));
                     hw := hw w2; log := log w2 |})
    | None => None
    end.
Proof.
  intros He. destruct (hasElapsed_inv _ _ _ He) as (_ & Hr & Hs).
  unfold ENC28J60_tick. rewrite (bind_some _ _ _ _ _ He).
  unfold bind at 1, gets at 1. unfold bind at 1, gets at 1.
  rewrite Hr, Hs. unfold bind at 1.
  destruct ((if receivedPackets (dev w) <=? sentPackets (dev w)
             then _ENC28J60_reset fuel else ret 0) w1) as [[r w2]|];
    reflexivity.
Qed.

Lemma tick_resets fuel w w1 r w2 :
  do_periodicTimer_hasElapsed w = Some (true, w1) ->
  receivedPackets (dev w) <= sentPackets (dev w) ->
  _ENC28J60_reset fuel w1 = Some (r, w2) ->
  exists w' evs t0 tr,
    ENC28J60_tick fuel w = Some (tt, w') /\
    w' = {| dev := set_sentPackets 0 (set_receivedPackets 0 (dev w2));
            hw := hw w2; log := log w2 |} /\
    log w' = log w ++ evs /\
    acts evs =
      [ResetAssert; Delay 2; ResetDeassert; Delay 2; Delay 2; Clock t0]
      ++ tr /\
    receivedPackets (dev w') = 0 /\ sentPackets (dev w') = 0.
Proof.
  intros He Hle Hr.
  destruct (hasElapsed_inv _ _ _ He) as (Hl & _ & _).
  destruct (reset_inv _ _ _ _ Hr) as (t0 & tr & R).
  destruct (Ran_acts _ _ _ _ _ R) as (_ & evs & L & A).
  eexists _, evs, t0, tr. split.
  - rewrite (tick_elapsed _ _ _ He).
    destruct (Z.leb_spec (receivedPackets (dev w)) (sentPackets (dev w)));
      [|lia].
    rewrite Hr. reflexivity.
  - split; [reflexivity|]. cbn [log dev]. rewrite L, Hl.
    repeat split; [exact A].
Qed.

Lemma reset_returns w timeoutTime w1 o w2 :
  reset_pulse w = Some (timeoutTime, w1) ->
  polls ESTAT clkrdy timeoutTime w1 o w2 ->
  exists n r w3, forall fuel, (n <= fuel)%nat ->
    _ENC28J60_reset fuel w = Some (r, w3).
Proof.
  intros Hp Hpoll. destruct o.
  - destruct (reset_satisfied _ _ _ _ Hp Hpoll) as (n & w3 & _ & Hn).
    exists n, 0, w3. exact Hn.
  - destruct (reset_expired _ _ _ _ Hp Hpoll) as (n & Hn).
    exists n, 1, w2. exact Hn.
Qed.

(** Once the oscillator poll of the reset ends, one way or the other, the
    tick returns for every large enough iteration budget. *)
Lemma tick_resets_eventually w w1 timeoutTime wp o wq :
  do_periodicTimer_hasElapsed w = Some (true, w1) ->
  receivedPackets (dev w) <= sentPackets (dev w) ->
  reset_pulse w1 = Some (timeoutTime, wp) ->
  polls ESTAT clkrdy timeoutTime wp o wq ->
  exists n w' evs t0 tr,
    (forall fuel, (n <= fuel)%nat -> ENC28J60_tick fuel w = Some (tt, w')) /\
    log w' = log w ++ evs /\
    acts evs =
      [ResetAssert; Delay 2; ResetDeassert; Delay 2; Delay 2; Clock t0]
      ++ tr /\
    receivedPackets (dev w') = 0 /\ sentPackets (dev w') = 0.
Proof.
  intros He Hle Hp Hpoll.
  destruct (reset_returns _ _ _ _ _ Hp Hpoll) as (n & r & w3 & Hn).
  destruct (tick_resets n w w1 r w3 He Hle (Hn n (Nat.le_refl n)))
    as (w' & evs & t0 & tr & _ & -> & L & A & Hr & Hs).
  eexists n, _, evs, t0, tr. split; [|repeat split; eassumption].
  intros fuel Hf.
  destruct (tick_resets fuel w w1 r w3 He Hle (Hn fuel Hf))
    as (w'' & _ & _ & _ & E & -> & _).
  exact E.
Qed.

(** [C1] At a tick at which the watchdog timer reports its interval
    elapsed: if the received-packet counter is at most the sent-packet
    counter, [_ENC28J60_reset] is run (the log gains its reset pulse, and the
    tick returns if and only if the reset does, which it does as soon as its
    oscillator poll ends) and both counters are 0 in the state it leaves; if
    the received-packet counter is larger, nothing
    is logged at all (no reset, no bus traffic) and both counters are 0
    afterwards.  The timer is the one [ENC28J60_setup] arms with 30 * 1000
    ms. *)
Theorem tick_watchdog w w1 :
  do_periodicTimer_hasElapsed w = Some (true, w1) ->
  (receivedPackets (dev w) <= sentPackets (dev w) ->
   forall fuel,
     (_ENC28J60_reset fuel w1 = None -> ENC28J60_tick fuel w = None) /\
     (forall r w2,
        _ENC28J60_reset fuel w1 = Some (r, w2) ->
        exists w' evs t0 tr,
          ENC28J60_tick fuel w = Some (tt, w') /\
          w' = {| dev := set_sentPackets 0 (set_receivedPackets 0 (dev w2));
                  hw := hw w2; log := log w2 |} /\
          log w' = log w ++ evs /\
          acts evs =
            [ResetAssert; Delay 2; ResetDeassert; Delay 2; Delay 2; Clock t0]
            ++ tr /\
          receivedPackets (dev w') = 0 /\ sentPackets (dev w') = 0)) /\
  (receivedPackets (dev w) <= sentPackets (dev w) ->
   forall timeoutTime wp o wq,
     reset_pulse w1 = Some (timeoutTime, wp) ->
     polls ESTAT clkrdy timeoutTime wp o wq ->
     exists n w' evs t0 tr,
       (forall fuel, (n <= fuel)%nat ->
          ENC28J60_tick fuel w = Some (tt, w')) /\
       log w' = log w ++ evs /\
       acts evs =
         [ResetAssert; Delay 2; ResetDeassert; Delay 2; Delay 2; Clock t0]
         ++ tr /\
       receivedPackets (dev w') = 0 /\ sentPackets (dev w') = 0) /\
  (sentPackets (dev w) < receivedPackets (dev w) ->
   forall fuel,
   exists w',
     ENC28J60_tick fuel w = Some (tt, w') /\
     log w' = log w /\ hw w' = hw w1 /\
     receivedPackets (dev w') = 0 /\ sentPackets (dev w') = 0) /\
  (forall w0, exists wa,
     setup_fields w0 = Some (tt, wa) /\
     (watchDogTimer (dev wa), hw wa) =
       periodicTimer_setup (watchDogTimer (dev w0)) 30000 (hw w0)).
Proof.
  intros He. split; [|split; [|split]];
    [| intros Hle timeoutTime wp o wq Hp Hpoll;
       eapply tick_resets_eventually; eassumption
     | |intros w0; unfold setup_fields, bind, modify, do_periodicTimer_setup;
        cbn [dev hw log watchDogTimer set_sentPackets set_receivedPackets
             set_bank];
        change (30 * 1000) with 30000;
        destruct (periodicTimer_setup _ _ _) as [t h];
        eexists; split; reflexivity].
  - intros Hle fuel. split.
    + intros Hn. rewrite (tick_elapsed _ _ _ He).
      destruct (Z.leb_spec (receivedPackets (dev w)) (sentPackets (dev w)));
        [|lia].
      rewrite Hn. reflexivity.
    + intros r w2 Hr. eapply tick_resets; eassumption.
  - intros Hlt fuel. destruct (hasElapsed_inv _ _ _ He) as (Hl & _ & _).
    eexists. split.
    + rewrite (tick_elapsed _ _ _ He).
      destruct (Z.leb_spec (receivedPackets (dev w)) (sentPackets (dev w)));
        [lia|].
      reflexivity.
    + cbn [log hw dev]. repeat split. exact Hl.
Qed.

(** [C10] A tick at which the interval has elapsed and both counters are
    0 runs [_ENC28J60_reset]: the condition [receivedPackets <= sentPackets]
    holds at [0 <= 0], so a link on which nothing was sent is reset too
    (the log gains the reset pulse; the tick returns when the reset does,
    which it does as soon as its oscillator poll ends). *)
Theorem tick_idle_link_is_reset w w1 :
  do_periodicTimer_hasElapsed w = Some (true, w1) ->
  sentPackets (dev w) = 0 ->
  receivedPackets (dev w) = 0 ->
  (forall fuel r w2,
     _ENC28J60_reset fuel w1 = Some (r, w2) ->
     exists w' evs t0 tr,
       ENC28J60_tick fuel w = Some (tt, w') /\
       w' = {| dev := set_sentPackets 0 (set_receivedPackets 0 (dev w2));
               hw := hw w2; log := log w2 |} /\
       log w' = log w ++ evs /\
       acts evs =
         [ResetAssert; Delay 2; ResetDeassert; Delay 2; Delay 2; Clock t0]
         ++ tr /\
       receivedPackets (dev w') = 0 /\ sentPackets (dev w') = 0) /\
  (forall timeoutTime wp o wq,
     reset_pulse w1 = Some (timeoutTime, wp) ->
     polls ESTAT clkrdy timeoutTime wp o wq ->
     exists n w' evs t0 tr,
       (forall fuel, (n <= fuel)%nat ->
          ENC28J60_tick fuel w = Some (tt, w')) /\
       log w' = log w ++ evs /\
       acts evs =
         [ResetAssert; Delay 2; ResetDeassert; Delay 2; Delay 2; Clock t0]
         ++ tr /\
       receivedPackets (dev w') = 0 /\ sentPackets (dev w') = 0).
Proof.
  intros He Hs Hr. split.
  - intros fuel r w2 Hreset.
    eapply tick_resets; [exact He | lia | exact Hreset].
  - intros timeoutTime wp o wq Hp Hpoll.
    eapply tick_resets_eventually; [exact He | lia | exact Hp | exact Hpoll].
Qed.

(** ** Packet I/O layer: send *)

Lemma u16_range z : 0 <= u16 z < 65536.
Proof. unfold u16. apply Z.mod_pos_bound. lia. Qed.

(** Loading a frame and starting its transmission, as the chip sees it. *)
Lemma send_load_ran data datalen w :
  exists e t0 w1,
    let dataend := u16 (TX_BUF_START + datalen) in
    Ran (send_load data datalen) w (u32 (t0 + 5000)) w1
      [RCR ECON1 e; WCR ECON1 (bank_bits e ERXTX_BANK);
       WCR ETXSTL 0x00; WCR ETXSTH 0x12;
       WCR EWRPTL 0x00; WCR EWRPTH 0x12;
       WBM [0]; WBM (bytes_out data datalen);
       WCR ETXNDL (dataend mod 256); WCR ETXNDH (dataend / 256);
       BFC EIR EIR_TXIF; BFS ECON1 ECON1_TXRTS; Clock t0] /\
    dev w1 = set_bank ERXTX_BANK (dev w).
Proof.
  destruct (setRegBank_ran ERXTX_BANK w) as (e & w1 & R1 & D1 & _).
  destruct (writeReg16_ran ETXSTL TX_BUF_START w1) as (w2 & R2 & D2);
    [unfold ETXSTL; lia|].
  destruct (writeReg16_ran EWRPTL TX_BUF_START w2) as (w3 & R3 & D3);
    [unfold EWRPTL; lia|].
  destruct (writeData_ran [u8 0x00] 1 w3) as (w4 & R4 & D4).
  destruct (writeData_ran data datalen w4) as (w5 & R5 & D5).
  set (dataend := u16 (TX_BUF_START + datalen)).
  destruct (writeReg16_ran ETXNDL dataend w5) as (w6 & R6 & D6);
    [unfold ETXNDL; lia|].
  destruct (split16 dataend (u16_range _)) as [Elo Ehi].
  rewrite Elo, Ehi in R6.
  destruct (clearRegBitField_eth_ran EIR EIR_TXIF w6) as (w7 & R7 & D7);
    [unfold EIR; lia | apply isMacMiiReg_high; unfold EIE, EIR; lia |].
  destruct (setRegBitField_eth_ran ECON1 ECON1_TXRTS w7) as (w8 & R8 & D8);
    [unfold ECON1; lia | apply isMacMiiReg_high; unfold EIE, ECON1; lia |].
  destruct (getTick_ran w8) as (t0 & w9 & R9 & D9 & _).
  exists e, t0, w9. cbv zeta. fold dataend. split.
  - eapply Ran_trace.
    + unfold send_load, _ENC28J60_writeDataByte.
      ran_step R1. ran_step R2. ran_step R3. ran_step R4. ran_step R5.
      cbv zeta. fold dataend.
      ran_step R6. ran_step R7. ran_step R8. ran_step R9. apply Ran_ret.
    + reflexivity.
  - rewrite D9, D8, D7, D6, D5, D4, D3, D2, D1. reflexivity.
Qed.

(** [X19] With the frame loaded and the transmit-request bit set, the
    deadline is the tick then read plus 5000 ms, reduced modulo 2^32.  If
    ECON1 reads with the bit still set at every poll until a tick reading
    is above that deadline, [ENC28J60_send] returns 0 with the sent-packet
    counter untouched; the log of the whole call holds the register and
    buffer writes of the load and then only reads of ECON1 and of the tick:
    no reset pulse, no soft-reset command.  If a poll reads the bit clear before that,
    [ENC28J60_send] increments the sent-packet counter and returns
    [datalen]. *)
Theorem send_timeout_or_sent data datalen w timeoutTime w1 :
  send_load data datalen w = Some (timeoutTime, w1) ->
  (forall w2,
     polls ECON1 txrts_clear timeoutTime w1 Expired w2 ->
     (exists n, forall fuel, (n <= fuel)%nat ->
        ENC28J60_send fuel data datalen w = Some (0, w2)) /\
     sentPackets (dev w2) = sentPackets (dev w) /\
     exists evs e t0 tr,
       let dataend := u16 (TX_BUF_START + datalen) in
       log w2 = log w ++ evs /\
       acts evs =
         [RCR ECON1 e; WCR ECON1 (bank_bits e ERXTX_BANK);
          WCR ETXSTL 0x00; WCR ETXSTH 0x12;
          WCR EWRPTL 0x00; WCR EWRPTH 0x12;
          WBM [0]; WBM (bytes_out data datalen);
          WCR ETXNDL (dataend mod 256); WCR ETXNDH (dataend / 256);
          BFC EIR EIR_TXIF; BFS ECON1 ECON1_TXRTS; Clock t0]
         ++ tr /\
       timeoutTime = u32 (t0 + 5000) /\
       Forall (poll_act ECON1) tr /\
       ~ In ResetAssert (acts evs) /\ ~ In SRC (acts evs)) /\
  (forall w2,
     polls ECON1 txrts_clear timeoutTime w1 Satisfied w2 ->
     exists w',
       (exists n, forall fuel, (n <= fuel)%nat ->
          ENC28J60_send fuel data datalen w = Some (datalen, w')) /\
       w' = {| dev := set_sentPackets (s32 (sentPackets (dev w2) + 1)) (dev w2);
               hw := hw w2; log := log w2 |} /\
       sentPackets (dev w') = s32 (sentPackets (dev w) + 1) /\
       (INT_MIN <= sentPackets (dev w) < INT_MAX ->
        sentPackets (dev w') = sentPackets (dev w) + 1)).
Proof.
  intros Hl.
  destruct (send_load_ran data datalen w) as (e & t0 & w1' & R & D).
  cbv zeta in R. destruct R as [El (el & Ll & Tl)].
  rewrite El in Hl. inversion Hl; subst timeoutTime w1'. clear Hl.
  split.
  - intros w2 Hp.
    destruct (while_polls ECON1 txrts_clear _ 0 _ txrts_busy _ _ _ Hp)
      as (n & Hn).
    destruct (polls_log ECON1 txrts_clear _ ltac:(unfold ECON1; lia) _ _ _ Hp)
      as (Dq & eq & tq & Lq & Tq & Fq).
    split; [|split].
    + exists n. intros fuel Hf. unfold ENC28J60_send.
      rewrite (bind_some _ _ _ _ _ El). unfold bind, wait_txrts.
      rewrite (Hn fuel Hf). reflexivity.
    + rewrite Dq, D. reflexivity.
    + exists (el ++ eq), e, t0, tq. cbv zeta.
      assert (A : acts (el ++ eq) =
        [RCR ECON1 e; WCR ECON1 (bank_bits e ERXTX_BANK);
         WCR ETXSTL 0x00; WCR ETXSTH 0x12;
         WCR EWRPTL 0x00; WCR EWRPTH 0x12;
         WBM [0]; WBM (bytes_out data datalen);
         WCR ETXNDL (u16 (TX_BUF_START + datalen) mod 256);
         WCR ETXNDH (u16 (TX_BUF_START + datalen) / 256);
         BFC EIR EIR_TXIF; BFS ECON1 ECON1_TXRTS; Clock t0] ++ tq)
        by (apply Trace_acts, Trace_app; assumption).
      split; [rewrite Lq, Ll, <- app_assoc; reflexivity|].
      split; [exact A|]. split; [reflexivity|]. split; [exact Fq|].
      rewrite A. split; intros Hin; apply in_app_or in Hin;
        destruct Hin as [Hin|Hin].
      * cbn [In] in Hin. repeat (destruct Hin as [Hin|Hin]; [discriminate Hin|]).
        exact Hin.
      * rewrite Forall_forall in Fq.
        destruct (Fq _ Hin) as [(v & Hv)|(t & Ht)]; discriminate.
      * cbn [In] in Hin. repeat (destruct Hin as [Hin|Hin]; [discriminate Hin|]).
        exact Hin.
      * rewrite Forall_forall in Fq.
        destruct (Fq _ Hin) as [(v & Hv)|(t & Ht)]; discriminate.
  - intros w2 Hp.
    destruct (while_polls ECON1 txrts_clear _ 0 _ txrts_busy _ _ _ Hp)
      as (n & Hn).
    destruct (polls_log ECON1 txrts_clear _ ltac:(unfold ECON1; lia) _ _ _ Hp)
      as (Dq & _).
    eexists. split; [|split; [reflexivity|]].
    + exists n. intros fuel Hf. unfold ENC28J60_send.
      rewrite (bind_some _ _ _ _ _ El). unfold bind at 1, wait_txrts.
      rewrite (Hn fuel Hf). reflexivity.
    + cbn [dev sentPackets set_sentPackets]. rewrite Dq, D.
      cbn [sentPackets set_bank].
      split; [reflexivity|]. intros Hr. apply s32_small.
      unfold INT_MIN, INT_MAX in *. lia.
Qed.

(** ** The MAC/MII class of registers *)

Lemma read_opcode reg : u8 (Z.lor 0x00 (Z.land reg 0x1f)) = Z.land reg 0x1f.
Proof.
  rewrite Z.lor_0_l. apply u8_small.
  change 0x1f with (Z.ones 5). rewrite Z.land_ones by lia.
  assert (H := Z.mod_pos_bound reg (2 ^ 5) ltac:(lia)).
  change (2 ^ 5) with 32 in *. lia.
Qed.

(** [C5] [_ENC28J60_isMacMiiReg] is 0 or 1 and depends on the handle only
    through the recorded bank.  It is 1 exactly in the MAC-config bank for
    register addresses below EIE (0x1b, the first of the registers common to
    all banks), and in the address bank for register addresses up to and
    including MAADR2 (0x05: the six station-address registers) or equal to
    MISTAT (0x0a).  [_ENC28J60_readReg] selects the chip, sends the register
    address, sends one dummy byte exactly when the predicate is 1 for the
    recorded bank, clocks in the byte it returns and deselects the chip. *)
Theorem isMacMiiReg_classifies w reg :
  let e := dev w in
  (_ENC28J60_isMacMiiReg e reg = 0 \/ _ENC28J60_isMacMiiReg e reg = 1) /\
  (_ENC28J60_isMacMiiReg e reg = 1 <->
     (bank e = MACONX_BANK /\ reg < EIE) \/
     (bank e = MAADRX_BANK /\ (reg <= MAADR2 \/ reg = MISTAT))) /\
  (forall e', bank e' = bank e ->
     _ENC28J60_isMacMiiReg e' reg = _ENC28J60_isMacMiiReg e reg) /\
  exists x d v w',
    _ENC28J60_readReg reg w = Some (v, w') /\
    log w' = log w ++
      [EvSpiAssert; EvSpiTx (Z.land reg 0x1f) x]
      ++ (if _ENC28J60_isMacMiiReg e reg =? 1 then [EvSpiTx 0x00 d] else [])
      ++ [EvSpiTx 0x00 v; EvSpiDeassert].
Proof.
  cbv zeta. split; [|split; [|split]].
  - unfold _ENC28J60_isMacMiiReg, b2z.
    destruct (bank (dev w) =? MACONX_BANK); [destruct (reg <? EIE); auto|].
    destruct (bank (dev w) =? MAADRX_BANK); [|auto].
    destruct ((reg <=? MAADR2) || (reg =? MISTAT)); auto.
  - unfold _ENC28J60_isMacMiiReg, b2z, MACONX_BANK, MAADRX_BANK, EIE, MAADR2,
      MISTAT.
    destruct (Z.eqb_spec (bank (dev w)) 2) as [H2|H2].
    + destruct (Z.ltb_spec reg 27); split; intros Hx; try lia;
        try discriminate.
    + destruct (Z.eqb_spec (bank (dev w)) 3) as [H3|H3].
      * destruct (Z.leb_spec reg 5); destruct (Z.eqb_spec reg 10);
          cbn [orb]; split; intros Hx; try lia; try discriminate.
      * split; intros Hx; [discriminate | lia].
  - intros e' He. unfold _ENC28J60_isMacMiiReg. rewrite He. reflexivity.
  - destruct (readReg_events reg w) as (x & d & v & w' & E & _ & _ & L).
    exists x, d, v, w'. split; [exact E|]. rewrite L, read_opcode.
    unfold txn. f_equal.
    assert (H01 : _ENC28J60_isMacMiiReg (dev w) reg = 0 \/
                  _ENC28J60_isMacMiiReg (dev w) reg = 1).
    { unfold _ENC28J60_isMacMiiReg, b2z.
      destruct (bank (dev w) =? MACONX_BANK); [destruct (reg <? EIE); auto|].
      destruct (bank (dev w) =? MAADRX_BANK); [|auto].
      destruct ((reg <=? MAADR2) || (reg =? MISTAT)); auto. }
    destruct H01 as [-> | ->]; reflexivity.
Qed.

(** * Further properties of the driver *)

(** ** Bytes and bits *)

Lemma is_byte_land_ones x : is_byte x <-> Z.land x (Z.ones 8) = x.
Proof.
  unfold is_byte. rewrite Z.land_ones by lia. change (2 ^ 8) with 256.
  split; intros H.
  - apply Z.mod_small. exact H.
  - rewrite <- H. apply Z.mod_pos_bound. lia.
Qed.

Lemma is_byte_lor a b : is_byte a -> is_byte b -> is_byte (Z.lor a b).
Proof.
  rewrite !is_byte_land_ones. intros Ha Hb.
  rewrite Z.land_lor_distr_l, Ha, Hb. reflexivity.
Qed.

Lemma is_byte_land a c : is_byte a -> is_byte (Z.land a c).
Proof.
  rewrite !is_byte_land_ones. intros Ha.
  rewrite <- Z.land_assoc, (Z.land_comm c), Z.land_assoc, Ha. reflexivity.
Qed.

Lemma bank_bits_high v b : Z.land (bank_bits v b) 0xfc = Z.land v 0xfc.
Proof.
  unfold bank_bits. rewrite Z.land_lor_distr_l, <- !Z.land_assoc.
  change (Z.land 0xfc 0xfc) with 0xfc. change (Z.land 0x03 0xfc) with 0.
  rewrite Z.land_0_r, Z.lor_0_r. reflexivity.
Qed.

Lemma bank_bits_low v b : Z.land (bank_bits v b) 0x03 = Z.land b 0x03.
Proof.
  unfold bank_bits. rewrite Z.land_lor_distr_l, <- !Z.land_assoc.
  change (Z.land 0xfc 0x03) with 0. change (Z.land 0x03 0x03) with 0x03.
  rewrite Z.land_0_r, Z.lor_0_l. reflexivity.
Qed.

(** ** Bus protocol layer, continued *)

(** [X1] [_ENC28J60_setRegBank] works from any recorded bank, right or
    wrong: ECON1 is read without a dummy byte and written back with its two
    low bits replaced by those of [new_bank] and its six high bits as read;
    the handle then records [new_bank]. *)
Theorem setRegBank_replaces_bank_bits new_bank w :
  exists v w' evs x y z,
    _ENC28J60_setRegBank new_bank w = Some (tt, w') /\
    log w' = log w ++ evs /\
    evs = txn [(ECON1, x); (0x00, v)]
          ++ txn [(Z.lor 0x40 ECON1, y); (bank_bits v new_bank, z)] /\
    acts evs = [RCR ECON1 v; WCR ECON1 (bank_bits v new_bank)] /\
    is_byte v /\
    Z.land (bank_bits v new_bank) 0xfc = Z.land v 0xfc /\
    Z.land (bank_bits v new_bank) 0x03 = Z.land new_bank 0x03 /\
    dev w' = set_bank new_bank (dev w).
Proof.
  destruct (readReg_events ECON1 w) as (x & d & v & w1 & E1 & D1 & V1 & L1).
  rewrite isMacMiiReg_high in L1 by (unfold EIE, ECON1; lia).
  cbn [Z.eqb app] in L1.
  assert (Hw : exists y z w2,
             _ENC28J60_writeReg ECON1 (bank_bits v new_bank) w1 = Some (tt, w2) /\
             dev w2 = dev w1 /\
             log w2 = log w1 ++
               txn [(Z.lor 0x40 ECON1, y); (bank_bits v new_bank, z)]).
  { unfold _ENC28J60_writeReg, bind, _ENC28J60_spiAssert, _ENC28J60_spiTx,
      _ENC28J60_spiDeassert. cbn [dev hw log].
    destruct (HAL_SPI_TransmitReceive _ _ _) as [y h1]. cbn [dev hw log].
    destruct (HAL_SPI_TransmitReceive _ _ _) as [z h2]. cbn [dev hw log].
    exists (u8 y), (u8 z). eexists. split; [reflexivity|].
    split; [reflexivity|]. cbn [log].
    rewrite (u8_small _ (bank_bits_range v new_bank V1)).
    repeat rewrite <- app_assoc. reflexivity. }
  destruct Hw as (y & z & w2 & E2 & D2 & L2).
  exists v. eexists. eexists. exists x, y, z.
  split; [|split; [|split; [reflexivity|]]].
  - unfold _ENC28J60_setRegBank. rewrite (bind_some _ _ _ _ _ E1).
    fold (bank_bits v new_bank). rewrite (bind_some _ _ _ _ _ E2).
    reflexivity.
  - cbn [log]. rewrite L2, L1, <- app_assoc. reflexivity.
  - split; [|split; [exact V1|split; [apply bank_bits_high|split;
      [apply bank_bits_low|cbn [dev]; rewrite D2, D1; reflexivity]]]].
    rewrite acts_txn. rewrite <- (app_nil_r (txn _)), acts_txn.
    reflexivity.
Qed.

Lemma setRegBitField_mac_ran reg mask w :
  0 <= reg < 32 -> is_byte mask ->
  _ENC28J60_isMacMiiReg (dev w) reg <> 0 ->
  exists v w',
    Ran (_ENC28J60_setRegBitField reg mask) w tt w'
      [RCR reg v; WCR reg (Z.lor v mask)] /\
    dev w' = dev w /\ is_byte v.
Proof.
  intros Hr Hmask Hm. apply Z.eqb_neq in Hm.
  destruct (readReg_ran reg w Hr) as (v & w1 & R1 & D1 & V1).
  destruct (writeReg_ran reg (Z.lor v mask) w1 Hr) as (w2 & R2 & D2).
  rewrite (u8_small _ (is_byte_lor _ _ V1 Hmask)) in R2.
  exists v, w2. split; [|split; [congruence | exact V1]].
  unfold _ENC28J60_setRegBitField.
  eapply Ran_trace.
  - ran_step (Ran_gets (fun e => _ENC28J60_isMacMiiReg e reg) w).
    rewrite Hm. cbn [negb]. ran_step R1. exact R2.
  - reflexivity.
Qed.

Lemma clearRegBitField_mac_ran reg mask w :
  0 <= reg < 32 ->
  _ENC28J60_isMacMiiReg (dev w) reg <> 0 ->
  exists v w',
    Ran (_ENC28J60_clearRegBitField reg mask) w tt w'
      [RCR reg v; WCR reg (Z.land v (Z.lnot mask))] /\
    dev w' = dev w /\ is_byte v.
Proof.
  intros Hr Hm. apply Z.eqb_neq in Hm.
  destruct (readReg_ran reg w Hr) as (v & w1 & R1 & D1 & V1).
  destruct (writeReg_ran reg (Z.land v (Z.lnot mask)) w1 Hr) as (w2 & R2 & D2).
  rewrite (u8_small _ (is_byte_land _ _ V1)) in R2.
  exists v, w2. split; [|split; [congruence | exact V1]].
  unfold _ENC28J60_clearRegBitField.
  eapply Ran_trace.
  - ran_step (Ran_gets (fun e => _ENC28J60_isMacMiiReg e reg) w).
    rewrite Hm. cbn [negb]. ran_step R1. exact R2.
  - reflexivity.
Qed.

(** [X2] [_ENC28J60_setRegBitField] on a register of the MAC/MII class of
    the recorded bank reads the register and writes it back with the mask
    or-ed in; on any other register it issues the single bit-field-set
    command with the mask.  Either way the handle is unchanged. *)
Theorem setRegBitField_dispatch reg mask w :
  0 <= reg < 32 -> is_byte mask ->
  exists w' evs,
    _ENC28J60_setRegBitField reg mask w = Some (tt, w') /\
    log w' = log w ++ evs /\ dev w' = dev w /\
    ((_ENC28J60_isMacMiiReg (dev w) reg = 0 /\ acts evs = [BFS reg mask]) \/
     (_ENC28J60_isMacMiiReg (dev w) reg <> 0 /\
      exists v, is_byte v /\ acts evs = [RCR reg v; WCR reg (Z.lor v mask)])).
Proof.
  intros Hr Hmask.
  destruct (Z.eq_dec (_ENC28J60_isMacMiiReg (dev w) reg) 0) as [Hm|Hm].
  - destruct (setRegBitField_eth_ran reg mask w Hr Hm) as (w' & R & D).
    rewrite (u8_small _ Hmask) in R.
    destruct (Ran_acts _ _ _ _ _ R) as (E & evs & L & A).
    exists w', evs. repeat split; try assumption. left. split; assumption.
  - destruct (setRegBitField_mac_ran reg mask w Hr Hmask Hm)
      as (v & w' & R & D & V).
    destruct (Ran_acts _ _ _ _ _ R) as (E & evs & L & A).
    exists w', evs. repeat split; try assumption. right.
    split; [exact Hm|]. exists v. split; assumption.
Qed.

(** [X3] [_ENC28J60_clearRegBitField] on a register of the MAC/MII class
    reads the register and writes back the value with exactly the mask bits
    cleared (the other bits as read); on any other register it issues the
    single bit-field-clear command with the mask. *)
Theorem clearRegBitField_dispatch reg mask w :
  0 <= reg < 32 -> is_byte mask ->
  exists w' evs,
    _ENC28J60_clearRegBitField reg mask w = Some (tt, w') /\
    log w' = log w ++ evs /\ dev w' = dev w /\
    ((_ENC28J60_isMacMiiReg (dev w) reg = 0 /\ acts evs = [BFC reg mask]) \/
     (_ENC28J60_isMacMiiReg (dev w) reg <> 0 /\
      exists v cleared,
        is_byte v /\ acts evs = [RCR reg v; WCR reg cleared] /\
        cleared = Z.land v (Z.lnot mask) /\
        Z.land cleared mask = 0 /\
        Z.lor cleared (Z.land v mask) = v)).
Proof.
  intros Hr Hmask.
  destruct (Z.eq_dec (_ENC28J60_isMacMiiReg (dev w) reg) 0) as [Hm|Hm].
  - destruct (clearRegBitField_eth_ran reg mask w Hr Hm) as (w' & R & D).
    rewrite (u8_small _ Hmask) in R.
    destruct (Ran_acts _ _ _ _ _ R) as (E & evs & L & A).
    exists w', evs. repeat split; try assumption. left. split; assumption.
  - destruct (clearRegBitField_mac_ran reg mask w Hr Hm) as (v & w' & R & D & V).
    destruct (Ran_acts _ _ _ _ _ R) as (E & evs & L & A).
    exists w', evs. repeat split; try assumption. right.
    split; [exact Hm|]. exists v, (Z.land v (Z.lnot mask)).
    split; [exact V|]. split; [exact A|]. split; [reflexivity|]. split.
    + rewrite <- Z.land_assoc, (Z.land_comm (Z.lnot mask)), Z.land_lnot_diag.
      apply Z.land_0_r.
    + rewrite <- Z.land_lor_distr_r, (Z.lor_comm (Z.lnot mask)),
        Z.lor_lnot_diag.
      apply Z.land_m1_r.
Qed.

(** [X4] [_ENC28J60_writeReg16] writes the low byte of a 16-bit value to
    [reg] and then the high byte to the next register address (address 0
    after address 31, since a command carries five address bits); the two
    bytes written recombine to the value. *)
Theorem writeReg16_low_byte_first reg data w :
  0 <= reg < 32 -> 0 <= data < 65536 ->
  exists w' evs,
    _ENC28J60_writeReg16 reg data w = Some (tt, w') /\
    log w' = log w ++ evs /\ dev w' = dev w /\
    acts evs = [WCR reg (data mod 256); WCR ((reg + 1) mod 32) (data / 256)] /\
    is_byte (data mod 256) /\ is_byte (data / 256) /\
    data mod 256 + 256 * (data / 256) = data.
Proof.
  intros Hr Hd. destruct (split16 data Hd) as [Elo Ehi].
  assert (Hlo : is_byte (data mod 256))
    by (apply Z.mod_pos_bound; lia).
  assert (Hhi : is_byte (data / 256)).
  { split; [apply Z.div_pos; lia | apply Z.div_lt_upper_bound; lia]. }
  assert (Hsum : data mod 256 + 256 * (data / 256) = data).
  { rewrite (Z.div_mod data 256) at 3 by lia. lia. }
  destruct (Z.eq_dec reg 31) as [->|Hne].
  - unfold _ENC28J60_writeReg16. cbv zeta. rewrite Elo, Ehi.
    destruct (writeReg_ran 31 (data mod 256) w) as (w1 & R1 & D1); [lia|].
    rewrite (u8_small _ Hlo) in R1.
    assert (Hw : exists w2,
               Ran (_ENC28J60_writeReg (u8 (31 + 1)) (data / 256)) w1 tt w2
                 [WCR 0 (data / 256)] /\ dev w2 = dev w1).
    { destruct (writeReg_ran 0 (data / 256) w1) as (w2 & R2 & D2); [lia|].
      rewrite (u8_small _ Hhi) in R2. exists w2. split; [|exact D2].
      destruct R2 as [E2 T2]. split; [|exact T2].
      rewrite <- E2. unfold _ENC28J60_writeReg, bind. reflexivity. }
    destruct Hw as (w2 & R2 & D2).
    destruct (Ran_acts _ _ _ _ _
                (Ran_bind (_ENC28J60_writeReg 31 (data mod 256))
                   (fun _ => _ENC28J60_writeReg (u8 (31 + 1)) (data / 256))
                   _ _ _ _ _ _ _ R1 R2))
      as (E & evs & L & A).
    exists w2, evs. repeat split; try assumption; try congruence; try apply Hlo;
      try apply Hhi.
  - destruct (writeReg16_ran reg data w) as (w' & R & D); [lia|].
    rewrite Elo, Ehi in R.
    destruct (Ran_acts _ _ _ _ _ R) as (E & evs & L & A).
    rewrite (Z.mod_small (reg + 1) 32) by lia.
    exists w', evs. repeat split; try assumption; try apply Hlo; try apply Hhi.
Qed.

(** ** Buffer memory transfers *)

Lemma bytes_out_firstn l : forall n,
  Forall is_byte l -> (n <= length l)%nat ->
  map (fun k => u8 (nth k l 0)) (seq 0 n) = firstn n l.
Proof.
  induction l as [|a l IH]; intros n Hb Hn.
  - cbn in Hn. assert (n = O) by lia. subst n. reflexivity.
  - destruct n as [|n]; [reflexivity|].
    inversion Hb as [|? ? Ha Hl]; subst.
    cbn [seq map firstn nth]. rewrite (u8_small a Ha). f_equal.
    rewrite <- seq_shift, map_map. cbn [nth].
    apply IH; [exact Hl | cbn in Hn; lia].
Qed.

(** [X5] [_ENC28J60_writeData] makes one transaction: the write-buffer
    opcode followed by [datalen] bytes in order.  With [datalen <= 0] the
    opcode goes out alone; with [datalen] within the data the bytes are the
    first [datalen] bytes of the data, unchanged. *)
Theorem writeData_streams_bytes data datalen w :
  exists w' evs,
    _ENC28J60_writeData data datalen w = Some (tt, w') /\
    log w' = log w ++ evs /\ dev w' = dev w /\
    acts evs = [WBM (bytes_out data datalen)] /\
    length (bytes_out data datalen) = Z.to_nat datalen /\
    (datalen <= 0 -> bytes_out data datalen = []) /\
    (Forall is_byte data -> (Z.to_nat datalen <= length data)%nat ->
     bytes_out data datalen = firstn (Z.to_nat datalen) data) /\
    (Forall is_byte data -> datalen = Z.of_nat (length data) ->
     bytes_out data datalen = data).
Proof.
  destruct (writeData_ran data datalen w) as (w' & R & D).
  destruct (Ran_acts _ _ _ _ _ R) as (E & evs & L & A).
  exists w', evs. split; [exact E|]. split; [exact L|]. split; [exact D|].
  split; [exact A|]. split; [|split; [|split]].
  - unfold bytes_out. rewrite length_map, length_seq. reflexivity.
  - intros Hle. unfold bytes_out.
    replace (Z.to_nat datalen) with O by lia. reflexivity.
  - intros Hb Hn. apply bytes_out_firstn; assumption.
  - intros Hb ->. unfold bytes_out. rewrite Nat2Z.id.
    rewrite bytes_out_firstn by (auto; lia). apply firstn_all.
Qed.

(** [X6] [_ENC28J60_readData] makes one transaction: the read-buffer
    opcode, then one byte clocked in per cell, stored at indices 0, 1, ...
    With [len <= 0] nothing is clocked in, the buffer is as it was and 0 is
    returned; with [len] within the buffer the first [len] cells hold the
    bytes read, the cells after them are untouched, and [len] is
    returned. *)
Theorem readData_fills_prefix buf len w :
  exists bytes buf' w' evs,
    _ENC28J60_readData buf len w = Some ((buf', Z.max 0 len), w') /\
    log w' = log w ++ evs /\ dev w' = dev w /\
    acts evs = [RBM bytes] /\
    length bytes = Z.to_nat len /\ Forall is_byte bytes /\
    (len <= 0 -> bytes = [] /\ buf' = buf /\ Z.max 0 len = 0) /\
    ((Z.to_nat len <= length buf)%nat ->
     buf' = bytes ++ skipn (Z.to_nat len) buf /\
     length buf' = length buf).
Proof.
  destruct (readData_ran buf len w) as (bytes & w' & R & D & N & B).
  destruct (Ran_acts _ _ _ _ _ R) as (E & evs & L & A).
  exists bytes, (stores 0 bytes buf), w', evs.
  split; [exact E|]. split; [exact L|]. split; [exact D|]. split; [exact A|].
  split; [exact N|]. split; [exact B|]. split.
  - intros Hle. assert (Hn : length bytes = O) by lia.
    destruct bytes; [|discriminate Hn]. repeat split. lia.
  - intros Hfit. rewrite stores_prefix by lia. rewrite N. split; [reflexivity|].
    rewrite length_app, length_skipn. lia.
Qed.

(** ** Packet I/O layer: receive, continued *)

(** [X7] Whatever the chip answers, [ENC28J60_receive] returns a length
    between 0 and 65535 that never exceeds the capacity it was given.  It
    never touches the sent-packet counter, and the received-packet counter
    moves by at most one increment, which it does whenever the result is
    positive.  If the capacity is within the caller's buffer, the buffer
    keeps its length and only its first [result] cells can have changed. *)
Theorem receive_result_bounds buffer bufsize w :
  exists res w',
    ENC28J60_receive buffer bufsize w = Some (res, w') /\
    0 <= fst res < 65536 /\
    (0 <= bufsize -> fst res <= bufsize) /\
    sentPackets (dev w') = sentPackets (dev w) /\
    (receivedPackets (dev w') = receivedPackets (dev w) \/
     receivedPackets (dev w') = s32 (receivedPackets (dev w) + 1)) /\
    (0 < fst res ->
     receivedPackets (dev w') = s32 (receivedPackets (dev w) + 1)) /\
    ((Z.to_nat bufsize <= length buffer)%nat ->
     length (snd res) = length buffer /\
     skipn (Z.to_nat (fst res)) (snd res)
     = skipn (Z.to_nat (fst res)) buffer).
Proof.
  destruct (receive_ran buffer bufsize w)
    as (e & n & w1 & R0 & D0 & E0 & N0 & Hz & Hnz).
  destruct (Z.eq_dec n 0) as [Hn|Hn].
  - exists (0, buffer), w1. split; [apply Hz; exact Hn|]. rewrite D0.
    cbn [fst snd]. split; [lia|]. split; [lia|]. split; [reflexivity|].
    split; [left; reflexivity|]. split; [lia|]. intros _.
    split; reflexivity.
  - destruct (Hnz Hn)
      as (e2 & nxt0 & nxt1 & len0 & len1 & st0 & st1 & payload & pad & w' & H).
    cbv zeta in H.
    destruct H as (R & B0 & B1 & B2 & B3 & NP & FP & NPad & D).
    set (len := Z.shiftl len1 8 + len0) in *.
    assert (Hlen : 0 <= len < 65536) by (apply word_range; assumption).
    eexists _, w'. split; [exact (Ran_eq _ _ _ _ _ R)|]. rewrite D.
    destruct (Z.geb_spec bufsize len) as [Hge|Hlt]; cbn [fst snd].
    + split; [exact Hlen|]. split; [lia|]. split; [reflexivity|].
      split; [right; reflexivity|]. split; [reflexivity|]. intros Hfit.
      rewrite stores_prefix by lia. rewrite NP. split.
      * rewrite length_app, length_skipn. lia.
      * rewrite <- NP. rewrite skipn_app, skipn_all, Nat.sub_diag.
        reflexivity.
    + split; [lia|]. split; [lia|]. split; [reflexivity|].
      split; [left; reflexivity|]. split; [lia|]. intros _.
      split; reflexivity.
Qed.

(** [X8] The read pointer [ENC28J60_receive] programs stays inside the
    receive region [RX_BUF_START .. RX_BUF_END] whenever the descriptor's
    next-packet pointer does, is odd whenever that pointer is even, and is
    never the next-packet pointer itself. *)
Theorem receive_read_pointer_in_ring buffer bufsize w :
  exists res w' evs e n rest,
    ENC28J60_receive buffer bufsize w = Some (res, w') /\
    log w' = log w ++ evs /\
    acts evs =
      [RCR ECON1 e; WCR ECON1 (bank_bits e EPKTCNT_BANK); RCR EPKTCNT n]
      ++ rest /\
    (n <> 0 ->
     exists e2 nxt0 nxt1 body rdpt,
       let next := Z.shiftl nxt1 8 + nxt0 in
       rest =
         [RCR ECON1 e2; WCR ECON1 (bank_bits e2 ERXTX_BANK);
          RBM [nxt0]; RBM [nxt1]]
         ++ body
         ++ [WCR ERXRDPTL (rdpt mod 256); WCR ERXRDPTH (rdpt / 256);
             BFS ECON2 ECON2_PKTDEC] /\
       (RX_BUF_START <= next <= RX_BUF_END ->
        RX_BUF_START <= rdpt <= RX_BUF_END) /\
       (Z.even next = true -> Z.odd rdpt = true) /\
       rdpt <> next).
Proof.
  destruct (receive_ran buffer bufsize w)
    as (e & n & w1 & R0 & D0 & E0 & N0 & Hz & Hnz).
  destruct (Z.eq_dec n 0) as [Hn|Hn].
  - destruct (Ran_acts _ _ _ _ _ R0) as (_ & evs & L & A).
    exists (0, buffer), w1, evs, e, n, []. split; [apply Hz; exact Hn|].
    split; [exact L|]. split; [rewrite app_nil_r; exact A|].
    intros Hn'. contradiction.
  - destruct (Hnz Hn)
      as (e2 & nxt0 & nxt1 & len0 & len1 & st0 & st1 & payload & pad & w' & H).
    cbv zeta in H.
    destruct H as (R & B0 & B1 & B2 & B3 & NP & FP & NPad & D).
    destruct (Ran_acts _ _ _ _ _ R) as (E & evs & L & A).
    set (next := Z.shiftl nxt1 8 + nxt0) in *.
    set (rdpt := if next =? RX_BUF_START then RX_BUF_END else next - 1) in *.
    assert (Hnext : 0 <= next < 65536) by (apply word_range; assumption).
    eexists _, w', evs, e, n, _. split; [exact E|]. split; [exact L|].
    split; [exact A|]. intros _.
    exists e2, nxt0, nxt1.
    exists ([RBM [len0]; RBM [len1]; RBM [st0]; RBM [st1]]
            ++ (if bufsize >=? Z.shiftl len1 8 + len0 then [RBM payload]
                else map (fun b => RBM [b]) payload)
            ++ map (fun b => RBM [b]) pad), rdpt.
    cbv zeta. fold next.
    split; [cbn [app]; rewrite <- ?app_assoc; reflexivity|].
    unfold rdpt, RX_BUF_START, RX_BUF_END.
    destruct (Z.eqb_spec next 0) as [Hz0|Hnz0].
    + split; [lia|]. split; [reflexivity | lia].
    + split; [lia|]. split; [|lia].
      intros Hev. rewrite Z.sub_1_r, Z.odd_pred. exact Hev.
Qed.

(** ** Chip control layer: what a reset programs *)

Ltac byte_const := vm_compute; split; [discriminate | reflexivity].

(** The configuration part of the reset, command by command. *)
Lemma reset_configure_trace w :
  exists e1 e2 e3 e4 m1 m3 w',
    let mac := macAddress (dev w) in
    Ran reset_configure w 0 w'
      [RCR ECON1 e1; WCR ECON1 (bank_bits e1 ERXTX_BANK);
       WCR ERXSTL 0x00; WCR ERXSTH 0x00; WCR ERXNDL 0xff; WCR ERXNDH 0x0f;
       WCR ERDPTL 0x00; WCR ERDPTH 0x00; WCR ERXRDPTL 0xff; WCR ERXRDPTH 0x0f;
       RCR ECON1 e2; WCR ECON1 (bank_bits e2 EPKTCNT_BANK);
       WCR ERXFCON 0xa1;
       RCR ECON1 e3; WCR ECON1 (bank_bits e3 MACONX_BANK);
       RCR MACON1 m1; WCR MACON1 (Z.lor m1 0x0d);
       RCR MACON3 m3; WCR MACON3 (Z.lor m3 0xf3);
       WCR MAMXFLL 0xee; WCR MAMXFLH 0x05;
       WCR MABBIPG 0x15; WCR MAIPGL 0x12;
       RCR ECON1 e4; WCR ECON1 (bank_bits e4 MAADRX_BANK);
       WCR MAADR6 (u8 (nth 5 mac 0)); WCR MAADR5 (u8 (nth 4 mac 0));
       WCR MAADR4 (u8 (nth 3 mac 0)); WCR MAADR3 (u8 (nth 2 mac 0));
       WCR MAADR2 (u8 (nth 1 mac 0)); WCR MAADR1 (u8 (nth 0 mac 0));
       BFS ECON2 ECON2_AUTOINC; WCR ECON1 ECON1_RXEN] /\
    dev w' = set_bank MAADRX_BANK (dev w).
Proof.
  destruct (setRegBank_ran ERXTX_BANK w) as (e1 & w1 & R1 & D1 & _).
  destruct (writeReg16_ran ERXSTL RX_BUF_START w1) as (w2 & R2 & D2);
    [unfold ERXSTL; lia|].
  destruct (writeReg16_ran ERXNDL RX_BUF_END w2) as (w3 & R3 & D3);
    [unfold ERXNDL; lia|].
  destruct (writeReg16_ran ERDPTL RX_BUF_START w3) as (w4 & R4 & D4);
    [unfold ERDPTL; lia|].
  destruct (writeReg16_ran ERXRDPTL RX_BUF_END w4) as (w5 & R5 & D5);
    [unfold ERXRDPTL; lia|].
  destruct (setRegBank_ran EPKTCNT_BANK w5) as (e2 & w6 & R6 & D6 & _).
  destruct (writeReg_ran ERXFCON
              (Z.lor (Z.lor ERXFCON_UCEN ERXFCON_CRCEN) ERXFCON_BCEN) w6)
    as (w7 & R7 & D7); [unfold ERXFCON; lia|].
  destruct (setRegBank_ran MACONX_BANK w7) as (e3 & w8 & R8 & D8 & _).
  destruct (setRegBitField_mac_ran MACON1
              (Z.lor (Z.lor MACON1_MARXEN MACON1_TXPAUS) MACON1_RXPAUS) w8)
    as (m1 & w9 & R9 & D9 & _);
    [unfold MACON1; lia | byte_const
     | rewrite D8; vm_compute; discriminate |].
  destruct (setRegBitField_mac_ran MACON3
              (Z.lor (Z.lor (Z.lor MACON3_PADCFG_FULL MACON3_TXCRCEN)
                        MACON3_FULDPX) MACON3_FRMLNEN) w9)
    as (m3 & w10 & R10 & D10 & _);
    [unfold MACON3; lia | byte_const
     | rewrite D9, D8; vm_compute; discriminate |].
  destruct (writeReg16_ran MAMXFLL MAX_MAC_LENGTH w10) as (w11 & R11 & D11);
    [unfold MAMXFLL; lia|].
  destruct (writeReg_ran MABBIPG 0x15 w11) as (w12 & R12 & D12);
    [unfold MABBIPG; lia|].
  destruct (writeReg_ran MAIPGL 0x12 w12) as (w13 & R13 & D13);
    [unfold MAIPGL; lia|].
  destruct (setRegBank_ran MAADRX_BANK w13) as (e4 & w14 & R14 & D14 & _).
  assert (Hmac : macAddress (dev w14) = macAddress (dev w)).
  { rewrite D14, D13, D12, D11, D10, D9, D8, D7, D6, D5, D4, D3, D2, D1.
    reflexivity. }
  set (mac := macAddress (dev w)).
  destruct (writeReg_ran MAADR6 (nth 5 mac 0) w14) as (w15 & R15 & D15);
    [unfold MAADR6; lia|].
  destruct (writeReg_ran MAADR5 (nth 4 mac 0) w15) as (w16 & R16 & D16);
    [unfold MAADR5; lia|].
  destruct (writeReg_ran MAADR4 (nth 3 mac 0) w16) as (w17 & R17 & D17);
    [unfold MAADR4; lia|].
  destruct (writeReg_ran MAADR3 (nth 2 mac 0) w17) as (w18 & R18 & D18);
    [unfold MAADR3; lia|].
  destruct (writeReg_ran MAADR2 (nth 1 mac 0) w18) as (w19 & R19 & D19);
    [unfold MAADR2; lia|].
  destruct (writeReg_ran MAADR1 (nth 0 mac 0) w19) as (w20 & R20 & D20);
    [unfold MAADR1; lia|].
  destruct (setRegBitField_eth_ran ECON2 ECON2_AUTOINC w20)
    as (w21 & R21 & D21);
    [unfold ECON2; lia | apply isMacMiiReg_high; unfold EIE, ECON2; lia |].
  destruct (writeReg_ran ECON1 ECON1_RXEN w21) as (w22 & R22 & D22);
    [unfold ECON1; lia|].
  exists e1, e2, e3, e4, m1, m3, w22. cbv zeta. fold mac. split.
  - eapply Ran_trace.
    + unfold reset_configure.
      ran_step R1. ran_step R2. ran_step R3. ran_step R4. ran_step R5.
      ran_step R6. ran_step R7. ran_step R8. ran_step R9. ran_step R10.
      ran_step R11. ran_step R12. ran_step R13. ran_step R14.
      ran_step (Ran_gets macAddress w14). rewrite Hmac. fold mac.
      ran_step R15. ran_step R16. ran_step R17. ran_step R18. ran_step R19.
      ran_step R20. ran_step R21. ran_step R22. apply Ran_ret.
    + reflexivity.
  - rewrite D22, D21, D20, D19, D18, D17, D16, D15, D14, D13, D12, D11, D10,
      D9, D8, D7, D6, D5, D4, D3, D2, D1.
    reflexivity.
Qed.

(** [X9] When the oscillator-ready bit reads set before the deadline,
    [_ENC28J60_reset] returns 0 after programming, in this order: the
    receive region 0x0000-0x0fff with the buffer read pointer at its start
    and the receive read pointer at its end; the filter (unicast, CRC,
    broadcast: 0xa1); MACON1 and MACON3 by read-modify-write (or-ing in 0x0d
    and 0xf3); the frame-length limit 1518 (0x05ee); the gaps 0x15 and 0x12;
    the six station-address registers from [macAddress[5]] down to
    [macAddress[0]]; auto-increment; and ECON1 with only receive enabled.
    The handle is left recording the address bank. *)
Theorem reset_configures_chip w timeoutTime w1 w2 :
  reset_pulse w = Some (timeoutTime, w1) ->
  polls ESTAT clkrdy timeoutTime w1 Satisfied w2 ->
  exists w3 evs t0 tr e1 e2 e3 e4 m1 m3,
    let mac := macAddress (dev w) in
    (exists n, forall fuel, (n <= fuel)%nat ->
       _ENC28J60_reset fuel w = Some (0, w3)) /\
    log w3 = log w ++ evs /\
    acts evs =
      [ResetAssert; Delay 2; ResetDeassert; Delay 2; Delay 2; Clock t0]
      ++ tr
      ++ [RCR ECON1 e1; WCR ECON1 (bank_bits e1 ERXTX_BANK);
          WCR ERXSTL 0x00; WCR ERXSTH 0x00; WCR ERXNDL 0xff; WCR ERXNDH 0x0f;
          WCR ERDPTL 0x00; WCR ERDPTH 0x00;
          WCR ERXRDPTL 0xff; WCR ERXRDPTH 0x0f;
          RCR ECON1 e2; WCR ECON1 (bank_bits e2 EPKTCNT_BANK);
          WCR ERXFCON 0xa1;
          RCR ECON1 e3; WCR ECON1 (bank_bits e3 MACONX_BANK);
          RCR MACON1 m1; WCR MACON1 (Z.lor m1 0x0d);
          RCR MACON3 m3; WCR MACON3 (Z.lor m3 0xf3);
          WCR MAMXFLL 0xee; WCR MAMXFLH 0x05;
          WCR MABBIPG 0x15; WCR MAIPGL 0x12;
          RCR ECON1 e4; WCR ECON1 (bank_bits e4 MAADRX_BANK);
          WCR MAADR6 (u8 (nth 5 mac 0)); WCR MAADR5 (u8 (nth 4 mac 0));
          WCR MAADR4 (u8 (nth 3 mac 0)); WCR MAADR3 (u8 (nth 2 mac 0));
          WCR MAADR2 (u8 (nth 1 mac 0)); WCR MAADR1 (u8 (nth 0 mac 0));
          BFS ECON2 ECON2_AUTOINC; WCR ECON1 ECON1_RXEN] /\
    Forall (poll_act ESTAT) tr /\
    dev w3 = set_bank MAADRX_BANK (dev w).
Proof.
  intros Hp Hpoll.
  destruct (reset_pulse_ran w) as (t0 & w1' & [Ep (ep & Lp & Tp)] & Dp).
  rewrite Ep in Hp. inversion Hp; subst timeoutTime w1'.
  destruct (while_polls ESTAT clkrdy _ 1 _ clkrdy_busy _ _ _ Hpoll)
    as (n & Hn).
  destruct (polls_log ESTAT clkrdy _ ltac:(unfold ESTAT; lia) _ _ _ Hpoll)
    as (Dq & eq & tq & Lq & Tq & Fq).
  destruct (reset_configure_trace w2)
    as (e1 & e2 & e3 & e4 & m1 & m3 & w3 & H).
  cbv zeta in H. destruct H as ([Ec (ec & Lc & Tc)] & Dc).
  assert (Hmac : macAddress (dev w2) = macAddress (dev w)) by congruence.
  rewrite Hmac in Tc.
  exists w3, (ep ++ eq ++ ec), t0, tq, e1, e2, e3, e4, m1, m3. cbv zeta.
  split; [|split; [|split; [|split]]].
  - exists n. intros fuel Hf. unfold _ENC28J60_reset.
    rewrite (bind_some _ _ _ _ _ Ep). unfold bind, wait_ost.
    rewrite (Hn fuel Hf). exact Ec.
  - rewrite Lc, Lq, Lp, <- !app_assoc. reflexivity.
  - apply Trace_acts. repeat apply Trace_app; assumption.
  - exact Fq.
  - rewrite Dc, Dq, Dp. reflexivity.
Qed.

(** Whatever [_ENC28J60_reset] returns, it is one of its two results. *)
Lemma reset_cases fuel w r w2 :
  _ENC28J60_reset fuel w = Some (r, w2) ->
  (r = 1 /\ dev w2 = dev w) \/
  (r = 0 /\ dev w2 = set_bank MAADRX_BANK (dev w)).
Proof.
  intros H.
  destruct (reset_pulse_ran w) as (t0 & w1 & [Ep _] & Dp).
  unfold _ENC28J60_reset in H. rewrite (bind_some _ _ _ _ _ Ep) in H.
  unfold bind at 1 in H.
  destruct (wait_ost fuel (u32 (t0 + 5000)) w1) as [[o wq]|] eqn:Hw;
    [|discriminate H].
  apply (polls_of_while ESTAT clkrdy _ 1 _ clkrdy_busy) in Hw.
  destruct Hw as [[-> Hq]|[-> Hq]];
    destruct (polls_log ESTAT clkrdy _ ltac:(unfold ESTAT; lia) _ _ _ Hq)
      as (Dq & _).
  - destruct (reset_configure_ran wq) as (tc & w3 & [Ec _] & Dc).
    rewrite Ec in H. inversion H; subst r w3. right.
    split; [reflexivity|]. rewrite Dc, Dq, Dp. reflexivity.
  - inversion H; subst r wq. left. split; [reflexivity | congruence].
Qed.

(** [X10] Whenever [_ENC28J60_reset] returns, it returns 1 with the handle
    exactly as it was, or 0 with the handle changed in one field only, the
    recorded bank, now the address bank.  In particular it never changes
    the packet counters. *)
Theorem reset_outcomes fuel w r w2 :
  _ENC28J60_reset fuel w = Some (r, w2) ->
  ((r = 1 /\ dev w2 = dev w) \/
   (r = 0 /\ dev w2 = set_bank MAADRX_BANK (dev w))) /\
  receivedPackets (dev w2) = receivedPackets (dev w) /\
  sentPackets (dev w2) = sentPackets (dev w) /\
  macAddress (dev w2) = macAddress (dev w).
Proof.
  intros H. destruct (reset_cases _ _ _ _ H) as [[-> D]|[-> D]];
    (split; [auto|]); rewrite D; repeat split; reflexivity.
Qed.

Lemma failed_resets_dev wa wb : failed_resets wa wb -> dev wb = dev wa.
Proof.
  induction 1 as [w | fuel w r w1 w2 Hr Hnz Hf IH]; [reflexivity|].
  destruct (reset_cases _ _ _ _ Hr) as [[_ D]|[-> _]]; [|contradiction].
  congruence.
Qed.

(** [X11] Whenever [ENC28J60_setup] returns, it returns [HAL_OK] with both
    packet counters at 0, the address bank recorded (the bank the last,
    successful reset left), the watchdog timer as [periodicTimer_setup]
    made it for 30000 ms, and the bus parameters and the MAC address as the
    caller set them. *)
Theorem setup_postcondition fuel w r wc :
  ENC28J60_setup fuel w = Some (r, wc) ->
  r = HAL_OK /\
  receivedPackets (dev wc) = 0 /\
  sentPackets (dev wc) = 0 /\
  bank (dev wc) = MAADRX_BANK /\
  watchDogTimer (dev wc)
  = fst (periodicTimer_setup (watchDogTimer (dev w)) 30000 (hw w)) /\
  macAddress (dev wc) = macAddress (dev w) /\
  (spi (dev wc), csPort (dev wc), csPin (dev wc),
   resetPort (dev wc), resetPin (dev wc))
  = (spi (dev w), csPort (dev w), csPin (dev w),
     resetPort (dev w), resetPin (dev w)).
Proof.
  intros H. unfold ENC28J60_setup in H. unfold bind at 1 in H.
  destruct (setup_fields w) as [[[] wa]|] eqn:Hi; [|discriminate H].
  unfold bind at 1 in H.
  match type of H with
  | match ?W with _ => _ end = _ => destruct W as [[o w2]|] eqn:Hw
  end; [|discriminate H].
  inversion H; subst r w2.
  destruct (setup_loop_inv _ _ _ _ _ Hw) as (wb & Hf & Hok).
  apply failed_resets_dev in Hf.
  destruct (reset_cases _ _ _ _ Hok) as [[Hx _]|[_ D]]; [discriminate Hx|].
  assert (Da : dev wa =
    set_watchDogTimer
      (fst (periodicTimer_setup (watchDogTimer (dev w)) 30000 (hw w)))
      (set_sentPackets 0 (set_receivedPackets 0 (set_bank ERXTX_BANK (dev w))))).
  { unfold setup_fields, bind, modify, do_periodicTimer_setup in Hi.
    cbn [dev hw log watchDogTimer set_sentPackets set_receivedPackets
         set_bank] in Hi.
    change (30 * 1000) with 30000 in Hi.
    destruct (periodicTimer_setup _ _ _) as [t h]. inversion Hi; subst wa.
    reflexivity. }
  rewrite D, Hf, Da. repeat split; reflexivity.
Qed.

(** ** Packet I/O layer: send, continued *)

(** The tick [send_load] reads for its deadline is a [uint32_t] and is the
    last thing it logs. *)
Lemma send_load_tick data datalen w :
  exists t0 w1 evs pre,
    send_load data datalen w = Some (u32 (t0 + 5000), w1) /\
    0 <= t0 < 4294967296 /\
    log w1 = log w ++ evs /\ acts evs = pre ++ [Clock t0] /\
    dev w1 = set_bank ERXTX_BANK (dev w).
Proof.
  destruct (setRegBank_ran ERXTX_BANK w) as (e & w1 & R1 & D1 & _).
  destruct (writeReg16_ran ETXSTL TX_BUF_START w1) as (w2 & R2 & D2);
    [unfold ETXSTL; lia|].
  destruct (writeReg16_ran EWRPTL TX_BUF_START w2) as (w3 & R3 & D3);
    [unfold EWRPTL; lia|].
  destruct (writeData_ran [u8 0x00] 1 w3) as (w4 & R4 & D4).
  destruct (writeData_ran data datalen w4) as (w5 & R5 & D5).
  destruct (writeReg16_ran ETXNDL (u16 (TX_BUF_START + datalen)) w5)
    as (w6 & R6 & D6); [unfold ETXNDL; lia|].
  destruct (clearRegBitField_eth_ran EIR EIR_TXIF w6) as (w7 & R7 & D7);
    [unfold EIR; lia | apply isMacMiiReg_high; unfold EIE, EIR; lia |].
  destruct (setRegBitField_eth_ran ECON1 ECON1_TXRTS w7) as (w8 & R8 & D8);
    [unfold ECON1; lia | apply isMacMiiReg_high; unfold EIE, ECON1; lia |].
  destruct (getTick_ran w8) as (t0 & w9 & R9 & D9 & T9).
  eassert (R : Ran (send_load data datalen) w (u32 (t0 + 5000)) w9 _).
  { unfold send_load, _ENC28J60_writeDataByte.
    ran_step R1. ran_step R2. ran_step R3. ran_step R4. ran_step R5.
    cbv zeta.
    ran_step R6. ran_step R7. ran_step R8. ran_step R9. apply Ran_ret. }
  destruct (Ran_acts _ _ _ _ _ R) as (E & evs & L & A).
  exists t0, w9, evs. eexists.
  split; [exact E|]. split; [exact T9|]. split; [exact L|]. split.
  - rewrite A. rewrite !app_assoc, app_nil_r. reflexivity.
  - rewrite D9, D8, D7, D6, D5, D4, D3, D2, D1. reflexivity.
Qed.

(** [X12] [ENC28J60_send] has two outcomes and no other.  Whenever it
    returns, either the poll of the transmit-request bit ran past the
    deadline, the result is 0 and the handle differs from the one passed in
    only by recording the base bank; or a poll read the bit clear, the
    result is [datalen], and in addition the sent-packet counter went up by
    one.  The received-packet counter is never touched. *)
Theorem send_outcomes fuel data datalen w r w' :
  ENC28J60_send fuel data datalen w = Some (r, w') ->
  exists timeoutTime w1,
    send_load data datalen w = Some (timeoutTime, w1) /\
    ((r = 0 /\
      polls ECON1 txrts_clear timeoutTime w1 Expired w' /\
      dev w' = set_bank ERXTX_BANK (dev w)) \/
     (r = datalen /\
      (exists w2,
         polls ECON1 txrts_clear timeoutTime w1 Satisfied w2 /\
         hw w' = hw w2 /\ log w' = log w2) /\
      dev w' = set_sentPackets (s32 (sentPackets (dev w) + 1))
                 (set_bank ERXTX_BANK (dev w)))) /\
    receivedPackets (dev w') = receivedPackets (dev w).
Proof.
  intros H.
  destruct (send_load_tick data datalen w)
    as (t0 & w1 & evs & pre & El & _ & _ & _ & D).
  exists (u32 (t0 + 5000)), w1. split; [exact El|].
  unfold ENC28J60_send in H. rewrite (bind_some _ _ _ _ _ El) in H.
  unfold bind at 1 in H.
  destruct (wait_txrts fuel (u32 (t0 + 5000)) w1) as [[o wq]|] eqn:Hw;
    [|discriminate H].
  apply (polls_of_while ECON1 txrts_clear _ 0 _ txrts_busy) in Hw.
  destruct Hw as [[-> Hq]|[-> Hq]];
    destruct (polls_log ECON1 txrts_clear _ ltac:(unfold ECON1; lia) _ _ _ Hq)
      as (Dq & _).
  - unfold bind, modify, ret in H. inversion H; subst r w'. cbn [dev hw log].
    rewrite Dq, D. split; [|reflexivity]. right.
    split; [reflexivity|]. split; [|reflexivity].
    exists wq. repeat split. exact Hq.
  - inversion H; subst r wq. rewrite Dq, D. split; [|reflexivity]. left.
    repeat split. exact Hq.
Qed.

(** [X13] The deadline is computed in [uint32_t]: when the tick read at
    the start of the wait is within 5000 ms of 2^32 the deadline wraps to a
    small number.  If the first poll then finds the transmit request still
    set and the next tick reading is above that wrapped deadline (as every
    reading is until the tick itself wraps), [ENC28J60_send] returns 0 after
    this single poll, although less than 5000 ms have passed. *)
Theorem send_deadline_wraps data datalen w timeoutTime w1 v w2 t1 w3 :
  send_load data datalen w = Some (timeoutTime, w1) ->
  timeoutTime < 5000 ->
  _ENC28J60_readReg ECON1 w1 = Some (v, w2) ->
  txrts_clear v = false ->
  do_HAL_GetTick w2 = Some (t1, w3) ->
  timeoutTime < t1 ->
  exists t0 evs pre,
    log w1 = log w ++ evs /\ acts evs = pre ++ [Clock t0] /\
    4294962296 <= t0 < 4294967296 /\
    timeoutTime = t0 + 5000 - 4294967296 /\
    (forall fuel, (1 <= fuel)%nat ->
       ENC28J60_send fuel data datalen w = Some (0, w3)) /\
    (t0 <= t1 -> 0 <= t1 - t0 < 5000).
Proof.
  intros Hl Hsmall Hr Hv Ht Hgt.
  destruct (send_load_tick data datalen w)
    as (t0 & w1' & evs & pre & El & T0 & L & A & D).
  rewrite El in Hl. injection Hl as Htm Hw1. subst w1' timeoutTime.
  assert (Hwrap : 4294967296 <= t0 + 5000).
  { destruct (Z_lt_le_dec (t0 + 5000) 4294967296) as [Hlt|Hge]; [|exact Hge].
    unfold u32 in Hsmall. rewrite Z.mod_small in Hsmall by lia. lia. }
  assert (Htmo : u32 (t0 + 5000) = t0 + 5000 - 4294967296).
  { unfold u32. symmetry. apply Z.mod_unique with (q := 1); lia. }
  destruct (getTick_ran w2) as (t1' & w3' & R & _ & T1).
  rewrite (Ran_eq _ _ _ _ _ R) in Ht. injection Ht as Ht1 Hw3.
  subst t1' w3'.
  exists t0, evs, pre. split; [exact L|]. split; [exact A|].
  split; [lia|]. split; [exact Htmo|]. split; [|lia].
  intros fuel Hf. destruct fuel as [|fuel]; [lia|].
  unfold ENC28J60_send. rewrite (bind_some _ _ _ _ _ El).
  unfold bind at 1, wait_txrts. cbn [while_].
  unfold bind at 1 2. rewrite Hr. unfold ret at 1.
  rewrite txrts_busy, Hv. cbn [negb]. unfold bind at 1 2.
  rewrite (Ran_eq _ _ _ _ _ R).
  destruct (Z.gtb_spec t1 (u32 (t0 + 5000))); [reflexivity | lia].
Qed.

(** ** Watchdog, continued *)

(** [X14] A tick at which the watchdog timer has not elapsed does
    nothing but consult the timer: it needs no iteration budget, logs
    nothing (no reset, no bus traffic) and leaves both packet counters as
    they were. *)
Theorem tick_before_interval w w1 :
  do_periodicTimer_hasElapsed w = Some (false, w1) ->
  forall fuel,
    ENC28J60_tick fuel w = Some (tt, w1) /\
    log w1 = log w /\
    receivedPackets (dev w1) = receivedPackets (dev w) /\
    sentPackets (dev w1) = sentPackets (dev w).
Proof.
  intros He fuel. destruct (hasElapsed_inv _ _ _ He) as (L & Hr & Hs).
  split; [|repeat split; assumption].
  unfold ENC28J60_tick. rewrite (bind_some _ _ _ _ _ He). reflexivity.
Qed.

(** [X15] Traffic seen by the watchdog: starting with both counters at 0
    (as setup and every elapsed tick leave them), one call of
    [ENC28J60_receive] that returns a positive length makes the next elapsed
    tick pass without a reset and without any bus traffic; the counters are
    0 again afterwards. *)
Theorem receive_then_tick buffer bufsize w r b w1 w2 :
  receivedPackets (dev w) = 0 ->
  sentPackets (dev w) = 0 ->
  ENC28J60_receive buffer bufsize w = Some ((r, b), w1) ->
  0 < r ->
  do_periodicTimer_hasElapsed w1 = Some (true, w2) ->
  receivedPackets (dev w1) = 1 /\
  forall fuel,
  exists w3,
    ENC28J60_tick fuel w1 = Some (tt, w3) /\
    log w3 = log w1 /\
    receivedPackets (dev w3) = 0 /\ sentPackets (dev w3) = 0.
Proof.
  intros Hr0 Hs0 Hrecv Hpos He.
  assert (Hc : receivedPackets (dev w1) = 1 /\ sentPackets (dev w1) = 0).
  { destruct (receive_ran buffer bufsize w)
      as (e & n & wz & R0 & D0 & E0 & N0 & Hz & Hnz).
    destruct (Z.eq_dec n 0) as [Hn|Hn].
    - rewrite (Hz Hn) in Hrecv. inversion Hrecv; subst. lia.
    - destruct (Hnz Hn)
        as (e2 & nxt0 & nxt1 & len0 & len1 & st0 & st1 & payload & pad & w' & H).
      cbv zeta in H. destruct H as (R & _ & _ & _ & _ & _ & _ & _ & D).
      rewrite (Ran_eq _ _ _ _ _ R) in Hrecv.
      destruct (bufsize >=? Z.shiftl len1 8 + len0);
        inversion Hrecv; subst; [|lia].
      rewrite D. cbn [receivedPackets sentPackets set_receivedPackets set_bank].
      rewrite Hr0, Hs0. split; reflexivity. }
  destruct Hc as [Hr1 Hs1]. split; [exact Hr1|]. intros fuel.
  destruct (hasElapsed_inv _ _ _ He) as (Hl & _ & _).
  eexists. split.
  - rewrite (tick_elapsed _ _ _ He). rewrite Hr1, Hs1.
    change (1 <=? 0) with false. reflexivity.
  - cbn [log dev]. repeat split. exact Hl.
Qed.

(** [X16] [_ENC28J60_readReg] sends the register address as the command
    byte and clocks zeros after it: one for a register outside the MAC/MII
    class of the recorded bank, and two for a register inside it, whose
    first answer (the dummy byte) is thrown away.  The registers from EIE
    up are read without a dummy byte whatever bank is recorded.  The result
    is the last byte received, and the handle is unchanged. *)
Theorem readReg_dummy_byte reg w :
  0 <= reg < 32 ->
  exists v w' evs x d,
    _ENC28J60_readReg reg w = Some (v, w') /\
    log w' = log w ++ evs /\ dev w' = dev w /\
    is_byte v /\ acts evs = [RCR reg v] /\
    ((_ENC28J60_isMacMiiReg (dev w) reg = 0 /\
      evs = txn [(reg, x); (0, v)]) \/
     (_ENC28J60_isMacMiiReg (dev w) reg <> 0 /\
      evs = txn [(reg, x); (0, d); (0, v)])) /\
    (EIE <= reg -> evs = txn [(reg, x); (0, v)]).
Proof.
  intros Hr.
  destruct (readReg_events reg w) as (x & d & v & w' & E & D & V & L).
  assert (Hop : u8 (Z.lor 0x00 (Z.land reg 0x1f)) = reg).
  { rewrite read_opcode. change 0x1f with (Z.ones 5).
    rewrite Z.land_ones by lia. apply Z.mod_small.
    change (2 ^ 5) with 32. lia. }
  rewrite Hop in L.
  assert (A2 : acts (txn [(reg, x); (0, v)]) = [RCR reg v]).
  { rewrite <- (app_nil_r (txn _)), acts_txn.
    rewrite <- Hop at 1. rewrite decode_rcr by exact Hr. reflexivity. }
  assert (A3 : acts (txn [(reg, x); (0, d); (0, v)]) = [RCR reg v]).
  { rewrite <- (app_nil_r (txn _)), acts_txn.
    rewrite <- Hop at 1. rewrite decode_rcr_dummy by exact Hr. reflexivity. }
  destruct (Z.eqb_spec (_ENC28J60_isMacMiiReg (dev w) reg) 0) as [Hm|Hm];
    cbn [app] in L.
  - exists v, w', (txn [(reg, x); (0, v)]), x, d.
    repeat (split; [assumption|]).
    split; [left; split; [exact Hm | reflexivity] | reflexivity].
  - exists v, w', (txn [(reg, x); (0, d); (0, v)]), x, d.
    repeat (split; [assumption|]).
    split; [right; split; [exact Hm | reflexivity]|].
    intros Hh. exfalso. apply Hm. apply isMacMiiReg_high. exact Hh.
Qed.

(** [X17] [ENC28J60_receive] only reads registers and buffer memory,
    writes ECON1 and the two receive-read-pointer registers, and sets the
    packet-decrement bit: it never writes buffer memory or any other
    register, never clears a bit field, never resets the chip, and never
    waits or reads the clock. *)
Theorem receive_footprint buffer bufsize w :
  exists res w' evs,
    ENC28J60_receive buffer bufsize w = Some (res, w') /\
    log w' = log w ++ evs /\
    Forall receive_act (acts evs).
Proof.
  assert (Hs : forall bytes,
            Forall receive_act (map (fun b => RBM [b]) bytes)).
  { intros bytes. apply Forall_forall. intros a Ha.
    apply in_map_iff in Ha. destruct Ha as (b & <- & _). exact I. }
  destruct (receive_ran buffer bufsize w)
    as (e & n & w1 & R0 & D0 & E0 & N0 & Hz & Hnz).
  destruct (Z.eq_dec n 0) as [Hn|Hn].
  - destruct (Ran_acts _ _ _ _ _ R0) as (_ & evs & L & A).
    eexists. exists w1, evs. split; [apply Hz; exact Hn|].
    split; [exact L|]. rewrite A.
    repeat constructor.
  - destruct (Hnz Hn)
      as (e2 & nxt0 & nxt1 & len0 & len1 & st0 & st1 & payload & pad & w2 & H2).
    cbv zeta in H2. destruct H2 as (R & _).
    destruct (Ran_acts _ _ _ _ _ R) as (E & evs & L & A).
    eexists. exists w2, evs. split; [exact E|]. split; [exact L|].
    rewrite A.
    apply Forall_app. split; [repeat constructor; tauto|].
    apply Forall_app. split.
    + destruct (bufsize >=? _); [repeat constructor | apply Hs].
    + apply Forall_app. split; [apply Hs | repeat constructor; tauto].
Qed.

(** ** The chip-select discipline *)

Lemma cs_ok_app e1 : forall b e2,
  cs_ok b e1 = true -> cs_ok b (e1 ++ e2) = cs_ok false e2.
Proof.
  induction e1 as [|ev e1 IH]; intros b e2 H.
  - destruct b; [discriminate H | reflexivity].
  - destruct ev; cbn [cs_ok app] in *;
      apply andb_true_iff in H; destruct H as [Hb H];
      rewrite Hb; cbn [andb]; apply IH; exact H.
Qed.

Lemma acts_from_app e1 : forall cur e2,
  cs_ok (match cur with Some _ => true | None => false end) e1 = true ->
  acts_from cur (e1 ++ e2) = acts_from cur e1 ++ acts_from None e2.
Proof.
  induction e1 as [|ev e1 IH]; intros cur e2 H.
  - destruct cur; [discriminate H | reflexivity].
  - destruct ev; cbn [cs_ok app acts_from] in *;
      apply andb_true_iff in H; destruct H as [Hb H];
      destruct cur as [f|]; try discriminate Hb; cbn [option_map app];
      first [ apply (IH (Some _)); exact H
            | rewrite (IH None) by exact H; reflexivity ].
Qed.

Lemma cs_ok_trace evs tr : Trace evs tr -> cs_ok false evs = true.
Proof.
  induction 1 as [|f evs tr _ IH| | | |]; try (cbn [cs_ok]; assumption).
  - reflexivity.
  - unfold txn. cbn [app cs_ok negb andb]. rewrite <- app_assoc.
    induction f as [|[tx rx] f IHf]; cbn [map app cs_ok andb]; assumption.
Qed.

Lemma clean_of_trace w w' evs tr :
  log w' = log w ++ evs -> Trace evs tr -> Forall wellformed tr ->
  clean w w'.
Proof.
  intros L T F. exists evs. split; [exact L|].
  split; [eapply cs_ok_trace; exact T|].
  rewrite (Trace_acts _ _ T). exact F.
Qed.

Lemma clean_of_ran {A} (m : M A) w r w' tr :
  Ran m w r w' tr -> Forall wellformed tr -> clean w w'.
Proof.
  intros [_ (evs & L & T)] F. eapply clean_of_trace; eassumption.
Qed.

Lemma clean_same_log w w' : log w' = log w -> clean w w'.
Proof.
  intros L. exists []. split; [rewrite app_nil_r; exact L|].
  split; [reflexivity | constructor].
Qed.

Lemma clean_trans w1 w2 w3 : clean w1 w2 -> clean w2 w3 -> clean w1 w3.
Proof.
  intros (e1 & L1 & C1 & F1) (e2 & L2 & C2 & F2). exists (e1 ++ e2).
  split; [rewrite L2, L1, app_assoc; reflexivity|]. split.
  - rewrite (cs_ok_app _ _ _ C1). exact C2.
  - unfold acts in *. rewrite (acts_from_app e1 None e2 C1).
    apply Forall_app. split; assumption.
Qed.

Lemma poll_acts_wellformed reg tr :
  Forall (poll_act reg) tr -> Forall wellformed tr.
Proof.
  intros H. eapply Forall_impl; [|exact H].
  intros a [(v & ->)|(t & ->)]; exact I.
Qed.

Lemma single_reads_wellformed bytes :
  Forall wellformed (map (fun b => RBM [b]) bytes).
Proof.
  apply Forall_forall. intros a Ha. apply in_map_iff in Ha.
  destruct Ha as (b & <- & _). exact I.
Qed.

Lemma receive_clean buffer bufsize w res w' :
  ENC28J60_receive buffer bufsize w = Some (res, w') -> clean w w'.
Proof.
  intros H.
  destruct (receive_ran buffer bufsize w)
    as (e & n & w1 & R0 & D0 & E0 & N0 & Hz & Hnz).
  destruct (Z.eq_dec n 0) as [Hn|Hn].
  - rewrite (Hz Hn) in H. inversion H; subst.
    eapply clean_of_ran; [exact R0|]. repeat constructor.
  - destruct (Hnz Hn)
      as (e2 & nxt0 & nxt1 & len0 & len1 & st0 & st1 & payload & pad & w2 & H2).
    cbv zeta in H2. destruct H2 as (R & _).
    rewrite (Ran_eq _ _ _ _ _ R) in H. inversion H; subst.
    eapply clean_of_ran; [exact R|].
    apply Forall_app. split; [repeat constructor|].
    apply Forall_app. split.
    + destruct (bufsize >=? _);
        [repeat constructor | apply single_reads_wellformed].
    + apply Forall_app. split;
        [apply single_reads_wellformed | repeat constructor].
Qed.

Lemma polls_clean reg ready timeoutTime w o w' :
  0 <= reg < 32 -> polls reg ready timeoutTime w o w' -> clean w w'.
Proof.
  intros Hr Hp.
  destruct (polls_log reg ready _ Hr _ _ _ Hp) as (_ & evs & tr & L & T & F).
  eapply clean_of_trace; [exact L | exact T |].
  eapply poll_acts_wellformed; exact F.
Qed.

Lemma send_clean fuel data datalen w r w' :
  ENC28J60_send fuel data datalen w = Some (r, w') -> clean w w'.
Proof.
  intros H.
  destruct (send_load_ran data datalen w) as (e & t0 & w1 & R & _).
  cbv zeta in R.
  assert (C1 : clean w w1)
    by (eapply clean_of_ran; [exact R | repeat constructor]).
  unfold ENC28J60_send in H.
  rewrite (bind_some _ _ _ _ _ (Ran_eq _ _ _ _ _ R)) in H.
  unfold bind at 1 in H.
  destruct (wait_txrts fuel (u32 (t0 + 5000)) w1) as [[o wq]|] eqn:Hw;
    [|discriminate H].
  apply (polls_of_while ECON1 txrts_clear _ 0 _ txrts_busy) in Hw.
  assert (C2 : clean w1 wq).
  { destruct Hw as [[_ Hq]|[_ Hq]];
      (eapply polls_clean; [|exact Hq]); unfold ECON1; lia. }
  destruct Hw as [[-> _]|[-> _]].
  - unfold bind, modify, ret in H. inversion H; subst.
    eapply clean_trans; [exact C1|]. eapply clean_trans; [exact C2|].
    apply clean_same_log. reflexivity.
  - inversion H; subst. eapply clean_trans; eassumption.
Qed.

Lemma reset_clean fuel w r w2 :
  _ENC28J60_reset fuel w = Some (r, w2) -> clean w w2.
Proof.
  intros H.
  destruct (reset_pulse_ran w) as (t0 & w1 & Rp & _).
  assert (C1 : clean w w1)
    by (eapply clean_of_ran; [exact Rp | repeat constructor]).
  unfold _ENC28J60_reset in H.
  rewrite (bind_some _ _ _ _ _ (Ran_eq _ _ _ _ _ Rp)) in H.
  unfold bind at 1 in H.
  destruct (wait_ost fuel (u32 (t0 + 5000)) w1) as [[o wq]|] eqn:Hw;
    [|discriminate H].
  apply (polls_of_while ESTAT clkrdy _ 1 _ clkrdy_busy) in Hw.
  assert (C2 : clean w1 wq).
  { destruct Hw as [[_ Hq]|[_ Hq]];
      (eapply polls_clean; [|exact Hq]); unfold ESTAT; lia. }
  destruct Hw as [[-> _]|[-> _]].
  - destruct (reset_configure_trace wq)
      as (e1 & e2 & e3 & e4 & m1 & m3 & w3 & Hc).
    cbv zeta in Hc. destruct Hc as (Rc & _).
    rewrite (Ran_eq _ _ _ _ _ Rc) in H. inversion H; subst.
    eapply clean_trans; [exact C1|]. eapply clean_trans; [exact C2|].
    eapply clean_of_ran; [exact Rc | repeat constructor].
  - inversion H; subst. eapply clean_trans; eassumption.
Qed.

Lemma tick_clean fuel w w' :
  ENC28J60_tick fuel w = Some (tt, w') -> clean w w'.
Proof.
  intros H.
  destruct (do_periodicTimer_hasElapsed w) as [[b w1]|] eqn:He;
    [|unfold ENC28J60_tick, bind in H; rewrite He in H; discriminate H].
  destruct (hasElapsed_inv _ _ _ He) as (L & _ & _).
  destruct b.
  - rewrite (tick_elapsed _ _ _ He) in H.
    destruct (receivedPackets (dev w) <=? sentPackets (dev w)).
    + destruct (_ENC28J60_reset fuel w1) as [[r w2]|] eqn:Hr;
        [|discriminate H].
      inversion H; subst.
      eapply clean_trans; [apply clean_same_log; exact L|].
      eapply clean_trans; [eapply reset_clean; exact Hr|].
      apply clean_same_log. reflexivity.
    + unfold ret in H. inversion H; subst. apply clean_same_log. exact L.
  - unfold ENC28J60_tick in H. rewrite (bind_some _ _ _ _ _ He) in H.
    unfold ret in H. inversion H; subst. apply clean_same_log. exact L.
Qed.

Lemma failed_resets_clean wa wb : failed_resets wa wb -> clean wa wb.
Proof.
  induction 1 as [w | fuel w r w1 w2 Hr Hnz Hf IH].
  - apply clean_same_log. reflexivity.
  - eapply clean_trans; [eapply reset_clean; exact Hr | exact IH].
Qed.

Lemma setup_clean fuel w r wc :
  ENC28J60_setup fuel w = Some (r, wc) -> clean w wc.
Proof.
  intros H. unfold ENC28J60_setup in H. unfold bind at 1 in H.
  destruct (setup_fields w) as [[[] wa]|] eqn:Hi; [|discriminate H].
  unfold bind at 1 in H.
  match type of H with
  | match ?W with _ => _ end = _ => destruct W as [[o w2]|] eqn:Hw
  end; [|discriminate H].
  inversion H; subst r w2.
  destruct (setup_loop_inv _ _ _ _ _ Hw) as (wb & Hf & Hok).
  assert (La : log wa = log w).
  { unfold setup_fields, bind, modify, do_periodicTimer_setup in Hi.
    cbn [dev hw log] in Hi.
    destruct (periodicTimer_setup _ _ _) as [t h]. inversion Hi; subst wa.
    reflexivity. }
  eapply clean_trans; [apply clean_same_log; exact La|].
  eapply clean_trans; [eapply failed_resets_clean; exact Hf|].
  eapply reset_clean; exact Hok.
Qed.

(** [X18] Whatever the four entry points return, the part of the log they
    added keeps the chip-select discipline (bytes are exchanged only while
    the chip is selected, selection and release alternate, the reset pulse,
    the delays and the tick readings happen while it is released, and the
    chip is released at the end) and every transaction in it is one of the
    chip's SPI commands. *)
Theorem entry_points_keep_bus_discipline :
  (forall buffer bufsize w res w',
     ENC28J60_receive buffer bufsize w = Some (res, w') -> clean w w') /\
  (forall fuel data datalen w r w',
     ENC28J60_send fuel data datalen w = Some (r, w') -> clean w w') /\
  (forall fuel w w',
     ENC28J60_tick fuel w = Some (tt, w') -> clean w w') /\
  (forall fuel w r w',
     ENC28J60_setup fuel w = Some (r, w') -> clean w w').
Proof.
  split; [|split; [|split]].
  - intros buffer bufsize w res w'. apply receive_clean.
  - intros fuel data datalen w r w'. apply send_clean.
  - intros fuel w w'. apply tick_clean.
  - intros fuel w r w'. apply setup_clean.
Qed.

(** ** The deadline at the top of the tick's range *)

(** No tick reading is above 2^32 - 1: a poll with that deadline can only
    end by reading the value it waits for. *)
Lemma polls_max_deadline reg ready w o w2 :
  polls reg ready 4294967295 w o w2 -> o = Satisfied.
Proof.
  induction 1 as [w v w1 Hr Hv | w v w1 t w2 Hr Hv Ht Hgt
                 | w v w1 t w2 o w3 Hr Hv Ht Hle Hp IH].
  - reflexivity.
  - exfalso. destruct (getTick_ran w1) as (t' & w2' & [E _] & _ & Hb).
    rewrite E in Ht. inversion Ht; subst t' w2'. lia.
  - exact IH.
Qed.

Lemma send_mono fuel fuel' data datalen w x :
  ENC28J60_send fuel data datalen w = Some x -> (fuel <= fuel')%nat ->
  ENC28J60_send fuel' data datalen w = Some x.
Proof.
  unfold ENC28J60_send, bind, wait_txrts. intros H Hle.
  destruct (send_load data datalen w) as [[tmo w1]|]; [|discriminate H].
  match type of H with
  | match ?W with _ => _ end = _ => destruct W as [[o w2]|] eqn:Hw
  end; [|discriminate H].
  rewrite (while_mono _ _ _ _ _ Hw _ Hle). exact H.
Qed.

Lemma send_max_deadline data datalen w w1 :
  send_load data datalen w = Some (4294967295, w1) ->
  forall fuel r w',
    ENC28J60_send fuel data datalen w = Some (r, w') ->
    r = datalen /\ sentPackets (dev w') = s32 (sentPackets (dev w) + 1).
Proof.
  intros Hl fuel r w' H.
  destruct (send_load_ran data datalen w) as (e & t0 & w1' & R & D).
  cbv zeta in R. destruct R as [El _].
  rewrite El in Hl. injection Hl as Htm Hw1. subst w1'.
  unfold ENC28J60_send in H. rewrite (bind_some _ _ _ _ _ El) in H.
  rewrite Htm in H. unfold bind at 1 in H.
  destruct (wait_txrts fuel 4294967295 w1) as [[o wq]|] eqn:Hw;
    [|discriminate H].
  apply (polls_of_while ECON1 txrts_clear _ 0 _ txrts_busy) in Hw.
  destruct Hw as [[-> Hq]|[-> Hq]].
  - destruct (polls_log ECON1 txrts_clear _ ltac:(unfold ECON1; lia) _ _ _ Hq)
      as (Dq & _).
    unfold bind, modify, ret in H. inversion H; subst r w'. cbn [dev hw log].
    rewrite Dq, D. split; reflexivity.
  - apply polls_max_deadline in Hq. discriminate Hq.
Qed.

Lemma reset_max_deadline w w1 :
  reset_pulse w = Some (4294967295, w1) ->
  forall fuel r w',
    _ENC28J60_reset fuel w = Some (r, w') ->
    r = 0 /\ dev w' = set_bank MAADRX_BANK (dev w).
Proof.
  intros Hp fuel r w' H.
  destruct (reset_cases _ _ _ _ H) as [[-> D]|[-> D]];
    [|split; [reflexivity | exact D]].
  exfalso. unfold _ENC28J60_reset in H.
  rewrite (bind_some _ _ _ _ _ Hp) in H. unfold bind at 1 in H.
  destruct (wait_ost fuel 4294967295 w1) as [[o wq]|] eqn:Hw;
    [|discriminate H].
  apply (polls_of_while ESTAT clkrdy _ 1 _ clkrdy_busy) in Hw.
  destruct Hw as [[-> Hq]|[-> Hq]].
  - destruct (reset_configure_ran wq) as (tc & w3 & [Ec _] & Dc).
    rewrite Ec in H. discriminate H.
  - apply polls_max_deadline in Hq. discriminate Hq.
Qed.

End Properties.

(** * The driver on the scripted platform *)

Ltac run := vm_compute; reflexivity.

(** A three-byte frame received into a four-byte buffer: the odd length
    costs one more buffer read, and the read pointer lands on 0x000f. *)
Example receive_frame_example :
  option_map
    (fun rw => (fst rw, acts (log (snd rw)), receivedPackets (dev (snd rw))))
    (ENC28J60_receive [9; 9; 9; 9] 4 (world 0 0 0 frame_script))
  = Some ((3, [0xaa; 0xbb; 0xcc; 9]),
          [RCR ECON1 0; WCR ECON1 1; RCR EPKTCNT 1; RCR ECON1 0; WCR ECON1 0;
           RBM [0x10]; RBM [0x00]; RBM [3]; RBM [0]; RBM [0x80]; RBM [0];
           RBM [0xaa; 0xbb; 0xcc]; RBM [0x77];
           WCR ERXRDPTL 0x0f; WCR ERXRDPTH 0x00; BFS ECON2 ECON2_PKTDEC],
          1).
Proof. run. Qed.

(** The same frame offered a two-byte buffer: dropped byte by byte, the
    read pointer wraps to 0x0fff, the counter stays. *)
Example receive_flush_example :
  option_map
    (fun rw => (fst rw, acts (log (snd rw)), receivedPackets (dev (snd rw))))
    (ENC28J60_receive [9; 9] 2 (world 0 0 0 flushed_frame_script))
  = Some ((0, [9; 9]),
          [RCR ECON1 0; WCR ECON1 1; RCR EPKTCNT 1; RCR ECON1 0; WCR ECON1 0;
           RBM [0x00]; RBM [0x00]; RBM [3]; RBM [0]; RBM [0x80]; RBM [0];
           RBM [0xaa]; RBM [0xbb]; RBM [0xcc]; RBM [0x77];
           WCR ERXRDPTL 0xff; WCR ERXRDPTH 0x0f; BFS ECON2 ECON2_PKTDEC],
          0).
Proof. run. Qed.

Example readRev_examples :
  option_map fst (_ENC28J60_readRev
    (world 0 0 0 {| miso := [0; 0; 0; 0; 0; 2]; ticks := []; alarms := [] |}))
    = Some 1 /\
  option_map fst (_ENC28J60_readRev
    (world 0 0 0 {| miso := [0; 0; 0; 0; 0; 6]; ticks := []; alarms := [] |}))
    = Some 7 /\
  option_map fst (_ENC28J60_readRev
    (world 0 0 0 {| miso := [0; 0; 0; 0; 0; 5]; ticks := []; alarms := [] |}))
    = Some 5.
Proof. repeat split; run. Qed.

(** [C1], at work: with 5 packets sent and none received the tick resets
    the chip; with 6 received it does not; the counters end at 0 both
    times. *)
Lemma tick_watchdog_witness :
  (exists w' evs t0 tr,
     ENC28J60_tick 1 (world 0 0 5 alarm_script) = Some (tt, w') /\
     log w' = evs /\
     acts evs =
       [ResetAssert; Delay 2; ResetDeassert; Delay 2; Delay 2; Clock t0]
       ++ tr /\
     receivedPackets (dev w') = 0 /\ sentPackets (dev w') = 0) /\
  (exists w',
     ENC28J60_tick 1 (world 0 6 5 alarm_script) = Some (tt, w') /\
     log w' = [] /\
     receivedPackets (dev w') = 0 /\ sentPackets (dev w') = 0).
Proof.
  split.
  - eassert (He : do_periodicTimer_hasElapsed (world 0 0 5 alarm_script)
                  = Some (true, _)) by run.
    eassert (Hr : _ENC28J60_reset 1 _ = Some (_, _));
      [|destruct (tick_watchdog _ _ He) as (H & _ & _ & _);
        destruct (H ltac:(vm_compute; discriminate) 1%nat) as [_ H1];
        destruct (H1 _ _ Hr) as (w' & evs & t0 & tr & E & _ & L & A & Hr' & Hs)].
    + run.
    + exists w', evs, t0, tr. repeat split; assumption.
  - eassert (He : do_periodicTimer_hasElapsed (world 0 6 5 alarm_script)
                  = Some (true, _)) by run.
    destruct (tick_watchdog _ _ He) as (_ & _ & H & _).
    destruct (H ltac:(vm_compute; reflexivity) 1%nat)
      as (w' & E & L & _ & Hr & Hs).
    exists w'. repeat split; assumption.
Defined.

(** [C10], at work: nothing sent, nothing received, and the tick still
    resets the chip. *)
Lemma tick_idle_link_is_reset_witness :
  exists w' evs t0 tr,
    ENC28J60_tick 1 (world 0 0 0 alarm_script) = Some (tt, w') /\
    log w' = evs /\
    acts evs =
      [ResetAssert; Delay 2; ResetDeassert; Delay 2; Delay 2; Clock t0]
      ++ tr /\
    receivedPackets (dev w') = 0 /\ sentPackets (dev w') = 0.
Proof.
  eassert (He : do_periodicTimer_hasElapsed (world 0 0 0 alarm_script)
                = Some (true, _)) by run.
  eassert (Hr : _ENC28J60_reset 1 _ = Some (_, _));
    [|destruct (tick_idle_link_is_reset _ _ He eq_refl eq_refl) as [H _];
      destruct (H _ _ _ Hr)
        as (w' & evs & t0 & tr & E & _ & L & A & Hr' & Hs)].
  - run.
  - exists w', evs, t0, tr. repeat split; assumption.
Defined.

(** [X19], at work: a transmit request that stays set until the clock
    reads 6000 ms (deadline 5100) gives 0 and leaves the counter at 7; one
    that reads clear at the first poll gives the frame length and 8. *)
Lemma send_timeout_or_sent_witness :
  (exists w2,
     (exists n, forall fuel, (n <= fuel)%nat ->
        ENC28J60_send fuel [1; 2; 3] 3 (world 0 0 7 txrts_stuck_script)
        = Some (0, w2)) /\
     sentPackets (dev w2) = 7) /\
  (exists w',
     (exists n, forall fuel, (n <= fuel)%nat ->
        ENC28J60_send fuel [1; 2; 3] 3 (world 0 0 7 idle) = Some (3, w')) /\
     sentPackets (dev w') = 8).
Proof.
  split.
  - eassert (Hl : send_load [1; 2; 3] 3 (world 0 0 7 txrts_stuck_script)
                  = Some (_, _)) by run.
    eassert (Hp : polls ECON1 txrts_clear _ _ Expired _);
      [|destruct (send_timeout_or_sent _ _ _ _ _ Hl) as [H _];
        destruct (H _ Hp) as (Hn & Hs & _)].
    + eapply polls_again; [run | run | run | vm_compute; discriminate |].
      eapply polls_expired; [run | run | run | run].
    + eexists. split; [exact Hn | exact Hs].
  - eassert (Hl : send_load [1; 2; 3] 3 (world 0 0 7 idle)
                  = Some (_, _)) by run.
    eassert (Hp : polls ECON1 txrts_clear _ _ Satisfied _);
      [|destruct (send_timeout_or_sent _ _ _ _ _ Hl) as [_ H];
        destruct (H _ Hp) as (w' & Hn & _ & _ & Hs)].
    + eapply polls_ready; [run | run].
    + exists w'. split; [exact Hn|]. apply Hs. vm_compute.
      split; [discriminate | reflexivity].
Defined.

(** [X20], at work: the oscillator is not ready by 6000 ms (deadline 5100),
    so the first reset returns 1 with the handle untouched;
    [ENC28J60_setup] resets again, that reset returns 0, and setup returns
    [HAL_OK]. *)
Lemma reset_timeout_and_setup_retry_witness :
  (exists w2,
     (exists n, forall fuel, (n <= fuel)%nat ->
        _ENC28J60_reset fuel (world 3 7 9 osc_late_script) = Some (1, w2)) /\
     dev w2 = dev (world 3 7 9 osc_late_script)) /\
  (exists wc n, forall fuel, (n <= fuel)%nat ->
     ENC28J60_setup fuel (world 3 7 9 osc_late_script) = Some (HAL_OK, wc)) /\
  (exists wa wb wc,
     setup_fields (world 3 7 9 osc_late_script) = Some (tt, wa) /\
     failed_resets wa wb /\
     _ENC28J60_reset 2 wb = Some (0, wc)).
Proof.
  destruct (@reset_timeout_and_setup_retry Scripted) as (HA & HB & HC).
  split; [|split].
  - eassert (H1 : reset_pulse (world 3 7 9 osc_late_script) = Some (_, _))
      by run.
    eassert (Hp : polls ESTAT clkrdy _ _ Expired _);
      [|destruct (HA _ _ _ _ H1 Hp) as (Hn & Hd & _)].
    + eapply polls_again; [run | run | run | vm_compute; discriminate |].
      eapply polls_expired; [run | run | run | run].
    + eexists. split; [exact Hn | exact Hd].
  - eassert (Hi : setup_fields (world 3 7 9 osc_late_script) = Some (tt, _))
      by run.
    eassert (Hr1 : _ENC28J60_reset 2 _ = Some (1, _));
      [|eassert (Hok : _ENC28J60_reset 1 _ = Some (0, _));
        [|destruct (HB _ _ _ _ _ Hi
                      (failed_more _ _ _ _ _ Hr1 ltac:(discriminate)
                         (failed_none _)) Hok) as (n & Hn)]].
    + run.
    + run.
    + eexists. exists n. exact Hn.
  - eassert (Hs : ENC28J60_setup 2 (world 3 7 9 osc_late_script) = Some (_, _))
      by run.
    destruct (HC _ _ _ _ Hs) as (_ & wa & wb & Hi & Hf & Hok).
    exists wa, wb. eexists. repeat split; eassumption.
Defined.

(** [C5], as first stated, fails: in the address bank the predicate holds
    at more register addresses than any two station-address registers and
    MISTAT (it holds at 0x00, 0x01 and 0x02 already). *)
Lemma isMacMiiReg_not_two_address_registers :
  ~ (exists a b : Z, forall r, 0 <= r < 32 ->
       (_ENC28J60_isMacMiiReg (handle MAADRX_BANK 0 0) r = 1 <->
        (r = a \/ r = b \/ r = MISTAT))).
Proof.
  intros (a & b & H).
  assert (H0 := proj1 (H 0 ltac:(lia)) eq_refl).
  assert (H1 := proj1 (H 1 ltac:(lia)) eq_refl).
  assert (H2 := proj1 (H 2 ltac:(lia)) eq_refl).
  unfold MISTAT in *. lia.
Qed.

(** [C8], as first stated, fails: a call that finds the pending-packet
    counter at zero has written ECON1 on the chip and changed the recorded
    bank from the base bank to the packet-count bank. *)
Lemma receive_nothing_pending_selects_bank :
  exists w',
    ENC28J60_receive [7; 7] 2 (world ERXTX_BANK 3 4 idle)
    = Some ((0, [7; 7]), w') /\
    acts (log w') = [RCR ECON1 0; WCR ECON1 1; RCR EPKTCNT 0] /\
    bank (dev w') = EPKTCNT_BANK /\
    dev w' <> dev (world ERXTX_BANK 3 4 idle).
Proof.
  eexists. split; [run|]. split; [run|]. split; [run|].
  vm_compute. discriminate.
Qed.

(** * The further properties at work *)

(** [X2], at work: MACON1 in the MAC bank is read and written back with
    the mask or-ed in. *)
Lemma setRegBitField_dispatch_witness :
  exists w' evs,
    _ENC28J60_setRegBitField MACON1 0x0d (world MACONX_BANK 0 0 idle)
    = Some (tt, w') /\
    log w' = evs /\
    exists v, acts evs = [RCR MACON1 v; WCR MACON1 (Z.lor v 0x0d)].
Proof.
  destruct (@setRegBitField_dispatch Scripted MACON1 0x0d
              (world MACONX_BANK 0 0 idle))
    as (w' & evs & E & L & _ & [[Hc _]|[_ (v & _ & A)]]).
  - unfold MACON1. lia.
  - unfold is_byte. lia.
  - vm_compute in Hc. discriminate Hc.
  - exists w', evs. split; [exact E|]. split; [exact L|].
    exists v. exact A.
Defined.

(** [X3], at work: on EIR, an ETH register, the bit-field-clear command
    goes out alone. *)
Lemma clearRegBitField_dispatch_witness :
  exists w' evs,
    _ENC28J60_clearRegBitField EIR EIR_TXIF (world ERXTX_BANK 0 0 idle)
    = Some (tt, w') /\
    log w' = evs /\ acts evs = [BFC EIR EIR_TXIF].
Proof.
  destruct (@clearRegBitField_dispatch Scripted EIR EIR_TXIF
              (world ERXTX_BANK 0 0 idle))
    as (w' & evs & E & L & _ & [[_ A]|[Hc _]]).
  - unfold EIR. lia.
  - unfold is_byte, EIR_TXIF. lia.
  - exists w', evs. split; [exact E|]. split; [exact L | exact A].
  - exfalso. apply Hc. reflexivity.
Defined.

(** [X4], at work: 0x1234 goes to ETXNDL as 0x34 and to ETXNDH as 0x12. *)
Lemma writeReg16_low_byte_first_witness :
  exists w' evs,
    _ENC28J60_writeReg16 ETXNDL 0x1234 (world ERXTX_BANK 0 0 idle)
    = Some (tt, w') /\
    log w' = evs /\
    acts evs = [WCR ETXNDL 0x34; WCR ETXNDH 0x12].
Proof.
  destruct (@writeReg16_low_byte_first Scripted ETXNDL 0x1234
              (world ERXTX_BANK 0 0 idle))
    as (w' & evs & E & L & _ & A & _).
  - unfold ETXNDL. lia.
  - lia.
  - exists w', evs. split; [exact E|]. split; [exact L | exact A].
Defined.

(** [X9], at work: the oscillator is ready at the first poll, and the
    reset returns 0 with the address bank recorded. *)
Lemma reset_configures_chip_witness :
  exists w3,
    (exists n, forall fuel, (n <= fuel)%nat ->
       _ENC28J60_reset fuel (world 0 7 9 alarm_script) = Some (0, w3)) /\
    dev w3 = set_bank MAADRX_BANK (dev (world 0 7 9 alarm_script)).
Proof.
  eassert (H1 : reset_pulse (world 0 7 9 alarm_script) = Some (_, _)) by run.
  eassert (Hp : polls ESTAT clkrdy _ _ Satisfied _);
    [|destruct (reset_configures_chip _ _ _ _ H1 Hp)
        as (w3 & evs & t0 & tr & e1 & e2 & e3 & e4 & m1 & m3 & Hn & _ & _ & _
            & Hd)].
  - eapply polls_ready; [run | run].
  - exists w3. split; [exact Hn | exact Hd].
Defined.

(** [X10], at work: a reset that times out leaves the handle as it was. *)
Lemma reset_outcomes_witness :
  exists w2,
    _ENC28J60_reset 2 (world 3 7 9 osc_late_script) = Some (1, w2) /\
    dev w2 = dev (world 3 7 9 osc_late_script).
Proof.
  eassert (Hr : _ENC28J60_reset 2 (world 3 7 9 osc_late_script)
                = Some (1, _)) by run.
  destruct (reset_outcomes _ _ _ _ Hr) as ([[_ Hd]|[Hc _]] & _).
  - eexists. split; [exact Hr | exact Hd].
  - discriminate Hc.
Defined.

(** [X11], at work: setup after one failed reset. *)
Lemma setup_postcondition_witness :
  exists wc,
    ENC28J60_setup 2 (world 1 7 9 osc_late_script) = Some (HAL_OK, wc) /\
    receivedPackets (dev wc) = 0 /\
    sentPackets (dev wc) = 0 /\
    bank (dev wc) = MAADRX_BANK.
Proof.
  eassert (Hs : ENC28J60_setup 2 (world 1 7 9 osc_late_script)
                = Some (HAL_OK, _)) by run.
  destruct (setup_postcondition _ _ _ _ Hs) as (_ & Hr & Hn & Hb & _).
  eexists. split; [exact Hs|]. split; [exact Hr|]. split; [exact Hn|].
  exact Hb.
Defined.

(** [X12], at work: a transmit request that reads clear at the first
    poll. *)
Lemma send_outcomes_witness :
  exists w',
    ENC28J60_send 1 [1; 2; 3] 3 (world 1 4 7 idle) = Some (3, w') /\
    dev w' = set_sentPackets 8 (set_bank ERXTX_BANK (dev (world 1 4 7 idle))).
Proof.
  eassert (Hs : ENC28J60_send 1 [1; 2; 3] 3 (world 1 4 7 idle)
                = Some (3, _)) by run.
  destruct (send_outcomes _ _ _ _ _ _ Hs)
    as (t & w1 & _ & [(Hc & _)|(_ & _ & Hd)] & _).
  - discriminate Hc.
  - eexists. split; [exact Hs | exact Hd].
Defined.

(** [X13], at work: the transmission starts at tick 4294967000, the
    deadline wraps to 4704, and the poll 100 ms later gives up. *)
Lemma send_deadline_wraps_witness :
  exists w3,
    (forall fuel, (1 <= fuel)%nat ->
       ENC28J60_send fuel [1; 2; 3] 3 (world 0 0 7 tick_wrap_script)
       = Some (0, w3)) /\
    sentPackets (dev w3) = 7.
Proof.
  eassert (Hl : send_load [1; 2; 3] 3 (world 0 0 7 tick_wrap_script)
                = Some (_, _)) by run.
  match type of Hl with
  | _ = Some (_, ?w1) =>
      eassert (Hv : _ENC28J60_readReg ECON1 w1 = Some (_, _)) by run
  end.
  match type of Hv with
  | _ = Some (_, ?w2) =>
      eassert (Ht : do_HAL_GetTick w2 = Some (_, _)) by run
  end.
  destruct (send_deadline_wraps _ _ _ _ _ _ _ _ _ Hl
              ltac:(reflexivity) Hv ltac:(reflexivity) Ht
              ltac:(reflexivity))
    as (t0 & evs & pre & _ & _ & _ & _ & Hn & _).
  eexists. split; [exact Hn | reflexivity].
Defined.

(** [X14], at work: a tick before the interval is over. *)
Lemma tick_before_interval_witness :
  exists w1,
    ENC28J60_tick 0 (world 0 0 5 idle) = Some (tt, w1) /\
    log w1 = [] /\
    receivedPackets (dev w1) = 0 /\ sentPackets (dev w1) = 5.
Proof.
  eassert (He : do_periodicTimer_hasElapsed (world 0 0 5 idle)
                = Some (false, _)) by run.
  destruct (tick_before_interval _ _ He 0%nat) as (E & L & Hr & Hs).
  eexists. split; [exact E|]. split; [exact L|].
  split; [exact Hr | exact Hs].
Defined.

(** [X15], at work: a frame is received and the watchdog then fires
    without resetting the chip. *)
Lemma receive_then_tick_witness :
  exists b w1 w3,
    ENC28J60_receive [9; 9; 9; 9] 4 (world 0 0 0 frame_then_alarm_script)
    = Some ((3, b), w1) /\
    ENC28J60_tick 0 w1 = Some (tt, w3) /\
    log w3 = log w1 /\
    receivedPackets (dev w3) = 0 /\ sentPackets (dev w3) = 0.
Proof.
  eassert (Hr : ENC28J60_receive [9; 9; 9; 9] 4
                  (world 0 0 0 frame_then_alarm_script)
                = Some ((3, _), _)) by run.
  match type of Hr with
  | _ = Some (_, ?w1) =>
      eassert (He : do_periodicTimer_hasElapsed w1 = Some (true, _)) by run
  end.
  destruct (receive_then_tick [9; 9; 9; 9] 4
              (world 0 0 0 frame_then_alarm_script) _ _ _ _
              eq_refl eq_refl Hr ltac:(reflexivity) He) as [_ H].
  destruct (H 0%nat) as (w3 & E & L & H0 & H1).
  eexists. eexists. exists w3. split; [exact Hr|].
  split; [exact E|]. split; [exact L|]. split; [exact H0 | exact H1].
Defined.

(** [X16], at work: MACON3 in the MAC bank is read with a dummy byte. *)
Lemma readReg_dummy_byte_witness :
  exists w',
    _ENC28J60_readReg MACON3
      (world MACONX_BANK 0 0 {| miso := [1; 2; 3]; ticks := []; alarms := [] |})
    = Some (3, w') /\
    log w' = txn [(MACON3, 1); (0, 2); (0, 3)].
Proof.
  destruct (@readReg_dummy_byte Scripted MACON3
              (world MACONX_BANK 0 0
                 {| miso := [1; 2; 3]; ticks := []; alarms := [] |}))
    as (v & w' & evs & x & d & E & L & _).
  - unfold MACON3. lia.
  - exists w'. vm_compute in E. injection E as Ev Ew. subst w'.
    split; reflexivity.
Defined.

(** * The deadline at tick rollover *)

(** [C4] The transmit timeout is missed when the tick rolls over.  A
    transmission is started 5001 ms before the 32-bit tick rolls over, so
    the deadline is 2^32 - 1, which no reading exceeds.  The transmit
    request reads set 5.0 s, 5.7 s, 15.7 s and 65.7 s after the start, and
    [ENC28J60_send] keeps polling; when the bit then reads clear it returns
    the frame length 3 and the sent-packet counter goes from 7 to 8.
    Whatever the iteration budget, the call never returns 0. *)
Theorem send_misses_timeout_at_rollover :
  exists w',
    (forall fuel, (5 <= fuel)%nat ->
       ENC28J60_send fuel [1; 2; 3] 3 (world 0 0 7 send_rollover_script)
       = Some (3, w')) /\
    (forall fuel r w'',
       ENC28J60_send fuel [1; 2; 3] 3 (world 0 0 7 send_rollover_script)
       = Some (r, w'') ->
       r = 3 /\ sentPackets (dev w'') = 8) /\
    sentPackets (dev w') = 8 /\
    acts (log w') =
      [RCR ECON1 0; WCR ECON1 0;
       WCR ETXSTL 0x00; WCR ETXSTH 0x12; WCR EWRPTL 0x00; WCR EWRPTH 0x12;
       WBM [0]; WBM [1; 2; 3]; WCR ETXNDL 0x03; WCR ETXNDH 0x12;
       BFC EIR EIR_TXIF; BFS ECON1 ECON1_TXRTS;
       Clock rollover_start;
       RCR ECON1 0x08; Clock (u32 (rollover_start + 5000));
       RCR ECON1 0x08; Clock (u32 (rollover_start + 5700));
       RCR ECON1 0x08; Clock (u32 (rollover_start + 15700));
       RCR ECON1 0x08; Clock (u32 (rollover_start + 65700));
       RCR ECON1 0x00] /\
    u32 (rollover_start + 5000) = 4294967295 /\
    u32 (rollover_start + 5700) = 699 /\
    u32 (rollover_start + 65700) = 60699.
Proof.
  eassert (Hl : send_load [1; 2; 3] 3 (world 0 0 7 send_rollover_script)
                = Some (4294967295, _)) by run.
  eassert (Hs : ENC28J60_send 5 [1; 2; 3] 3
                  (world 0 0 7 send_rollover_script) = Some (3, _)) by run.
  eexists. split; [|split; [|split; [|split; [|repeat split]]]].
  - intros fuel Hf. eapply send_mono; [exact Hs | exact Hf].
  - intros fuel r w'' H.
    destruct (send_max_deadline _ _ _ _ Hl _ _ _ H) as [Hr Hc].
    split; [exact Hr | exact Hc].
  - reflexivity.
  - run.
Qed.

(** [C7] The oscillator timeout is missed when the tick rolls over.  A
    reset is started 5001 ms before the 32-bit tick rolls over, so the
    deadline is 2^32 - 1, which no reading exceeds.  The oscillator reads
    not ready 5.0 s, 5.7 s and 65.7 s after the start, and
    [_ENC28J60_reset] keeps polling; when it then reads ready the routine
    programs every register of the configuration and returns 0.  Whatever
    the iteration budget, the call never returns 1. *)
Theorem reset_misses_timeout_at_rollover :
  exists w',
    (forall fuel, (4 <= fuel)%nat ->
       _ENC28J60_reset fuel (world 0 7 9 reset_rollover_script)
       = Some (0, w')) /\
    (forall fuel r w'',
       _ENC28J60_reset fuel (world 0 7 9 reset_rollover_script)
       = Some (r, w'') ->
       r = 0) /\
    bank (dev w') = MAADRX_BANK /\
    acts (log w') =
      [ResetAssert; Delay 2; ResetDeassert; Delay 2; Delay 2;
       Clock rollover_start;
       RCR ESTAT 0; Clock (u32 (rollover_start + 5000));
       RCR ESTAT 0; Clock (u32 (rollover_start + 5700));
       RCR ESTAT 0; Clock (u32 (rollover_start + 65700));
       RCR ESTAT ESTAT_CLKRDY;
       RCR ECON1 0; WCR ECON1 ERXTX_BANK;
       WCR ERXSTL 0x00; WCR ERXSTH 0x00; WCR ERXNDL 0xff; WCR ERXNDH 0x0f;
       WCR ERDPTL 0x00; WCR ERDPTH 0x00;
       WCR ERXRDPTL 0xff; WCR ERXRDPTH 0x0f;
       RCR ECON1 0; WCR ECON1 EPKTCNT_BANK;
       WCR ERXFCON 0xa1;
       RCR ECON1 0; WCR ECON1 MACONX_BANK;
       RCR MACON1 0; WCR MACON1 0x0d;
       RCR MACON3 0; WCR MACON3 0xf3;
       WCR MAMXFLL 0xee; WCR MAMXFLH 0x05;
       WCR MABBIPG 0x15; WCR MAIPGL 0x12;
       RCR ECON1 0; WCR ECON1 MAADRX_BANK;
       WCR MAADR6 0x56; WCR MAADR5 0x34; WCR MAADR4 0x12;
       WCR MAADR3 0x00; WCR MAADR2 0x00; WCR MAADR1 0x02;
       BFS ECON2 ECON2_AUTOINC; WCR ECON1 ECON1_RXEN] /\
    u32 (rollover_start + 5000) = 4294967295 /\
    u32 (rollover_start + 5700) = 699 /\
    u32 (rollover_start + 65700) = 60699.
Proof.
  eassert (Hp : reset_pulse (world 0 7 9 reset_rollover_script)
                = Some (4294967295, _)) by run.
  eassert (Hr : _ENC28J60_reset 4 (world 0 7 9 reset_rollover_script)
                = Some (0, _)) by run.
  eexists. split; [|split; [|split; [|split; [|repeat split]]]].
  - intros fuel Hf. eapply reset_mono; [exact Hr | exact Hf].
  - intros fuel r w'' H.
    destruct (reset_max_deadline _ _ Hp _ _ _ H) as [H0 _]. exact H0.
  - reflexivity.
  - run.
Qed.
